(** * Format-element engine of CAST(... FORMAT ...) for date/time values

    A shallow embedding of zetasql/public/functions/cast_date_time.cc:
    the element catalog, the tokenizer, the validators, the parser, the
    formatter and the cast entry points, followed by the properties
    established about them.

    Conventions of the embedding.
    - A [std::string] / [absl::string_view] is a [string]: a sequence of
      8-bit [ascii] values, i.e. bytes.
    - Lengths and offsets ([size_t], and the [int] fields that hold
      lengths) are [nat]; [absl::string_view::npos] is [None].
    - Calendar quantities held in [int] are [Z]; C++ [/] and [%] are
      [Z.quot] and [Z.rem].
    - [absl::Status] / [StatusOr<T>] is the sum type [StatusOr]. *)

From Stdlib Require Import ZArith List String Ascii Bool Lia Arith.
From Stdlib Require Import DecimalString.
Import ListNotations.

Local Open Scope string_scope.
Local Open Scope bool_scope.

(** ** Status values *)

(** The three ways the file builds an error: [MakeEvalError()],
    [MakeSqlError()] and a failed [ZETASQL_RET_CHECK]. *)
Inductive ErrorStatus : Type :=
| MakeEvalError (msg : string)
| MakeSqlError (msg : string)
| RetCheckFailure (cond : string).

Inductive StatusOr (A : Type) : Type :=
| Value (a : A)
| Failure (e : ErrorStatus).

Arguments Value {A} a.
Arguments Failure {A} e.

Definition Status : Type := StatusOr unit.
Definition OkStatus : Status := Value tt.

Definition ok {A : Type} (r : StatusOr A) : bool :=
  match r with Value _ => true | Failure _ => false end.

(** [ZETASQL_ASSIGN_OR_RETURN] and [ZETASQL_RETURN_IF_ERROR]. *)
Definition bind {A B : Type} (r : StatusOr A) (k : A -> StatusOr B)
  : StatusOr B :=
  match r with
  | Value a => k a
  | Failure e => Failure e
  end.

Notation "'ASSIGN_OR_RETURN' x <- r ; k" := (bind r (fun x => k))
  (at level 10, x name, r at level 100, k at level 200,
   format "'[v' 'ASSIGN_OR_RETURN'  x  <-  r ; '/' k ']'").
Notation "'RETURN_IF_ERROR' r ; k" := (bind r (fun _ : unit => k))
  (at level 10, r at level 100, k at level 200,
   format "'[v' 'RETURN_IF_ERROR'  r ; '/' k ']'").

(** ** Bytes and strings *)

Definition dquote : ascii := "034"%char.
Definition backslash : ascii := "092"%char.
Definition space : ascii := " "%char.

Definition str1 (c : ascii) : string := String c EmptyString.

(** [s.substr(n)] for [n <= s.size()]. *)
Fixpoint substr_from (n : nat) (s : string) : string :=
  match n, s with
  | O, _ => s
  | S n', String _ s' => substr_from n' s'
  | S _, EmptyString => EmptyString
  end.

(** [s.substr(pos, len)]. *)
Definition substr (pos len : nat) (s : string) : string :=
  substring pos len s.

(** [absl::StartsWith(s, p)]. *)
Definition StartsWith (s p : string) : bool := prefix p s.

Definition in_range (lo hi : nat) (c : ascii) : bool :=
  let n := nat_of_ascii c in (lo <=? n)%nat && (n <=? hi)%nat.

Definition ascii_islower (c : ascii) : bool := in_range 97 122 c.
Definition ascii_isupper (c : ascii) : bool := in_range 65 90 c.
Definition ascii_isalpha (c : ascii) : bool :=
  ascii_isupper c || ascii_islower c.
Definition ascii_isdigit (c : ascii) : bool := in_range 48 57 c.
Definition ascii_isspace (c : ascii) : bool :=
  in_range 9 13 c || Ascii.eqb c space.

Definition ascii_toupper (c : ascii) : ascii :=
  if ascii_islower c then ascii_of_nat (nat_of_ascii c - 32) else c.
Definition ascii_tolower (c : ascii) : ascii :=
  if ascii_isupper c then ascii_of_nat (nat_of_ascii c + 32) else c.

Fixpoint AsciiStrToUpper (s : string) : string :=
  match s with
  | EmptyString => EmptyString
  | String c s' => String (ascii_toupper c) (AsciiStrToUpper s')
  end.

Fixpoint AsciiStrToLower (s : string) : string :=
  match s with
  | EmptyString => EmptyString
  | String c s' => String (ascii_tolower c) (AsciiStrToLower s')
  end.

(** Decimal rendering of sizes and of [int] values ([operator<<],
    [absl::StrCat], [std::to_string]). *)
Definition string_of_nat (n : nat) : string :=
  NilZero.string_of_uint (Nat.to_uint n).
Definition string_of_Z (z : Z) : string :=
  NilZero.string_of_int (Z.to_int z).

Fixpoint spaces (n : nat) : string :=
  match n with
  | O => EmptyString
  | S n' => String space (spaces n')
  end.

(** ** Element catalog *)

Inductive FormatElementType : Type :=
| kFormatElementTypeUnspecified
| kSimpleLiteral | kDoubleQuotedLiteral | kWhitespace
| kYYYY | kYYY | kYY | kY | kRRRR | kRR | kYCommaYYY
| kIYYY | kIYY | kIY | kI | kSYYYY | kYEAR | kSYEAR
| kMM | kMON | kMONTH | kRM
| kDDD | kDD | kD | kDAY | kDY | kJ
| kHH | kHH12 | kHH24
| kMI
| kSS | kSSSSS | kFFN
| kAM | kPM | kAMWithDots | kPMWithDots
| kTZH | kTZM
| kCC | kSCC
| kQ
| kIW | kWW | kW
| kAD | kBC | kADWithDots | kBCWithDots
| kSP | kTH | kSPTH | kTHSP | kFM.

Inductive FormatElementCategory : Type :=
| kFormatElementCategoryUnspecified
| kLiteral | kYear | kMonth | kDay | kHour | kMinute | kSecond
| kMeridianIndicator | kTimeZone | kCentury | kQuarter | kWeek
| kEraIndicator | kMisc.

Inductive FormatCasingType : Type :=
| kFormatCasingTypeUnspecified
| kPreserveCase
| kAllLettersUppercase
| kAllLettersLowercase
| kOnlyFirstLetterUppercase.

Scheme Equality for FormatElementType.
Scheme Equality for FormatElementCategory.
Scheme Equality for FormatCasingType.

Definition type_eqb := FormatElementType_beq.
Definition category_eqb := FormatElementCategory_beq.

Definition FormatElementTypeString (type : FormatElementType) : string :=
  match type with
  | kFormatElementTypeUnspecified => "FORMAT_ELEMENT_TYPE_UNSPECIFIED"
  | kSimpleLiteral => "SIMPLE_LITERAL"
  | kDoubleQuotedLiteral => "DOUBLE_QUOTED_LITERAL"
  | kWhitespace => "WHITESPACE"
  | kYYYY => "YYYY" | kYYY => "YYY" | kYY => "YY" | kY => "Y"
  | kRRRR => "RRRR" | kRR => "RR"
  | kYCommaYYY => "Y,YYY"
  | kIYYY => "IYYY" | kIYY => "IYY" | kIY => "IY" | kI => "I"
  | kSYYYY => "SYYYY" | kYEAR => "YEAR" | kSYEAR => "SYEAR"
  | kMM => "MM" | kMON => "MON" | kMONTH => "MONTH" | kRM => "RM"
  | kDDD => "DDD" | kDD => "DD" | kD => "D" | kDAY => "DAY"
  | kDY => "DY" | kJ => "J"
  | kHH => "HH" | kHH12 => "HH12" | kHH24 => "HH24"
  | kMI => "MI"
  | kSS => "SS" | kSSSSS => "SSSSS" | kFFN => "FFN"
  | kAM => "AM" | kPM => "PM"
  | kAMWithDots => "A.M." | kPMWithDots => "P.M."
  | kTZH => "TZH" | kTZM => "TZM"
  | kCC => "CC" | kSCC => "SCC"
  | kQ => "Q"
  | kIW => "IW" | kWW => "WW" | kW => "W"
  | kAD => "AD" | kBC => "BC"
  | kADWithDots => "A.D." | kBCWithDots => "B.C."
  | kSP => "SP" | kTH => "TH" | kSPTH => "SPTH" | kTHSP => "THSP"
  | kFM => "FM"
  end.

Definition GetFormatElementCategoryFromType (type : FormatElementType)
  : FormatElementCategory :=
  match type with
  | kFormatElementTypeUnspecified => kFormatElementCategoryUnspecified
  | kSimpleLiteral | kDoubleQuotedLiteral | kWhitespace => kLiteral
  | kYYYY | kYYY | kYY | kY | kRRRR | kRR | kYCommaYYY
  | kIYYY | kIYY | kIY | kI | kSYYYY | kYEAR | kSYEAR => kYear
  | kMM | kMON | kMONTH | kRM => kMonth
  | kDDD | kDD | kD | kDAY | kDY | kJ => kDay
  | kHH | kHH12 | kHH24 => kHour
  | kMI => kMinute
  | kSS | kSSSSS | kFFN => kSecond
  | kAM | kPM | kAMWithDots | kPMWithDots => kMeridianIndicator
  | kTZH | kTZM => kTimeZone
  | kCC | kSCC => kCentury
  | kQ => kQuarter
  | kIW | kWW | kW => kWeek
  | kAD | kBC | kADWithDots | kBCWithDots => kEraIndicator
  | kSP | kTH | kSPTH | kTHSP | kFM => kMisc
  end.

Definition FormatElementCategoryString (category : FormatElementCategory)
  : string :=
  match category with
  | kFormatElementCategoryUnspecified => "FORMAT_ELEMENT_CATEGORY_UNSPECIFIED"
  | kLiteral => "LITERAL"
  | kYear => "YEAR"
  | kMonth => "MONTH"
  | kDay => "DAY"
  | kHour => "HOUR"
  | kMinute => "MINUTE"
  | kSecond => "SECOND"
  | kMeridianIndicator => "MERIDIAN_INDICATOR"
  | kTimeZone => "TIME_ZONE"
  | kCentury => "CENTURY"
  | kQuarter => "QUARTER"
  | kWeek => "WEEK"
  | kEraIndicator => "ERA_INDICATOR"
  | kMisc => "MISC"
  end.

(** The element record of cast_date_time.h, with the fields the .cc file
    reads and writes; [default_element] is the value-initialised record
    that [GetNextDateTimeFormatElement] starts from. *)
Record DateTimeFormatElement : Type := mkElement {
  type : FormatElementType;
  category : FormatElementCategory;
  len_in_format_str : nat;
  format_casing_type : FormatCasingType;
  literal_value : string;
  subsecond_digit_count : Z
}.

Definition default_element : DateTimeFormatElement :=
  {| type := kFormatElementTypeUnspecified;
     category := kFormatElementCategoryUnspecified;
     len_in_format_str := 0;
     format_casing_type := kFormatCasingTypeUnspecified;
     literal_value := EmptyString;
     subsecond_digit_count := 0 |}.

Definition set_type (t : FormatElementType) (e : DateTimeFormatElement) :=
  mkElement t (category e) (len_in_format_str e) (format_casing_type e)
            (literal_value e) (subsecond_digit_count e).
Definition set_category (c : FormatElementCategory)
  (e : DateTimeFormatElement) :=
  mkElement (type e) c (len_in_format_str e) (format_casing_type e)
            (literal_value e) (subsecond_digit_count e).
Definition set_len_in_format_str (n : nat) (e : DateTimeFormatElement) :=
  mkElement (type e) (category e) n (format_casing_type e)
            (literal_value e) (subsecond_digit_count e).
Definition set_format_casing_type (k : FormatCasingType)
  (e : DateTimeFormatElement) :=
  mkElement (type e) (category e) (len_in_format_str e) k
            (literal_value e) (subsecond_digit_count e).
Definition set_literal_value (v : string) (e : DateTimeFormatElement) :=
  mkElement (type e) (category e) (len_in_format_str e)
            (format_casing_type e) v (subsecond_digit_count e).
Definition set_subsecond_digit_count (n : Z) (e : DateTimeFormatElement) :=
  mkElement (type e) (category e) (len_in_format_str e)
            (format_casing_type e) (literal_value e) n.

(** The message carried by a non-OK status ([status().message()]). *)
Definition message (e : ErrorStatus) : string :=
  match e with
  | MakeEvalError m => m
  | MakeSqlError m => m
  | RetCheckFailure c => c
  end.

(** ** Library collaborators of the tokenizer *)

(** Modelled from the spec: zetasql/base/general_trie.h is not part of the
    sources at hand.  The spec describes the lookup as a maximal-munch
    longest-prefix match in a trie keyed on the element literals, the node
    value being absent or an element type.  The trie is represented by its
    key/value bindings; [Insert] binds a key (replacing an earlier binding
    of the same key) and [GetDataForMaximalPrefix] returns the data of the
    longest bound key that is a prefix of the argument together with that
    key's length, or the null value when no bound key is a prefix. *)
Definition kFormatElementTypeNullValue : FormatElementType :=
  kFormatElementTypeUnspecified.

Definition FormatElementTypeTrie : Type := list (string * FormatElementType).

Definition Insert (key : string) (data : FormatElementType)
  (trie : FormatElementTypeTrie) : FormatElementTypeTrie :=
  (key, data) :: filter (fun kv => negb (String.eqb (fst kv) key)) trie.

Fixpoint GetDataForMaximalPrefix (trie : FormatElementTypeTrie)
  (key : string) : FormatElementType * nat :=
  match trie with
  | [] => (kFormatElementTypeNullValue, 0)
  | (k, d) :: rest =>
      match GetDataForMaximalPrefix rest key with
      | (best_data, best_len) =>
          if prefix k key && (best_len <? length k)%nat
             && negb (type_eqb d kFormatElementTypeNullValue)
          then (d, length k)
          else (best_data, best_len)
      end
  end.

Arguments GetDataForMaximalPrefix : simpl never.

(** [absl::SimpleAtoi] into an [int]: surrounding ASCII whitespace is
    dropped, an optional sign is read, and the rest must be a non-empty
    run of decimal digits whose value fits in 32 bits. *)
Fixpoint strip_leading_ws (s : string) : string :=
  match s with
  | EmptyString => EmptyString
  | String c s' => if ascii_isspace c then strip_leading_ws s' else s
  end.

Fixpoint strip_trailing_ws (s : string) : string :=
  match s with
  | EmptyString => EmptyString
  | String c s' =>
      match strip_trailing_ws s' with
      | EmptyString => if ascii_isspace c then EmptyString else str1 c
      | r => String c r
      end
  end.

Definition digit_value (c : ascii) : option Z :=
  if ascii_isdigit c then Some (Z.of_nat (nat_of_ascii c - 48)) else None.

Fixpoint parse_digits (s : string) (acc : Z) : option Z :=
  match s with
  | EmptyString => Some acc
  | String c s' =>
      match digit_value c with
      | Some d => parse_digits s' (acc * 10 + d)
      | None => None
      end
  end.

Definition INT_MAX : Z := 2147483647.
Definition INT_MIN : Z := -2147483648.

Definition SimpleAtoi (text : string) : option Z :=
  match strip_trailing_ws (strip_leading_ws text) with
  | EmptyString => None
  | String c r as s =>
      let negative := Ascii.eqb c "-"%char in
      let digits := if negative || Ascii.eqb c "+"%char then r else s in
      match digits with
      | EmptyString => None
      | _ =>
          match parse_digits digits 0 with
          | Some v =>
              let v := if negative then (- v)%Z else v in
              if (INT_MIN <=? v)%Z && (v <=? INT_MAX)%Z then Some v
              else None
          | None => None
          end
      end
  end.

(** ** Tokenizer *)

Definition InitializeFormatElementTypeTrie : FormatElementTypeTrie :=
  let trie : FormatElementTypeTrie := [] in
  (* Simple Literals *)
  let trie := Insert "-" kSimpleLiteral trie in
  let trie := Insert "." kSimpleLiteral trie in
  let trie := Insert "/" kSimpleLiteral trie in
  let trie := Insert "," kSimpleLiteral trie in
  let trie := Insert "'" kSimpleLiteral trie in
  let trie := Insert ";" kSimpleLiteral trie in
  let trie := Insert ":" kSimpleLiteral trie in
  (* Double Quoted Literal *)
  let trie := Insert (str1 dquote) kDoubleQuotedLiteral trie in
  (* Whitespace *)
  let trie := Insert " " kWhitespace trie in
  (* Year *)
  let trie := Insert "YYYY" kYYYY trie in
  let trie := Insert "YYY" kYYY trie in
  let trie := Insert "YY" kYY trie in
  let trie := Insert "Y" kY trie in
  let trie := Insert "RRRR" kRRRR trie in
  let trie := Insert "RR" kRR trie in
  let trie := Insert "Y,YYY" kYCommaYYY trie in
  let trie := Insert "IYYY" kIYYY trie in
  let trie := Insert "IYY" kIYY trie in
  let trie := Insert "IY" kIY trie in
  let trie := Insert "I" kI trie in
  let trie := Insert "SYYYY" kSYYYY trie in
  let trie := Insert "YEAR" kYEAR trie in
  let trie := Insert "SYEAR" kSYEAR trie in
  (* Month *)
  let trie := Insert "MM" kMM trie in
  let trie := Insert "MON" kMON trie in
  let trie := Insert "MONTH" kMONTH trie in
  let trie := Insert "RM" kRM trie in
  (* Day *)
  let trie := Insert "DDD" kDDD trie in
  let trie := Insert "DD" kDD trie in
  let trie := Insert "D" kD trie in
  let trie := Insert "DAY" kDAY trie in
  let trie := Insert "DY" kDY trie in
  let trie := Insert "J" kJ trie in
  (* Hour *)
  let trie := Insert "HH" kHH trie in
  let trie := Insert "HH12" kHH12 trie in
  let trie := Insert "HH24" kHH24 trie in
  (* Minute *)
  let trie := Insert "MI" kMI trie in
  (* Second *)
  let trie := Insert "SS" kSS trie in
  let trie := Insert "SSSSS" kSSSSS trie in
  let trie := Insert "FF1" kFFN trie in
  let trie := Insert "FF2" kFFN trie in
  let trie := Insert "FF3" kFFN trie in
  let trie := Insert "FF4" kFFN trie in
  let trie := Insert "FF5" kFFN trie in
  let trie := Insert "FF6" kFFN trie in
  let trie := Insert "FF7" kFFN trie in
  let trie := Insert "FF8" kFFN trie in
  let trie := Insert "FF9" kFFN trie in
  (* Meridian indicator *)
  let trie := Insert "AM" kAM trie in
  let trie := Insert "PM" kPM trie in
  let trie := Insert "A.M." kAMWithDots trie in
  let trie := Insert "P.M." kPMWithDots trie in
  (* Time zone *)
  let trie := Insert "TZH" kTZH trie in
  let trie := Insert "TZM" kTZM trie in
  (* Century *)
  let trie := Insert "CC" kCC trie in
  let trie := Insert "SCC" kSCC trie in
  (* Quarter *)
  let trie := Insert "Q" kQ trie in
  (* Week *)
  let trie := Insert "IW" kIW trie in
  let trie := Insert "WW" kWW trie in
  let trie := Insert "W" kW trie in
  (* Era Indicator *)
  let trie := Insert "AD" kAD trie in
  let trie := Insert "BC" kBC trie in
  let trie := Insert "A.D." kADWithDots trie in
  let trie := Insert "B.C." kBCWithDots trie in
  (* Misc *)
  let trie := Insert "SP" kSP trie in
  let trie := Insert "TH" kTH trie in
  let trie := Insert "SPTH" kSPTH trie in
  let trie := Insert "THSP" kTHSP trie in
  let trie := Insert "FM" kFM trie in
  trie.

Definition GetFormatElementTypeTrie : FormatElementTypeTrie :=
  Eval vm_compute in InitializeFormatElementTypeTrie.

Definition char_at (i : nat) (s : string) : ascii :=
  match get i s with Some c => c | None => zero end.

(** Decides the casing of a non-literal element from its original text
    and its category. *)
Definition GetFormatCasingTypeOfNonLiteralElements
  (format_element_str : string) (category : FormatElementCategory)
  : StatusOr FormatCasingType :=
  if category_eqb category kLiteral then
    Failure (RetCheckFailure "category != FormatElementCategory::kLiteral")
  else if negb (negb (String.eqb format_element_str EmptyString)
                && ascii_isalpha (char_at 0 format_element_str)) then
    Failure (RetCheckFailure
      "!format_element_str.empty() && absl::ascii_isalpha(format_element_str[0])")
  else if ascii_islower (char_at 0 format_element_str) then
    Value kAllLettersLowercase
  else if category_eqb category kMeridianIndicator
          || category_eqb category kEraIndicator
          || (length format_element_str =? 1)%nat
          || String.eqb (AsciiStrToUpper format_element_str) "Y,YYY" then
    Value kAllLettersUppercase
  else if negb (ascii_isalpha (char_at 1 format_element_str)) then
    Failure (RetCheckFailure "absl::ascii_isalpha(format_element_str[1])")
  else if ascii_isupper (char_at 0 format_element_str)
          && ascii_islower (char_at 1 format_element_str) then
    Value kOnlyFirstLetterUppercase
  else
    Value kAllLettersUppercase.

(** The run of [' '] that continues a whitespace element: the number of
    leading spaces of the text after the first matched one. *)
Fixpoint count_spaces (s : string) : nat :=
  match s with
  | String c s' => if Ascii.eqb c space then S (count_spaces s') else 0
  | EmptyString => 0
  end.

(** The scan for the closing quote of a double-quoted literal.  [rest] is
    the text from [ind_to_check] on; the result is the final [matched_len]
    and the unescaped literal. *)
Fixpoint scan_quoted_literal (rest : string) (is_escaped : bool)
  (matched_len : nat) (literal : string) : StatusOr (nat * string) :=
  match rest with
  | EmptyString =>
      Failure (MakeEvalError
        ("Cannot find matching " ++ str1 dquote ++ " for quoted literal"))
  | String char_to_check rest' =>
      let matched_len := S matched_len in
      if is_escaped then
        if Ascii.eqb char_to_check backslash
           || Ascii.eqb char_to_check dquote then
          scan_quoted_literal rest' false matched_len
            (literal ++ str1 char_to_check)
        else
          Failure (MakeEvalError
            ("Unsupported escape sequence " ++ str1 backslash
             ++ str1 char_to_check ++ " in text"))
      else if Ascii.eqb char_to_check backslash then
        scan_quoted_literal rest' true matched_len literal
      else if Ascii.eqb char_to_check dquote then
        Value (matched_len, literal)
      else
        scan_quoted_literal rest' false matched_len
          (literal ++ str1 char_to_check)
  end.

Definition GetNextDateTimeFormatElement (format_str upper_format_str : string)
  : StatusOr DateTimeFormatElement :=
  let format_element := default_element in
  let '(type_, matched_len) :=
    GetDataForMaximalPrefix GetFormatElementTypeTrie upper_format_str in
  if type_eqb type_ kFormatElementTypeNullValue then
    Failure (MakeEvalError "Cannot find matched format element")
  else
    let format_element := set_type type_ format_element in
    let format_element :=
      set_category (GetFormatElementCategoryFromType type_) format_element in
    if negb (category_eqb (category format_element) kLiteral) then
      ASSIGN_OR_RETURN casing <-
        GetFormatCasingTypeOfNonLiteralElements
          (substr 0 matched_len format_str) (category format_element);
      let format_element := set_format_casing_type casing format_element in
      let format_element := set_len_in_format_str matched_len format_element in
      if type_eqb (type format_element) kFFN then
        match SimpleAtoi (substr 2 (matched_len - 2) format_str) with
        | None =>
            Failure (MakeEvalError "Failed to parse format element of FFN type")
        | Some n => Value (set_subsecond_digit_count n format_element)
        end
      else Value format_element
    else
      let format_element :=
        set_format_casing_type kPreserveCase format_element in
      if type_eqb (type format_element) kSimpleLiteral then
        let format_element :=
          set_len_in_format_str matched_len format_element in
        Value (set_literal_value (substr 0 matched_len format_str)
                                 format_element)
      else if type_eqb (type format_element) kWhitespace then
        let matched_len :=
          matched_len + count_spaces (substr_from matched_len format_str) in
        Value (set_len_in_format_str matched_len format_element)
      else if negb (type_eqb (type format_element) kDoubleQuotedLiteral) then
        Failure (RetCheckFailure
          "format_element.type == FormatElementType::kDoubleQuotedLiteral")
      else
        ASSIGN_OR_RETURN r <-
          scan_quoted_literal (substr_from 1 format_str) false matched_len
                              EmptyString;
        let format_element := set_literal_value (snd r) format_element in
        Value (set_len_in_format_str (fst r) format_element).

(** The scanning loop of [GetDateTimeFormatElements].  Every iteration
    advances [processed_len], so the number of iterations is bounded by the
    length of the format string; [fuel] is that bound and [None] is
    returned only if it is exhausted. *)
Fixpoint GetDateTimeFormatElements_loop (fuel : nat)
  (format_str upper_format_str : string) (processed_len : nat)
  (format_elements : list DateTimeFormatElement)
  : option (StatusOr (list DateTimeFormatElement)) :=
  if (processed_len <? length format_str)%nat then
    match fuel with
    | O => None
    | S fuel' =>
        match GetNextDateTimeFormatElement
                (substr_from processed_len format_str)
                (substr_from processed_len upper_format_str) with
        | Value format_element =>
            GetDateTimeFormatElements_loop fuel' format_str upper_format_str
              (processed_len + len_in_format_str format_element)
              (format_elements ++ [format_element])
        | Failure e =>
            Some (Failure (MakeEvalError
              (message e ++ " at " ++ string_of_nat processed_len)))
        end
    end
  else Some (Value format_elements).

Definition GetDateTimeFormatElements (format_str : string)
  : StatusOr (list DateTimeFormatElement) :=
  let upper_format_str := AsciiStrToUpper format_str in
  match GetDateTimeFormatElements_loop (length format_str) format_str
          upper_format_str 0 [] with
  | Some r => r
  | None => Failure (RetCheckFailure "scan did not finish")
  end.

Definition types_of (es : list DateTimeFormatElement)
  : list FormatElementType := map type es.


(** ** Element debug name *)

(** [absl::CEscape]: the six named escapes, three-digit octal for every
    other byte that is not printable ASCII, and the byte itself otherwise. *)
Definition octal_digit (n : nat) : ascii := ascii_of_nat (48 + n).

Definition CEscape_char (c : ascii) : string :=
  let n := nat_of_ascii c in
  if (n =? 10)%nat then str1 backslash ++ "n"
  else if (n =? 13)%nat then str1 backslash ++ "r"
  else if (n =? 9)%nat then str1 backslash ++ "t"
  else if Ascii.eqb c dquote then str1 backslash ++ str1 dquote
  else if (n =? 39)%nat then str1 backslash ++ "'"
  else if Ascii.eqb c backslash then str1 backslash ++ str1 backslash
  else if (n <? 32)%nat || (126 <? n)%nat then
    String backslash
      (String (octal_digit (n / 64))
         (String (octal_digit ((n mod 64) / 8))
            (String (octal_digit (n mod 8)) EmptyString)))
  else str1 c.

Fixpoint CEscape (src : string) : string :=
  match src with
  | EmptyString => EmptyString
  | String c s' => CEscape_char c ++ CEscape s'
  end.

Definition ToString (e : DateTimeFormatElement) : string :=
  match type e with
  | kSimpleLiteral => "'" ++ literal_value e ++ "'"
  | kDoubleQuotedLiteral =>
      "'" ++ (str1 dquote ++ CEscape (literal_value e) ++ str1 dquote) ++ "'"
  | kWhitespace => "'" ++ spaces (len_in_format_str e) ++ "'"
  | kFFN => "'" ++ "FF" ++ string_of_Z (subsecond_digit_count e) ++ "'"
  | _ => "'" ++ FormatElementTypeString (type e) ++ "'"
  end.

(** ** Validator *)

(** Checks whether the format element is supported for parsing. *)
Definition IsSupportedForParsing (format_element : DateTimeFormatElement)
  : bool :=
  match type format_element with
  | kSimpleLiteral | kDoubleQuotedLiteral | kWhitespace
  | kYYYY | kYYY | kYY | kY | kRRRR | kRR | kYCommaYYY
  | kMM | kMON | kMONTH
  | kDD | kDDD
  | kHH | kHH12 | kHH24
  | kMI
  | kSS | kSSSSS | kFFN
  | kAM | kPM | kAMWithDots | kPMWithDots
  | kTZH | kTZM => true
  | _ => false
  end.

(** The two hash maps of the validator.  A key is present when it is
    mapped to [Some]; the values are the elements the source points to. *)
Definition CategoryToElementsMap : Type :=
  FormatElementCategory -> option (list DateTimeFormatElement).
Definition TypeToElementMap : Type :=
  FormatElementType -> option DateTimeFormatElement.

Definition empty_category_map : CategoryToElementsMap := fun _ => None.
Definition empty_type_map : TypeToElementMap := fun _ => None.

Definition category_contains (m : CategoryToElementsMap)
  (c : FormatElementCategory) : bool :=
  match m c with Some _ => true | None => false end.
Definition category_at (m : CategoryToElementsMap)
  (c : FormatElementCategory) : list DateTimeFormatElement :=
  match m c with Some v => v | None => [] end.
Definition category_set (m : CategoryToElementsMap)
  (c : FormatElementCategory) (v : list DateTimeFormatElement)
  : CategoryToElementsMap :=
  fun c' => if category_eqb c' c then Some v else m c'.

Definition type_contains (m : TypeToElementMap) (t : FormatElementType)
  : bool :=
  match m t with Some _ => true | None => false end.
Definition type_at (m : TypeToElementMap) (t : FormatElementType)
  : DateTimeFormatElement :=
  match m t with Some e => e | None => default_element end.
Definition type_set (m : TypeToElementMap) (t : FormatElementType)
  (e : DateTimeFormatElement) : TypeToElementMap :=
  fun t' => if type_eqb t' t then Some e else m t'.

(** [v[i]->ToString()] for the stored element vectors. *)
Definition elem_string (v : list DateTimeFormatElement) (i : nat) : string :=
  ToString (nth i v default_element).

Definition CheckForDuplicateElementsInCategory
  (category : FormatElementCategory)
  (category_to_elements_map : CategoryToElementsMap) : Status :=
  if category_contains category_to_elements_map category
     && (1 <? List.length (category_at category_to_elements_map category))%nat
  then
    Failure (MakeEvalError
      ("More than one format element in category "
       ++ FormatElementCategoryString category ++ " exist: "
       ++ elem_string (category_at category_to_elements_map category) 0
       ++ " and "
       ++ elem_string (category_at category_to_elements_map category) 1))
  else OkStatus.

Definition CheckCategoryNotExist (category : FormatElementCategory)
  (category_to_elements_map : CategoryToElementsMap)
  (output_type_name : string) : Status :=
  if category_contains category_to_elements_map category then
    Failure (MakeEvalError
      ("Format element in category " ++ FormatElementCategoryString category
       ++ " ("
       ++ elem_string (category_at category_to_elements_map category) 0
       ++ ") is not allowed for output type " ++ output_type_name))
  else OkStatus.

(** The overload taking a type and a category. *)
Definition CheckForMutuallyExclusiveElements_type_category
  (type_ : FormatElementType) (category : FormatElementCategory)
  (type_to_element_map : TypeToElementMap)
  (category_to_elements_map : CategoryToElementsMap) : Status :=
  if type_contains type_to_element_map type_
     && category_contains category_to_elements_map category then
    Failure (MakeEvalError
      ("Format element in category " ++ FormatElementCategoryString category
       ++ " ("
       ++ elem_string (category_at category_to_elements_map category) 0
       ++ ") and format element "
       ++ ToString (type_at type_to_element_map type_)
       ++ " cannot exist simultaneously"))
  else OkStatus.

(** The overload taking two types. *)
Definition CheckForMutuallyExclusiveElements_type_type
  (type1 type2 : FormatElementType)
  (type_to_element_map : TypeToElementMap) : Status :=
  if type_contains type_to_element_map type1
     && type_contains type_to_element_map type2 then
    Failure (MakeEvalError
      ("Format elements " ++ ToString (type_at type_to_element_map type1)
       ++ " and " ++ ToString (type_at type_to_element_map type2)
       ++ " cannot exist simultaneously"))
  else OkStatus.

(** The first type of [types] present in the map, if any
    ([type_exists] / [present_type]). *)
Fixpoint first_present_type (types : list FormatElementType)
  (type_to_element_map : TypeToElementMap) : option FormatElementType :=
  match types with
  | [] => None
  | t :: rest =>
      if type_contains type_to_element_map t then Some t
      else first_present_type rest type_to_element_map
  end.

(** [absl::StrJoin(strs, sep)]. *)
Fixpoint StrJoin (strs : list string) (sep : string) : string :=
  match strs with
  | [] => EmptyString
  | [x] => x
  | x :: rest => x ++ sep ++ StrJoin rest sep
  end.

Definition CheckForCoexistance (types : list FormatElementType)
  (category : FormatElementCategory)
  (type_to_element_map : TypeToElementMap)
  (category_to_elements_map : CategoryToElementsMap) : Status :=
  match first_present_type types type_to_element_map with
  | Some present_type =>
      if negb (category_contains category_to_elements_map category) then
        Failure (MakeEvalError
          ("Format element in category "
           ++ FormatElementCategoryString category
           ++ " is required when format element "
           ++ ToString (type_at type_to_element_map present_type)
           ++ " exists"))
      else OkStatus
  | None =>
      if category_contains category_to_elements_map category then
        let joined_format_element_type_strs :=
          StrJoin (map FormatElementTypeString types) "/" in
        Failure (MakeEvalError
          ("Format element of type " ++ joined_format_element_type_strs
           ++ " is required when format element in category "
           ++ FormatElementCategoryString category ++ " ("
           ++ elem_string (category_at category_to_elements_map category) 0
           ++ ") exists"))
      else OkStatus
  end.

(** The first loop of [ValidateDateTimeFormatElements]: it fills the two
    maps and rejects unparseable elements and repeated non-literal types. *)
Fixpoint collect_elements (format_elements : list DateTimeFormatElement)
  (category_to_elements_map : CategoryToElementsMap)
  (type_to_element_map : TypeToElementMap)
  : StatusOr (CategoryToElementsMap * TypeToElementMap) :=
  match format_elements with
  | [] => Value (category_to_elements_map, type_to_element_map)
  | format_element :: rest =>
      if negb (IsSupportedForParsing format_element) then
        Failure (MakeEvalError
          ("Format element " ++ ToString format_element
           ++ " is not supported for parsing"))
      else
        let stored :=
          category_at category_to_elements_map (category format_element) in
        let category_to_elements_map :=
          category_set category_to_elements_map (category format_element)
            (if (List.length stored <? 2)%nat then stored ++ [format_element]
             else stored) in
        if type_contains type_to_element_map (type format_element) then
          if negb (category_eqb (category format_element) kLiteral) then
            Failure (MakeEvalError
              ("Format element " ++ ToString format_element
               ++ " appears more than once in the format string"))
          else
            collect_elements rest category_to_elements_map type_to_element_map
        else
          collect_elements rest category_to_elements_map
            (type_set type_to_element_map (type format_element)
                      format_element)
  end.

(** A [for] loop of checks, each guarded by [ZETASQL_RETURN_IF_ERROR]. *)
Fixpoint for_each_check {A : Type} (check : A -> Status) (xs : list A)
  : Status :=
  match xs with
  | [] => OkStatus
  | x :: rest => RETURN_IF_ERROR check x; for_each_check check rest
  end.

Definition categories_to_check_duplicate : list FormatElementCategory :=
  [kMeridianIndicator; kYear; kMonth; kDay; kHour; kMinute].

(** Validates the elements with the structural rules, and also makes sure
    they are not of any category in [invalid_categories]. *)
Definition ValidateDateTimeFormatElements
  (format_elements : list DateTimeFormatElement)
  (invalid_categories : list FormatElementCategory)
  (output_type_name : string) : Status :=
  ASSIGN_OR_RETURN maps <-
    collect_elements format_elements empty_category_map empty_type_map;
  let category_to_elements_map := fst maps in
  let type_to_element_map := snd maps in
  RETURN_IF_ERROR
    for_each_check
      (fun category =>
         CheckForDuplicateElementsInCategory category
           category_to_elements_map)
      categories_to_check_duplicate;
  RETURN_IF_ERROR
    CheckForMutuallyExclusiveElements_type_category kDDD kMonth
      type_to_element_map category_to_elements_map;
  RETURN_IF_ERROR
    CheckForMutuallyExclusiveElements_type_category kHH24 kMeridianIndicator
      type_to_element_map category_to_elements_map;
  RETURN_IF_ERROR
    CheckForCoexistance [kHH; kHH12] kMeridianIndicator
      type_to_element_map category_to_elements_map;
  RETURN_IF_ERROR
    CheckForMutuallyExclusiveElements_type_category kSSSSS kHour
      type_to_element_map category_to_elements_map;
  RETURN_IF_ERROR
    CheckForMutuallyExclusiveElements_type_category kSSSSS kMinute
      type_to_element_map category_to_elements_map;
  RETURN_IF_ERROR
    CheckForMutuallyExclusiveElements_type_type kSSSSS kSS
      type_to_element_map;
  RETURN_IF_ERROR
    for_each_check
      (fun invalid_category =>
         CheckCategoryNotExist invalid_category category_to_elements_map
           output_type_name)
      invalid_categories;
  OkStatus.

(** Checks to see if the format elements are valid for the date or time
    type. *)
Fixpoint ValidateDateDateTimeFormatElementsForFormatting
  (format_elements : list DateTimeFormatElement) : Status :=
  match format_elements with
  | [] => OkStatus
  | element :: rest =>
      match category element with
      | kLiteral | kYear | kMonth | kDay =>
          ValidateDateDateTimeFormatElementsForFormatting rest
      | _ =>
          Failure (MakeEvalError
            ("DATE does not support " ++ ToString element))
      end
  end.

Fixpoint ValidateTimeDateTimeFormatElementsForFormatting
  (format_elements : list DateTimeFormatElement) : Status :=
  match format_elements with
  | [] => OkStatus
  | element :: rest =>
      match category element with
      | kLiteral | kHour | kMinute | kSecond | kMeridianIndicator =>
          ValidateTimeDateTimeFormatElementsForFormatting rest
      | _ =>
          Failure (MakeEvalError
            ("TIME does not support " ++ ToString element))
      end
  end.

Fixpoint ValidateDatetimeDateTimeFormatElementsForFormatting
  (format_elements : list DateTimeFormatElement) : Status :=
  match format_elements with
  | [] => OkStatus
  | element :: rest =>
      match category element with
      | kLiteral | kYear | kMonth | kDay
      | kHour | kMinute | kSecond | kMeridianIndicator =>
          ValidateDatetimeDateTimeFormatElementsForFormatting rest
      | _ =>
          Failure (MakeEvalError
            ("DATETIME does not support " ++ ToString element))
      end
  end.

(** ** Unicode collaborators *)

(** Modelled from the spec: the UTF-8 validator [IsWellFormedUTF8]
    (zetasql/common/utf_util.h) and ICU's [U8_NEXT] and [u_isUWhiteSpace]
    are collaborators whose code is not part of the sources at hand.
    [U8_NEXT] decodes the code point at the head of the text and yields
    the number of bytes it occupies, or nothing where the head is not a
    well-formed UTF-8 sequence (the macro then sets a negative code
    point); a text is well formed when it decodes to its end; and
    [u_isUWhiteSpace] is the Unicode White_Space property. *)
Definition byte_of (c : ascii) : Z := Z.of_nat (nat_of_ascii c).

Definition between (lo hi b : Z) : bool := (lo <=? b)%Z && (b <=? hi)%Z.

Definition U8_IS_TRAIL (b : Z) : bool := between 128 191 b.

Definition U8_NEXT (s : string) : option (Z * nat) :=
  match s with
  | EmptyString => None
  | String c0 r0 =>
      let b0 := byte_of c0 in
      if (b0 <? 128)%Z then Some (b0, 1)
      else if between 194 223 b0 then
        match r0 with
        | String c1 _ =>
            let b1 := byte_of c1 in
            if U8_IS_TRAIL b1
            then Some (((b0 - 192) * 64 + (b1 - 128))%Z, 2)
            else None
        | _ => None
        end
      else if between 224 239 b0 then
        match r0 with
        | String c1 (String c2 _) =>
            let b1 := byte_of c1 in
            let b2 := byte_of c2 in
            let lo := if (b0 =? 224)%Z then 160%Z else 128%Z in
            let hi := if (b0 =? 237)%Z then 159%Z else 191%Z in
            if between lo hi b1 && U8_IS_TRAIL b2
            then Some (((b0 - 224) * 4096 + (b1 - 128) * 64 + (b2 - 128))%Z, 3)
            else None
        | _ => None
        end
      else if between 240 244 b0 then
        match r0 with
        | String c1 (String c2 (String c3 _)) =>
            let b1 := byte_of c1 in
            let b2 := byte_of c2 in
            let b3 := byte_of c3 in
            let lo := if (b0 =? 240)%Z then 144%Z else 128%Z in
            let hi := if (b0 =? 244)%Z then 143%Z else 191%Z in
            if between lo hi b1 && U8_IS_TRAIL b2 && U8_IS_TRAIL b3
            then Some (((b0 - 240) * 262144 + (b1 - 128) * 4096
                        + (b2 - 128) * 64 + (b3 - 128))%Z, 4)
            else None
        | _ => None
        end
      else None
  end.

Definition u_isUWhiteSpace (c : Z) : bool :=
  between 9 13 c || (c =? 32)%Z || (c =? 133)%Z || (c =? 160)%Z
  || (c =? 5760)%Z || between 8192 8202 c || (c =? 8232)%Z
  || (c =? 8233)%Z || (c =? 8239)%Z || (c =? 8287)%Z || (c =? 12288)%Z.

(** The decoding loop of the validator; each round consumes at least one
    byte, so the length of the text bounds the number of rounds. *)
Fixpoint well_formed_from (fuel : nat) (s : string) : bool :=
  match s with
  | EmptyString => true
  | _ =>
      match fuel with
      | O => false
      | S fuel' =>
          match U8_NEXT s with
          | Some (_, n) => well_formed_from fuel' (substr_from n s)
          | None => false
          end
      end
  end.

Definition IsWellFormedUTF8 (s : string) : bool :=
  well_formed_from (length s) s.

(** ** Helpers of the parser *)

(** Matches [target_str] with [input_str] byte by byte.  Returns the number
    of consumed bytes, or [None] ([npos]). *)
Definition ParseStringByExactMatch (input_str target_str : string)
  : option nat :=
  if String.eqb target_str EmptyString then Some 0
  else if StartsWith input_str target_str then Some (length target_str)
  else None.

(** The loop of [TrimLeadingUnicodeWhiteSpaces]: [s] is the text from
    [offset] on, and the value returned is [all_uwhitespace_offset]. *)
Fixpoint trim_loop (fuel : nat) (s : string) (offset : nat) : nat :=
  match fuel with
  | O => offset
  | S fuel' =>
      match s with
      | EmptyString => offset
      | _ =>
          match U8_NEXT s with
          | Some (character, n) =>
              if u_isUWhiteSpace character
              then trim_loop fuel' (substr_from n s) (offset + n)
              else offset
          | None => offset
          end
      end
  end.

(** Consumes the leading Unicode whitespaces of [input_str]; returns the
    number of consumed bytes. *)
Definition TrimLeadingUnicodeWhiteSpaces (input_str : string) : nat :=
  trim_loop (length input_str) input_str 0.

(** Modelled from the spec: [parse_date_time_utils::ParseInt]
    (zetasql/public/functions/parse_date_time_utils.h) is not part of the
    sources at hand.  The spec's words for its use are "parse an integer
    of width 1..W, range lo..hi": it reads the decimal digits at the head
    of the text, at most [max_width] of them and at least one, and
    succeeds when the value read lies in [min, max]; the result is the
    number of bytes read and the value. *)
Fixpoint read_digits (s : string) (max_width : nat) (value : Z) : nat * Z :=
  match max_width, s with
  | S w, String c s' =>
      match digit_value c with
      | Some d =>
          let r := read_digits s' w (value * 10 + d) in (S (fst r), snd r)
      | None => (0, value)
      end
  | _, _ => (0, value)
  end.

Definition ParseInt_utils (s : string) (max_width : nat) (min max : Z)
  : option (nat * Z) :=
  let r := read_digits s max_width 0 in
  if (fst r =? 0)%nat then None
  else if (min <=? snd r)%Z && (snd r <=? max)%Z then Some r
  else None.

(** The wrapper of the .cc file: also verifies that the number of parsed
    bytes is within [min_width, max_width]. *)
Definition ParseInt (input_str : string) (min_width max_width : nat)
  (min max : Z) : option (nat * Z) :=
  match ParseInt_utils input_str max_width min max with
  | None => None
  | Some (parsed_width, value) =>
      if (parsed_width <? min_width)%nat || (max_width <? parsed_width)%nat
      then None
      else Some (parsed_width, value)
  end.

(** Parses with a format element of "kRR" type; [current_year] is the
    year so far.  Returns the number of consumed bytes and the year. *)
Definition ParseWithFormatElementOfTypeRR (timestamp_string : string)
  (current_year : Z) : option (nat * Z) :=
  let current_year_last_two_digits := Z.rem current_year 100 in
  let current_year_before_last_two_digits := Z.quot current_year 100 in
  let year_before_last_two_digits := current_year_before_last_two_digits in
  match ParseInt timestamp_string 1 2 0 99 with
  | Some (parsed_length, year_last_two_digits) =>
      let year_before_last_two_digits :=
        if (year_last_two_digits <? 50)%Z
           && (50 <=? current_year_last_two_digits)%Z
        then (year_before_last_two_digits + 1)%Z
        else if (50 <=? year_last_two_digits)%Z
                && (current_year_last_two_digits <? 50)%Z
        then (year_before_last_two_digits - 1)%Z
        else year_before_last_two_digits in
      Some (parsed_length,
            (year_before_last_two_digits * 100 + year_last_two_digits)%Z)
  | None => None
  end.

(** Parses with a format element of "kYCommaYYY" type. *)
Definition ParseWithFormatElementOfTypeYCommaYYY (timestamp_string : string)
  : option (nat * Z) :=
  let timestamp_str_to_parse := timestamp_string in
  match ParseInt timestamp_str_to_parse 1 2 0 10 with
  | None => None
  | Some (parsed_length_temp, year_first_part) =>
      let parsed_length := parsed_length_temp in
      let timestamp_str_to_parse :=
        substr_from parsed_length_temp timestamp_str_to_parse in
      match ParseStringByExactMatch timestamp_str_to_parse "," with
      | None => None
      | Some parsed_length_temp =>
          let parsed_length := parsed_length + parsed_length_temp in
          let timestamp_str_to_parse :=
            substr_from parsed_length_temp timestamp_str_to_parse in
          match ParseInt timestamp_str_to_parse 3 3 0 999 with
          | None => None
          | Some (parsed_length_temp, year_last_three_digits) =>
              Some (parsed_length + parsed_length_temp,
                    (year_first_part * 1000 + year_last_three_digits)%Z)
          end
      end
  end.

Definition powers_of_ten : list Z :=
  [1; 10; 100; 1000; 10000; 100000; 1000000; 10000000; 100000000;
   1000000000]%Z.

Definition power_of_ten (i : nat) : Z := nth i powers_of_ten 0%Z.

(** [static_cast<int>] of a 64-bit value. *)
Definition to_int32 (z : Z) : Z :=
  ((z + 2147483648) mod 4294967296 - 2147483648)%Z.

(** ** Civil time and the parser *)

(** The fields of an [absl::CivilSecond], and the part of
    [absl::TimeZone::CivilInfo] this file reads. *)
Record CivilSecond : Type := mkCivilSecond {
  cs_year : Z; cs_month : Z; cs_day : Z;
  cs_hour : Z; cs_minute : Z; cs_second : Z
}.

Record CivilInfo : Type := mkCivilInfo {
  cs : CivilSecond;
  offset : Z
}.

Inductive TimestampScale : Type := kMicroseconds | kNanoseconds.

(** The variables of one run of [ParseTimeWithFormatElements]. *)
Record ParseState : Type := mkParseState {
  processed_format_element_count : nat;
  timestamp_str_parsed_length : nat;
  year : Z;
  month : Z;
  mday : Z;
  hour : Z;
  min : Z;
  sec : Z;
  error_in_parsing : bool
}.

Definition set_year (y : Z) (st : ParseState) : ParseState :=
  mkParseState (processed_format_element_count st)
    (timestamp_str_parsed_length st) y (month st) (mday st) (hour st)
    (min st) (sec st) (error_in_parsing st).

Definition set_error_in_parsing (b : bool) (st : ParseState) : ParseState :=
  mkParseState (processed_format_element_count st)
    (timestamp_str_parsed_length st) (year st) (month st) (mday st)
    (hour st) (min st) (sec st) b.

Definition set_timestamp_str_parsed_length (n : nat) (st : ParseState)
  : ParseState :=
  mkParseState (processed_format_element_count st) n (year st) (month st)
    (mday st) (hour st) (min st) (sec st) (error_in_parsing st).

(** The update at the end of a successful iteration. *)
Definition advance (parsed_length : nat) (st : ParseState) : ParseState :=
  mkParseState (S (processed_format_element_count st))
    (timestamp_str_parsed_length st + parsed_length) (year st) (month st)
    (mday st) (hour st) (min st) (sec st) (error_in_parsing st).

(** The [switch] of the parsing loop: the parsed length ([None] is
    [npos]) and the state after the branch taken for [format_element]. *)
Definition parse_element (format_element : DateTimeFormatElement)
  (timestamp_str_to_parse : string) (st : ParseState)
  : StatusOr (option nat * ParseState) :=
  match type format_element with
  | kSimpleLiteral | kDoubleQuotedLiteral =>
      Value (ParseStringByExactMatch timestamp_str_to_parse
               (literal_value format_element), st)
  | kWhitespace =>
      let parsed_length :=
        TrimLeadingUnicodeWhiteSpaces timestamp_str_to_parse in
      Value (Some parsed_length,
             if (parsed_length =? 0)%nat then set_error_in_parsing true st
             else st)
  | kYYYY | kRRRR =>
      match ParseInt timestamp_str_to_parse 1 5 0 10000 with
      | Some (parsed_length, value) =>
          Value (Some parsed_length, set_year value st)
      | None => Value (None, st)
      end
  | kYYY | kYY | kY =>
      let element_length := len_in_format_str format_element in
      if negb (element_length <? List.length powers_of_ten)%nat then
        Failure (RetCheckFailure
          "element_length >= 0 && element_length < ABSL_ARRAYSIZE(powers_of_ten)")
      else
        let element_length_power_of_ten := power_of_ten element_length in
        match ParseInt timestamp_str_to_parse 1 element_length 0
                (element_length_power_of_ten - 1) with
        | Some (parsed_length, parsed_year_part) =>
            Value (Some parsed_length,
                   set_year (year st
                             - Z.rem (year st) element_length_power_of_ten
                             + parsed_year_part)%Z st)
        | None => Value (None, st)
        end
  | kRR =>
      match ParseWithFormatElementOfTypeRR timestamp_str_to_parse
              (year st) with
      | Some (parsed_length, value) =>
          Value (Some parsed_length, set_year value st)
      | None => Value (None, st)
      end
  | kYCommaYYY =>
      match ParseWithFormatElementOfTypeYCommaYYY timestamp_str_to_parse with
      | Some (parsed_length, value) =>
          Value (Some parsed_length, set_year value st)
      | None => Value (None, st)
      end
  | _ => Value (None, st)
  end.

(** One iteration of the parsing loop. *)
Definition parse_iteration (format_elements : list DateTimeFormatElement)
  (timestamp_string : string) (st : ParseState) : StatusOr ParseState :=
  let timestamp_str_to_parse :=
    substr_from (timestamp_str_parsed_length st) timestamp_string in
  let format_element :=
    nth (processed_format_element_count st) format_elements
        default_element in
  ASSIGN_OR_RETURN r <-
    parse_element format_element timestamp_str_to_parse st;
  let st := snd r in
  match fst r with
  | None => Value (set_error_in_parsing true st)
  | Some parsed_length =>
      if negb (error_in_parsing st) then Value (advance parsed_length st)
      else Value st
  end.

Definition parse_loop_condition
  (format_elements : list DateTimeFormatElement) (timestamp_string : string)
  (st : ParseState) : bool :=
  negb (error_in_parsing st)
  && (timestamp_str_parsed_length st <? length timestamp_string)%nat
  && (processed_format_element_count st <? List.length format_elements)%nat.

(** The parsing loop.  An iteration either raises [error_in_parsing],
    which ends the loop, or processes one more element, so the number of
    elements bounds the number of iterations; [fuel] is that bound. *)
Fixpoint parse_loop (fuel : nat)
  (format_elements : list DateTimeFormatElement) (timestamp_string : string)
  (st : ParseState) : StatusOr ParseState :=
  if parse_loop_condition format_elements timestamp_string st then
    match fuel with
    | O => Value st
    | S fuel' =>
        ASSIGN_OR_RETURN st' <-
          parse_iteration format_elements timestamp_string st;
        parse_loop fuel' format_elements timestamp_string st'
    end
  else Value st.

Definition is_empty_double_quoted_literal (e : DateTimeFormatElement)
  : bool :=
  type_eqb (type e) kDoubleQuotedLiteral
  && String.eqb (literal_value e) EmptyString.

(** Skips trailing empty elements {kDoubleQuotedLiteral, ""}: the loop
    over [processed_format_element_count], on the elements from that index
    on. *)
Fixpoint skip_empty_literals (rest : list DateTimeFormatElement)
  (processed_format_element_count : nat) : nat :=
  match rest with
  | e :: rest' =>
      if is_empty_double_quoted_literal e
      then skip_empty_literals rest' (S processed_format_element_count)
      else processed_format_element_count
  | [] => processed_format_element_count
  end.

Section Parser.

(** The civil-time library: instants, time zones, the normalising
    constructor of [absl::CivilSecond], the two directions of
    [TimeZone::At] (for a civil time, its [pre] instant), and the
    range checks of date_time_util. *)
Variable Time : Type.
Variable TimeZone : Type.
Variable MakeCivilSecond : Z -> Z -> Z -> Z -> Z -> Z -> CivilSecond.
Variable At : TimeZone -> Time -> CivilInfo.
Variable At_pre : TimeZone -> CivilSecond -> Time.
Variable IsValidTime : Time -> bool.
Variable ConvertTimeToTimestamp : Time -> option Z.
Variable MakeTimeZone : string -> StatusOr TimeZone.

Definition initial_parse_state (default_timezone : TimeZone)
  (current_timestamp : Time) : ParseState :=
  let cs_now := cs (At default_timezone current_timestamp) in
  {| processed_format_element_count := 0;
     timestamp_str_parsed_length := 0;
     year := to_int32 (cs_year cs_now);
     month := cs_month cs_now;
     mday := 1;
     hour := 0;
     min := 0;
     sec := 0;
     error_in_parsing := false |}.

(** The state when the parsing loop is left: leading whitespace has
    been skipped and the loop has run. *)
Definition parse_elements (format_elements : list DateTimeFormatElement)
  (timestamp_string : string) (default_timezone : TimeZone)
  (current_timestamp : Time) : StatusOr ParseState :=
  let st := initial_parse_state default_timezone current_timestamp in
  let st :=
    set_timestamp_str_parsed_length
      (timestamp_str_parsed_length st
       + TrimLeadingUnicodeWhiteSpaces timestamp_string) st in
  parse_loop (List.length format_elements) format_elements
    timestamp_string st.

(** What follows the parsing loop. *)
Definition finish_parse (format_elements : list DateTimeFormatElement)
  (timestamp_string : string) (default_timezone : TimeZone)
  (st : ParseState) : StatusOr Time :=
  if error_in_parsing st then
    Failure (MakeEvalError
      ("Failed to parse input timestamp string at "
       ++ string_of_nat (timestamp_str_parsed_length st)
       ++ " with format element "
       ++ elem_string format_elements (processed_format_element_count st)))
  else
    let timestamp_str_parsed_length :=
      timestamp_str_parsed_length st
      + TrimLeadingUnicodeWhiteSpaces
          (substr_from (timestamp_str_parsed_length st) timestamp_string) in
    let processed_format_element_count :=
      skip_empty_literals
        (skipn (processed_format_element_count st) format_elements)
        (processed_format_element_count st) in
    if (timestamp_str_parsed_length <? length timestamp_string)%nat then
      Failure (MakeEvalError
        ("Illegal non-space trailing data '"
         ++ substr_from timestamp_str_parsed_length timestamp_string
         ++ "' in timestamp string"))
    else if (processed_format_element_count
             <? List.length format_elements)%nat then
      Failure (MakeEvalError
        ("Entire timestamp string has been parsed before dealing with"
         ++ " format element "
         ++ elem_string format_elements processed_format_element_count))
    else
      let cs :=
        MakeCivilSecond (year st) (month st) (mday st) (hour st) (min st)
                        (sec st) in
      if negb (cs_year cs =? year st)%Z || negb (cs_month cs =? month st)%Z
         || negb (cs_day cs =? mday st)%Z then
        Failure (MakeEvalError
          "Invalid result from year, month, day values after parsing")
      else
        let timestamp := At_pre default_timezone cs in
        if negb (IsValidTime timestamp) then
          Failure (MakeEvalError
            "The parsing result is out of valid time range")
        else Value timestamp.

(** This function conducts the parsing for [timestamp_string] with
    [format_elements]; the overload producing an [absl::Time]. *)
Definition ParseTimeWithFormatElements
  (format_elements : list DateTimeFormatElement)
  (timestamp_string : string) (default_timezone : TimeZone)
  (current_timestamp : Time) (scale : TimestampScale) : StatusOr Time :=
  ASSIGN_OR_RETURN st <-
    parse_elements format_elements timestamp_string default_timezone
      current_timestamp;
  finish_parse format_elements timestamp_string default_timezone st.

(** The overload whose result is at microseconds precision. *)
Definition ParseTimeWithFormatElements_micros
  (format_elements : list DateTimeFormatElement)
  (timestamp_string : string) (default_timezone : TimeZone)
  (current_timestamp : Time) (scale : TimestampScale) : StatusOr Z :=
  ASSIGN_OR_RETURN base_time <-
    ParseTimeWithFormatElements format_elements timestamp_string
      default_timezone current_timestamp scale;
  match ConvertTimeToTimestamp base_time with
  | None => Failure (MakeEvalError "Invalid result from parsing function")
  | Some timestamp_micros => Value timestamp_micros
  end.

(** *** Cast entry points: string to timestamp *)

(** [CastStringToTimestamp(format, input, absl::TimeZone, now,
    int64_t* timestamp_micros)]. *)
Definition CastStringToTimestamp_micros (format_string : string)
  (timestamp_string : string) (default_timezone : TimeZone)
  (current_timestamp : Time) : StatusOr Z :=
  if negb (IsWellFormedUTF8 timestamp_string)
     || negb (IsWellFormedUTF8 format_string) then
    Failure (MakeEvalError "Input string is not valid UTF-8")
  else
    ASSIGN_OR_RETURN format_elements <-
      GetDateTimeFormatElements format_string;
    RETURN_IF_ERROR
      ValidateDateTimeFormatElements format_elements [] "TIMESTAMP";
    ParseTimeWithFormatElements_micros format_elements timestamp_string
      default_timezone current_timestamp kMicroseconds.

(** [CastStringToTimestamp(format, input, string_view zone, now,
    int64_t* timestamp)]. *)
Definition CastStringToTimestamp_micros_zone_name (format_string : string)
  (timestamp_string : string) (default_timezone_string : string)
  (current_timestamp : Time) : StatusOr Z :=
  if negb (IsWellFormedUTF8 default_timezone_string) then
    Failure (MakeEvalError "Input string is not valid UTF-8")
  else
    ASSIGN_OR_RETURN timezone <- MakeTimeZone default_timezone_string;
    CastStringToTimestamp_micros format_string timestamp_string timezone
      current_timestamp.

(** [CastStringToTimestamp(format, input, absl::TimeZone, now,
    absl::Time* timestamp)]. *)
Definition CastStringToTimestamp_time (format_string : string)
  (timestamp_string : string) (default_timezone : TimeZone)
  (current_timestamp : Time) : StatusOr Time :=
  if negb (IsWellFormedUTF8 format_string)
     || negb (IsWellFormedUTF8 format_string) then
    Failure (MakeEvalError "Input string is not valid UTF-8")
  else
    ASSIGN_OR_RETURN format_elements <-
      GetDateTimeFormatElements format_string;
    RETURN_IF_ERROR
      ValidateDateTimeFormatElements format_elements [] "TIMESTAMP";
    ParseTimeWithFormatElements format_elements timestamp_string
      default_timezone current_timestamp kNanoseconds.

(** [CastStringToTimestamp(format, input, string_view zone, now,
    absl::Time* timestamp)]. *)
Definition CastStringToTimestamp_time_zone_name (format_string : string)
  (timestamp_string : string) (default_timezone_string : string)
  (current_timestamp : Time) : StatusOr Time :=
  if negb (IsWellFormedUTF8 default_timezone_string) then
    Failure (MakeEvalError "Input string is not valid UTF-8")
  else
    ASSIGN_OR_RETURN timezone <- MakeTimeZone default_timezone_string;
    CastStringToTimestamp_time format_string timestamp_string timezone
      current_timestamp.

End Parser.

(** ** Formatter *)

Definition kNaiveNumSecondsPerMinute : Z := 60.
Definition kNaiveNumSecondsPerHour : Z := 60 * kNaiveNumSecondsPerMinute.
Definition kNaiveNumSecondsPerDay : Z := 24 * kNaiveNumSecondsPerHour.
Definition kNaiveNumMicrosPerDay : Z :=
  kNaiveNumSecondsPerDay * 1000 * 1000.

Fixpoint zeros (n : nat) : string :=
  match n with
  | O => EmptyString
  | S n' => String "0"%char (zeros n')
  end.

(** [absl::StrFormat("%0*d", width, value)]: the decimal digits padded with
    zeros on the left to [width] characters, the sign included. *)
Definition StrFormat_0d (width : nat) (value : Z) : string :=
  let digits := string_of_Z (Z.abs value) in
  if (value <? 0)%Z
  then "-" ++ zeros (width - 1 - length digits) ++ digits
  else zeros (width - length digits) ++ digits.

Inductive Weekday : Type :=
| monday | tuesday | wednesday | thursday | friday | saturday | sunday.

(** Modelled from the spec: [DayOfWeekIntegerSunToSat1To7] of
    date_time_util is not part of the sources at hand; the spec numbers
    the days Sunday = 1 .. Saturday = 7. *)
Definition DayOfWeekIntegerSunToSat1To7 (d : Weekday) : Z :=
  match d with
  | sunday => 1 | monday => 2 | tuesday => 3 | wednesday => 4
  | thursday => 5 | friday => 6 | saturday => 7
  end.

Section Formatter.

Variable Time : Type.
Variable TimeZone : Type.
Variable At : TimeZone -> Time -> CivilInfo.
Variable At_pre : TimeZone -> CivilSecond -> Time.
Variable IsValidTime : Time -> bool.
Variable MakeTimeZone : string -> StatusOr TimeZone.
(** [absl::FormatTime], [absl::GetWeekday], [absl::ToUnixMicros],
    [absl::UTCTimeZone], [time + absl::Nanoseconds(n)], and the helpers
    of date_time_util. *)
Variable FormatTime : string -> Time -> TimeZone -> string.
Variable GetWeekday : CivilSecond -> Weekday.
Variable ToUnixMicros : Time -> Z.
Variable UTCTimeZone : TimeZone.
Variable AddNanoseconds : Time -> Z -> Time.
Variable GetNormalizedTimeZone : Time -> TimeZone -> TimeZone.
Variable GetSignHourAndMinuteTimeZoneOffset : CivilInfo -> bool * Z * Z.
Variable MakeTime : Z -> TimestampScale -> Time.
Variable IsValidDate : Z -> bool.
(** [DatetimeValue] and [TimeValue] with the members used here. *)
Variable DatetimeValue : Type.
Variable Datetime_IsValid : DatetimeValue -> bool.
Variable Datetime_DebugString : DatetimeValue -> string.
Variable Datetime_ConvertToCivilSecond : DatetimeValue -> CivilSecond.
Variable Datetime_Nanoseconds : DatetimeValue -> Z.
Variable TimeValue : Type.
Variable Time_IsValid : TimeValue -> bool.
Variable Time_DebugString : TimeValue -> string.
Variable Time_Hour : TimeValue -> Z.
Variable Time_Minute : TimeValue -> Z.
Variable Time_Second : TimeValue -> Z.
Variable Time_Nanoseconds : TimeValue -> Z.

(** Takes a format element and rewrites it to a format string that can
    be formatted by [FormatTime]; elements not supported by [FormatTime]
    are formatted here. *)
Definition FromDateTimeFormatElementToFormatString
  (format_element : DateTimeFormatElement) (info : CivilInfo)
  : StatusOr string :=
  match type format_element with
  | kSimpleLiteral | kDoubleQuotedLiteral =>
      Value (literal_value format_element)
  | kWhitespace => Value (spaces (len_in_format_str format_element))
  | kYYYY | kYYY | kYY | kY | kRRRR | kRR =>
      let element_length := len_in_format_str format_element in
      let trunc_year :=
        Z.rem (to_int32 (cs_year (cs info))) (power_of_ten element_length) in
      Value (StrFormat_0d (len_in_format_str format_element)
               (if (element_length =? 4)%nat then cs_year (cs info)
                else trunc_year))
  | kMM => Value "%m"
  | kMON => Value "%b"
  | kMONTH => Value "%B"
  | kD =>
      Value (string_of_Z
               (DayOfWeekIntegerSunToSat1To7 (GetWeekday (cs info))))
  | kDD => Value "%d"
  | kDDD => Value "%j"
  | kDAY => Value "%A"
  | kDY => Value "%a"
  | kHH | kHH12 => Value "%I"
  | kHH24 => Value "%H"
  | kMI => Value "%M"
  | kSS => Value "%S"
  | kSSSSS =>
      let second_of_day :=
        (cs_hour (cs info) * kNaiveNumSecondsPerHour
         + cs_minute (cs info) * kNaiveNumSecondsPerMinute
         + cs_second (cs info))%Z in
      Value (StrFormat_0d 5 second_of_day)
  | kFFN =>
      Value ("%E" ++ string_of_Z (subsecond_digit_count format_element)
             ++ "f")
  | kAM | kPM =>
      if (12 <? cs_hour (cs info))%Z then Value "PM" else Value "AM"
  | kAMWithDots | kPMWithDots =>
      if (12 <? cs_hour (cs info))%Z then Value "P.M." else Value "A.M."
  | kTZH | kTZM =>
      let '(positive_offset, hour_offset, minute_offset) :=
        GetSignHourAndMinuteTimeZoneOffset info in
      if type_eqb (type format_element) kTZH then
        Value ((if positive_offset then "+" else "-")
               ++ StrFormat_0d 2 hour_offset)
      else Value (StrFormat_0d 2 minute_offset)
  | _ =>
      Failure (MakeEvalError
        ("Unsupported format element " ++ ToString format_element))
  end.

Definition ResolveFormatString (format_element : DateTimeFormatElement)
  (base_time : Time) (timezone : TimeZone) : StatusOr string :=
  let info := At timezone base_time in
  ASSIGN_OR_RETURN format_string <-
    FromDateTimeFormatElementToFormatString format_element info;
  if category_eqb (category format_element) kLiteral then
    Value format_string
  else
    let resolved_string := FormatTime format_string base_time timezone in
    match format_casing_type format_element with
    | kFormatCasingTypeUnspecified =>
        Failure (MakeEvalError "Format casing type is unspecified")
    | kPreserveCase | kOnlyFirstLetterUppercase => Value resolved_string
    | kAllLettersUppercase => Value (AsciiStrToUpper resolved_string)
    | kAllLettersLowercase => Value (AsciiStrToLower resolved_string)
    end.

(** The loop appending the rendering of every element. *)
Fixpoint append_resolved (format_elements : list DateTimeFormatElement)
  (base_time : Time) (timezone : TimeZone)
  (updated_format_string : string) : StatusOr string :=
  match format_elements with
  | [] => Value updated_format_string
  | format_element :: rest =>
      ASSIGN_OR_RETURN str_format <-
        ResolveFormatString format_element base_time timezone;
      append_resolved rest base_time timezone
        (updated_format_string ++ str_format)
  end.

Definition FromCastFormatTimestampToStringInternal
  (format_elements : list DateTimeFormatElement) (base_time : Time)
  (timezone : TimeZone) : StatusOr string :=
  if negb (IsValidTime base_time) then
    Failure (MakeEvalError
      ("Invalid timestamp value: " ++ string_of_Z (ToUnixMicros base_time)))
  else
    let normalized_timezone := GetNormalizedTimeZone base_time timezone in
    append_resolved format_elements base_time normalized_timezone
      EmptyString.

(** *** Cast entry points: value to string *)

Definition CastFormatDateToString (format_string : string) (date : Z)
  : StatusOr string :=
  if negb (IsWellFormedUTF8 format_string) then
    Failure (MakeEvalError "Format string is not a valid UTF-8 string.")
  else if negb (IsValidDate date) then
    Failure (MakeEvalError ("Invalid date value: " ++ string_of_Z date))
  else
    ASSIGN_OR_RETURN format_elements <-
      GetDateTimeFormatElements format_string;
    RETURN_IF_ERROR
      ValidateDateDateTimeFormatElementsForFormatting format_elements;
    let date_timestamp := (date * kNaiveNumMicrosPerDay)%Z in
    FromCastFormatTimestampToStringInternal format_elements
      (MakeTime date_timestamp kMicroseconds) UTCTimeZone.

Definition CastFormatDatetimeToString (format_string : string)
  (datetime : DatetimeValue) : StatusOr string :=
  if negb (IsWellFormedUTF8 format_string) then
    Failure (MakeEvalError "Format string is not a valid UTF-8 string.")
  else if negb (Datetime_IsValid datetime) then
    Failure (MakeEvalError
      ("Invalid datetime value: " ++ Datetime_DebugString datetime))
  else
    ASSIGN_OR_RETURN format_elements <-
      GetDateTimeFormatElements format_string;
    RETURN_IF_ERROR
      ValidateDatetimeDateTimeFormatElementsForFormatting format_elements;
    let datetime_in_utc :=
      At_pre UTCTimeZone (Datetime_ConvertToCivilSecond datetime) in
    let datetime_in_utc :=
      AddNanoseconds datetime_in_utc (Datetime_Nanoseconds datetime) in
    FromCastFormatTimestampToStringInternal format_elements datetime_in_utc
      UTCTimeZone.

Definition CastFormatTimeToString (format_string : string)
  (time : TimeValue) : StatusOr string :=
  if negb (IsWellFormedUTF8 format_string) then
    Failure (MakeEvalError "Format string is not a valid UTF-8 string.")
  else if negb (Time_IsValid time) then
    Failure (MakeEvalError
      ("Invalid time value: " ++ Time_DebugString time))
  else
    ASSIGN_OR_RETURN format_elements <-
      GetDateTimeFormatElements format_string;
    RETURN_IF_ERROR
      ValidateTimeDateTimeFormatElementsForFormatting format_elements;
    let time_in_epoch_day :=
      At_pre UTCTimeZone
        (mkCivilSecond 1970 1 1 (Time_Hour time) (Time_Minute time)
                       (Time_Second time)) in
    let time_in_epoch_day :=
      AddNanoseconds time_in_epoch_day (Time_Nanoseconds time) in
    FromCastFormatTimestampToStringInternal format_elements
      time_in_epoch_day UTCTimeZone.

(** [CastFormatTimestampToString(format, absl::Time, absl::TimeZone)]. *)
Definition CastFormatTimestampToString (format_string : string)
  (timestamp : Time) (timezone : TimeZone) : StatusOr string :=
  if negb (IsWellFormedUTF8 format_string) then
    Failure (MakeEvalError "Format string is not a valid UTF-8 string.")
  else
    ASSIGN_OR_RETURN format_elements <-
      GetDateTimeFormatElements format_string;
    FromCastFormatTimestampToStringInternal format_elements timestamp
      timezone.

(** [CastFormatTimestampToString(format, int64_t micros,
    absl::TimeZone)]. *)
Definition CastFormatTimestampToString_micros (format_string : string)
  (timestamp_micros : Z) (timezone : TimeZone) : StatusOr string :=
  if negb (IsWellFormedUTF8 format_string) then
    Failure (MakeEvalError "Format string is not a valid UTF-8 string.")
  else
    CastFormatTimestampToString format_string
      (MakeTime timestamp_micros kMicroseconds) timezone.

(** [CastFormatTimestampToString(format, int64_t micros,
    string_view zone)]. *)
Definition CastFormatTimestampToString_micros_zone_name
  (format_string : string) (timestamp_micros : Z)
  (timezone_string : string) : StatusOr string :=
  if negb (IsWellFormedUTF8 format_string) then
    Failure (MakeEvalError "Format string is not a valid UTF-8 string.")
  else if negb (IsWellFormedUTF8 timezone_string) then
    Failure (MakeEvalError "Timezone string is not a valid UTF-8 string.")
  else
    ASSIGN_OR_RETURN timezone <- MakeTimeZone timezone_string;
    CastFormatTimestampToString_micros format_string timestamp_micros
      timezone.

(** [CastFormatTimestampToString(format, absl::Time,
    string_view zone)]. *)
Definition CastFormatTimestampToString_zone_name (format_string : string)
  (timestamp : Time) (timezone_string : string) : StatusOr string :=
  if negb (IsWellFormedUTF8 format_string) then
    Failure (MakeEvalError "Format string is not a valid UTF-8 string.")
  else
    ASSIGN_OR_RETURN timezone <- MakeTimeZone timezone_string;
    CastFormatTimestampToString format_string timestamp timezone.

End Formatter.

(** ** Validation entry points *)

(** The values of [zetasql::TypeKind] that the validation entry points
    distinguish; every other kind is [TYPE_OTHER]. *)
Inductive TypeKind : Type :=
| TYPE_DATE | TYPE_DATETIME | TYPE_TIME | TYPE_TIMESTAMP | TYPE_OTHER.

Definition ValidateFormatStringForParsing (format_string : string)
  (out_type : TypeKind) : Status :=
  if negb (IsWellFormedUTF8 format_string) then
    Failure (MakeEvalError "Input string is not valid UTF-8")
  else
    ASSIGN_OR_RETURN format_elements <-
      GetDateTimeFormatElements format_string;
    match out_type with
    | TYPE_TIMESTAMP =>
        ValidateDateTimeFormatElements format_elements [] "TIMESTAMP"
    | _ => Failure (MakeSqlError "Unsupported output type for validation")
    end.

Definition ValidateFormatStringForFormatting (format_string : string)
  (out_type : TypeKind) : Status :=
  if negb (IsWellFormedUTF8 format_string) then
    Failure (MakeEvalError "Format string is not a valid UTF-8 string.")
  else
    ASSIGN_OR_RETURN format_elements <-
      GetDateTimeFormatElements format_string;
    match out_type with
    | TYPE_DATE =>
        ValidateDateDateTimeFormatElementsForFormatting format_elements
    | TYPE_DATETIME =>
        ValidateDatetimeDateTimeFormatElementsForFormatting format_elements
    | TYPE_TIME =>
        ValidateTimeDateTimeFormatElementsForFormatting format_elements
    | TYPE_TIMESTAMP => OkStatus
    | TYPE_OTHER =>
        Failure (MakeSqlError "Unsupported output type for validation")
    end.

(** ** A reference civil-time library

    Fixed-offset time zones over the proleptic Gregorian calendar: an
    instant is a number of seconds since 1970-01-01T00:00:00Z and a zone is
    its offset from UTC in seconds.  It instantiates the library variables
    wherever a statement below is evaluated on concrete inputs. *)
Module RefTime.

Local Open Scope Z_scope.

Definition Time : Type := Z.
Definition TimeZone : Type := Z.
Definition UTC : TimeZone := 0.

Definition days_from_civil (y m d : Z) : Z :=
  let y := if m <=? 2 then y - 1 else y in
  let era := y / 400 in
  let yoe := y - era * 400 in
  let doy := (153 * (if 2 <? m then m - 3 else m + 9) + 2) / 5 + d - 1 in
  let doe := yoe * 365 + yoe / 4 - yoe / 100 + doy in
  era * 146097 + doe - 719468.

Definition civil_from_days (z : Z) : Z * Z * Z :=
  let z := z + 719468 in
  let era := z / 146097 in
  let doe := z - era * 146097 in
  let yoe := (doe - doe / 1460 + doe / 36524 - doe / 146096) / 365 in
  let y := yoe + era * 400 in
  let doy := doe - (365 * yoe + yoe / 4 - yoe / 100) in
  let mp := (5 * doy + 2) / 153 in
  let d := doy - (153 * mp + 2) / 5 + 1 in
  let m := if mp <? 10 then mp + 3 else mp - 9 in
  (if m <=? 2 then y + 1 else y, m, d).

Definition civil_of_seconds (t : Z) : CivilSecond :=
  let days := t / 86400 in
  let rem := t mod 86400 in
  let '(y, m, d) := civil_from_days days in
  mkCivilSecond y m d (rem / 3600) ((rem mod 3600) / 60) (rem mod 60).

Definition seconds_of_fields (y m d hh mm ss : Z) : Z :=
  let y' := y + (m - 1) / 12 in
  let m' := (m - 1) mod 12 + 1 in
  (days_from_civil y' m' 1 + (d - 1)) * 86400 + hh * 3600 + mm * 60 + ss.

(** The constructor of a civil second carries out-of-range fields over
    to the next larger field. *)
Definition MakeCivilSecond (y m d hh mm ss : Z) : CivilSecond :=
  civil_of_seconds (seconds_of_fields y m d hh mm ss).

Definition At (tz : TimeZone) (t : Time) : CivilInfo :=
  mkCivilInfo (civil_of_seconds (t + tz)) tz.

Definition At_pre (tz : TimeZone) (c : CivilSecond) : Time :=
  seconds_of_fields (cs_year c) (cs_month c) (cs_day c) (cs_hour c)
    (cs_minute c) (cs_second c) - tz.

(** The supported range, 0001-01-01 00:00:00 to 9999-12-31 23:59:59. *)
Definition IsValidTime (t : Time) : bool :=
  (-62135596800 <=? t) && (t <=? 253402300799).

Definition GetWeekday (c : CivilSecond) : Weekday :=
  match (days_from_civil (cs_year c) (cs_month c) (cs_day c) + 3) mod 7 with
  | 0 => monday | 1 => tuesday | 2 => wednesday | 3 => thursday
  | 4 => friday | 5 => saturday | _ => sunday
  end.

Definition GetSignHourAndMinuteTimeZoneOffset (info : CivilInfo)
  : bool * Z * Z :=
  (0 <=? offset info, Z.abs (offset info) / 3600,
   (Z.abs (offset info) mod 3600) / 60).

(** The instant of midnight UTC on the given civil day. *)
Definition midnight (y m d : Z) : Time := seconds_of_fields y m d 0 0 0.

Definition ConvertTimeToTimestamp (t : Time) : option Z :=
  if IsValidTime t then Some (t * 1000000) else None.

Definition ParseTimeWithFormatElements
  (format_elements : list DateTimeFormatElement)
  (timestamp_string : string) (default_timezone : TimeZone)
  (current_timestamp : Time) : StatusOr Time :=
  ParseTimeWithFormatElements Time TimeZone MakeCivilSecond At
    At_pre IsValidTime format_elements timestamp_string default_timezone
    current_timestamp kNanoseconds.

Definition CastStringToTimestamp (format_string timestamp_string : string)
  (default_timezone : TimeZone) (current_timestamp : Time)
  : StatusOr Time :=
  CastStringToTimestamp_time Time TimeZone MakeCivilSecond At At_pre
    IsValidTime format_string timestamp_string default_timezone
    current_timestamp.

End RefTime.

(** ** Vocabulary of the statements *)

(** What every binding of the element trie satisfies: the key is not
    empty; a literal trigger is one byte; the key of any other element is
    in upper case, starts with a letter, and either belongs to the
    meridian or era category, or is one byte long, or is "Y,YYY", or has a
    letter in second position; an FFn key ends in a number. *)
Definition trie_key_wf (kv : string * FormatElementType) : bool :=
  let k := fst kv in
  let c := GetFormatElementCategoryFromType (snd kv) in
  (1 <=? length k)%nat
  && (if category_eqb c kLiteral then (length k =? 1)%nat
      else
        ascii_isupper (char_at 0 k)
        && String.eqb (AsciiStrToUpper k) k
        && (category_eqb c kMeridianIndicator
            || category_eqb c kEraIndicator
            || (length k =? 1)%nat
            || String.eqb k "Y,YYY"
            || ascii_isalpha (char_at 1 k)))
  && (if type_eqb (snd kv) kFFN
      then match SimpleAtoi (substr 2 (length k - 2) k) with
           | Some _ => true
           | None => false
           end
      else true).

(** The sum of [len_in_format_str] over an element list. *)
Definition total_length (es : list DateTimeFormatElement) : nat :=
  fold_right (fun e n => len_in_format_str e + n) 0 es.

(** The element types of a tokenization, or nothing when it failed. *)
Definition tokenized_types (r : StatusOr (list DateTimeFormatElement))
  : option (list FormatElementType) :=
  match r with
  | Value es => Some (types_of es)
  | Failure _ => None
  end.

(** Two results of reading one element agree on success and, then, on the
    type and on the length of the element. *)
Definition same_shape (r r' : StatusOr DateTimeFormatElement) : Prop :=
  match r, r' with
  | Value e, Value e' =>
      type e = type e' /\ len_in_format_str e = len_in_format_str e'
  | Failure _, Failure _ => True
  | _, _ => False
  end.

(** The casing rules in the words of the specification (section 4.C).
    A lowercase letter is a byte from a to z and an uppercase letter a
    byte from A to Z. *)
Definition lowercase_letter (c : ascii) : bool :=
  (nat_of_ascii "a" <=? nat_of_ascii c)%nat
  && (nat_of_ascii c <=? nat_of_ascii "z")%nat.

Definition uppercase_letter (c : ascii) : bool :=
  (nat_of_ascii "A" <=? nat_of_ascii c)%nat
  && (nat_of_ascii c <=? nat_of_ascii "Z")%nat.

(** The byte of [text] at [i] exists and satisfies [p]. *)
Definition byte_is (p : ascii -> bool) (i : nat) (text : string) : bool :=
  match get i text with
  | Some c => p c
  | None => false
  end.

(** The casing policy of a non-literal element, from its original text,
    its category and its type: first letter lowercase, all lowercase;
    first letter uppercase and the category Meridian or Era, or a
    single-character element, or the element Y,YYY, all uppercase; first
    letter uppercase and second letter lowercase, only the first letter
    uppercase; otherwise all uppercase. *)
Definition casing_policy (text : string) (c : FormatElementCategory)
  (t : FormatElementType) : FormatCasingType :=
  if byte_is lowercase_letter 0 text then kAllLettersLowercase
  else if byte_is uppercase_letter 0 text
          && (category_eqb c kMeridianIndicator
              || category_eqb c kEraIndicator
              || (length text =? 1)%nat
              || type_eqb t kYCommaYYY)
  then kAllLettersUppercase
  else if byte_is uppercase_letter 0 text && byte_is lowercase_letter 1 text
  then kOnlyFirstLetterUppercase
  else kAllLettersUppercase.

(** The casing of an element is the one the rules give for its original
    text, the span of [len_in_format_str] bytes at [offset] of the format
    string as the user wrote it; a literal has the casing kPreserveCase. *)
Definition casing_of_span (format_str : string) (offset : nat)
  (e : DateTimeFormatElement) : Prop :=
  format_casing_type e
  = if category_eqb (category e) kLiteral then kPreserveCase
    else casing_policy (substr offset (len_in_format_str e) format_str)
           (category e) (type e).

(** The key that the trie binds to the type of Y,YYY, and to no other
    type, is "Y,YYY". *)
Definition trie_key_canonical (kv : string * FormatElementType) : bool :=
  Bool.eqb (String.eqb (fst kv) "Y,YYY") (type_eqb (snd kv) kYCommaYYY).

Fixpoint casing_from_original (format_str : string) (offset : nat)
  (es : list DateTimeFormatElement) : Prop :=
  match es with
  | [] => True
  | e :: rest =>
      casing_of_span format_str offset e
      /\ casing_from_original format_str (offset + len_in_format_str e) rest
  end.

(** [n] bytes at the head of a text are a run of Unicode whitespace code
    points. *)
Inductive whitespace_run : string -> nat -> Prop :=
| whitespace_run_nil (s : string) : whitespace_run s 0
| whitespace_run_cons (s : string) (c : Z) (n m : nat) :
    U8_NEXT s = Some (c, n) ->
    u_isUWhiteSpace c = true ->
    whitespace_run (substr_from n s) m ->
    whitespace_run s (n + m).

(** The text does not start with a Unicode whitespace code point. *)
Definition no_leading_whitespace (s : string) : Prop :=
  match U8_NEXT s with
  | Some (c, _) => u_isUWhiteSpace c = false
  | None => True
  end.

(** The parse state at the start of the year 1970 and of a given year, for
    evaluating single parsing steps. *)
Definition state_in_year (y : Z) : ParseState :=
  {| processed_format_element_count := 0;
     timestamp_str_parsed_length := 0;
     year := y; month := 1; mday := 1; hour := 0; min := 0; sec := 0;
     error_in_parsing := false |}.

(** The element a one-element format string tokenizes to. *)
Definition element_of (format_str : string) : DateTimeFormatElement :=
  match GetDateTimeFormatElements format_str with
  | Value (e :: _) => e
  | _ => default_element
  end.

(** Two parse states agree on every civil field other than the year. *)
Definition same_frame (st st' : ParseState) : Prop :=
  month st' = month st /\ mday st' = mday st /\ hour st' = hour st
  /\ min st' = min st /\ sec st' = sec st.

(** Presence and multiplicity of types and categories in an element
    list, and the structural rules 2 to 5 of the validator. *)
Definition has_type (t : FormatElementType)
  (es : list DateTimeFormatElement) : bool :=
  existsb (fun e => type_eqb (type e) t) es.

Definition has_category (c : FormatElementCategory)
  (es : list DateTimeFormatElement) : bool :=
  existsb (fun e => category_eqb (category e) c) es.

Definition count_category (c : FormatElementCategory)
  (es : list DateTimeFormatElement) : nat :=
  List.length (filter (fun e => category_eqb (category e) c) es).

(** Rule 2: an element whose type already occurred is a literal. *)
Definition rule_no_duplicate_type (es : list DateTimeFormatElement) : Prop :=
  forall i j ei ej,
    i < j -> nth_error es i = Some ei -> nth_error es j = Some ej ->
    type ei = type ej -> category ej = kLiteral.

(** Rule 3: at most one element in each of the six categories. *)
Definition rule_no_duplicate_category (es : list DateTimeFormatElement)
  : Prop :=
  forall c, In c categories_to_check_duplicate -> count_category c es <= 1.

(** Rule 4: the mutual exclusions. *)
Definition rule_mutual_exclusion (es : list DateTimeFormatElement) : Prop :=
  (has_type kDDD es = true -> has_category kMonth es = false)
  /\ (has_type kHH24 es = true -> has_category kMeridianIndicator es = false)
  /\ (has_type kSSSSS es = true ->
      has_category kHour es = false /\ has_category kMinute es = false
      /\ has_type kSS es = false).

(** Rule 5: HH or HH12 is present exactly when a meridian element is. *)
Definition rule_coexistence (es : list DateTimeFormatElement) : Prop :=
  has_type kHH es || has_type kHH12 es = has_category kMeridianIndicator es.

(** Rule 6: the categories allowed for each target type. *)
Definition category_allowed (out_type : TypeKind)
  (c : FormatElementCategory) : bool :=
  match out_type, c with
  | TYPE_DATE, (kLiteral | kYear | kMonth | kDay) => true
  | TYPE_TIME,
    (kLiteral | kHour | kMinute | kSecond | kMeridianIndicator) => true
  | TYPE_DATETIME,
    (kLiteral | kYear | kMonth | kDay
     | kHour | kMinute | kSecond | kMeridianIndicator) => true
  | TYPE_TIMESTAMP, _ => true
  | _, _ => false
  end.

Definition all_categories_allowed (out_type : TypeKind)
  (es : list DateTimeFormatElement) : bool :=
  match out_type with
  | TYPE_OTHER => false
  | _ => forallb (fun e => category_allowed out_type (category e)) es
  end.

(** The elements of a format string that tokenizes, and the empty list
    otherwise. *)
Definition elements_of (format_str : string) : list DateTimeFormatElement :=
  match GetDateTimeFormatElements format_str with
  | Value es => es
  | Failure _ => []
  end.


(** ** The remaining function of the file *)

(** The loop of [CheckSupportedFormatYearElement]: every byte equals
    [first_char]. *)
Fixpoint all_bytes_equal (first_char : ascii) (s : string) : bool :=
  match s with
  | EmptyString => true
  | String c s' =>
      if negb (Ascii.eqb c first_char) then false
      else all_bytes_equal first_char s'
  end.

Definition CheckSupportedFormatYearElement (upper_format_string : string)
  : bool :=
  if String.eqb upper_format_string EmptyString
     || (4 <? length upper_format_string)%nat then false
  else
    let first_char := char_at 0 upper_format_string in
    if negb (Ascii.eqb first_char "Y"%char)
       && negb (Ascii.eqb first_char "R"%char) then false
    else all_bytes_equal first_char upper_format_string.

(** ** Further vocabulary *)

(** The elements [es] are those read one after the other from [offset]
    up to the end of the format string, each by
    [GetNextDateTimeFormatElement] at the place where the previous one
    ended. *)
Fixpoint read_at_offsets (format_str : string) (offset : nat)
  (es : list DateTimeFormatElement) : Prop :=
  match es with
  | [] => offset = length format_str
  | e :: rest =>
      offset < length format_str
      /\ GetNextDateTimeFormatElement (substr_from offset format_str)
           (AsciiStrToUpper (substr_from offset format_str)) = Value e
      /\ read_at_offsets format_str (offset + len_in_format_str e) rest
  end.

(** The shape of an element the tokenizer produces: the category is the
    one of the type, the type is a real one, the element is not empty,
    literals keep their case and every other element has one of the three
    casings. *)
Definition element_wf (e : DateTimeFormatElement) : Prop :=
  category e = GetFormatElementCategoryFromType (type e)
  /\ type e <> kFormatElementTypeUnspecified
  /\ 1 <= len_in_format_str e
  /\ (if category_eqb (category e) kLiteral
      then format_casing_type e = kPreserveCase
      else In (format_casing_type e)
             [kAllLettersUppercase; kAllLettersLowercase;
              kOnlyFirstLetterUppercase]).

(** [Q] holds of every element together with its text, the span of
    [len_in_format_str] bytes of the format string at the element's
    offset. *)
Fixpoint at_spans (Q : string -> DateTimeFormatElement -> Prop)
  (format_str : string) (offset : nat) (es : list DateTimeFormatElement)
  : Prop :=
  match es with
  | [] => True
  | e :: rest =>
      Q (substr offset (len_in_format_str e) format_str) e
      /\ at_spans Q format_str (offset + len_in_format_str e) rest
  end.

(** The debug name of an element that is not a quoted literal is its
    text in upper case, between single quotes. *)
Definition debug_name_is_upper_text (text : string)
  (e : DateTimeFormatElement) : Prop :=
  type e <> kDoubleQuotedLiteral ->
  ToString e = "'" ++ AsciiStrToUpper text ++ "'".

(** What every binding of the element trie satisfies, besides
    [trie_key_wf]: a literal trigger contains no letter (and the one of
    whitespace is a space), an FFn key is
    "FF" followed by a digit from 1 to 9, and the key of any other element
    is the name of its type. *)
Fixpoint no_letters (s : string) : bool :=
  match s with
  | EmptyString => true
  | String c s' => negb (ascii_isalpha c) && no_letters s'
  end.

Definition trie_key_named (kv : string * FormatElementType) : bool :=
  let k := fst kv in
  let t := snd kv in
  if category_eqb (GetFormatElementCategoryFromType t) kLiteral then
    no_letters k
    && (if type_eqb t kWhitespace then String.eqb k " " else true)
  else if type_eqb t kFFN then
    match k with
    | String f1 (String f2 (String d EmptyString)) =>
        Ascii.eqb f1 "F"%char && Ascii.eqb f2 "F"%char && in_range 49 57 d
    | _ => false
    end
  else String.eqb k (FormatElementTypeString t).

(** The escaping that the scan of a quoted literal undoes: a backslash
    before every backslash and every double quote. *)
Fixpoint escape_quoted (text : string) : string :=
  match text with
  | EmptyString => EmptyString
  | String c s =>
      if Ascii.eqb c backslash || Ascii.eqb c dquote
      then String backslash (String c (escape_quoted s))
      else String c (escape_quoted s)
  end.

(** [text] as a quoted literal of a format string. *)
Definition quoted (text : string) : string :=
  String dquote (escape_quoted text ++ str1 dquote).

Fixpoint contains_byte (c : ascii) (s : string) : bool :=
  match s with
  | EmptyString => false
  | String a s' => Ascii.eqb a c || contains_byte c s'
  end.

Definition whitespace_element (n : nat) : DateTimeFormatElement :=
  mkElement kWhitespace kLiteral n kPreserveCase EmptyString 0.

Definition quoted_element (text : string) : DateTimeFormatElement :=
  mkElement kDoubleQuotedLiteral kLiteral (length (quoted text))
            kPreserveCase text 0.

(** The three reasons for which reading an element fails. *)
Definition tokenizer_failure_reason (reason : string) : Prop :=
  reason = "Cannot find matched format element"
  \/ reason = "Cannot find matching " ++ str1 dquote ++ " for quoted literal"
  \/ exists c,
       reason = "Unsupported escape sequence " ++ str1 backslash ++ str1 c
                ++ " in text".

(** The element types that have a branch in the [switch] of the parsing
    loop. *)
Definition has_parse_branch (t : FormatElementType) : bool :=
  match t with
  | kSimpleLiteral | kDoubleQuotedLiteral | kWhitespace
  | kYYYY | kRRRR | kYYY | kYY | kY | kRR | kYCommaYYY => true
  | _ => false
  end.

(** The element types that have a case in the [switch] of
    [FromDateTimeFormatElementToFormatString]. *)
Definition has_format_branch (t : FormatElementType) : bool :=
  match t with
  | kSimpleLiteral | kDoubleQuotedLiteral | kWhitespace
  | kYYYY | kYYY | kYY | kY | kRRRR | kRR
  | kMM | kMON | kMONTH | kD | kDD | kDDD | kDAY | kDY
  | kHH | kHH12 | kHH24 | kMI | kSS | kSSSSS | kFFN
  | kAM | kPM | kAMWithDots | kPMWithDots | kTZH | kTZM => true
  | _ => false
  end.

(** A literal written without quotes: a punctuation character or a run
    of spaces. *)
Definition is_unquoted_literal (e : DateTimeFormatElement) : bool :=
  type_eqb (type e) kSimpleLiteral || type_eqb (type e) kWhitespace.

(** The year elements that are rendered as digits. *)
Definition is_digit_year (t : FormatElementType) : bool :=
  match t with
  | kYYYY | kYYY | kYY | kY | kRRRR => true
  | _ => false
  end.

(** The check behind the round trip of a year element of [n] letters:
    the rendering of the year [y] has [n] characters, and [ParseInt] with
    the width and the bound of the element's branch in the parser reads
    all of them as the last [n] digits of [y]. *)
Definition renders_and_parses_back (n max_width : nat) (max y : Z) : bool :=
  let trunc_year := Z.rem (to_int32 y) (power_of_ten n) in
  let s := StrFormat_0d n (if (n =? 4)%nat then y else trunc_year) in
  (length s =? n)%nat
  && match ParseInt s 1 max_width 0 max with
     | Some (parsed_length, value) =>
         (parsed_length =? n)%nat
         && (value =? Z.rem y (power_of_ten n))%Z
     | None => false
     end.

(** The year the parser stores after reading the digits of the year [y]
    with an element of type [t], from a state whose year is [current]:
    YYYY and RRRR set the year, and YYY, YY and Y replace its last
    digits. *)
Definition year_read_back (t : FormatElementType) (current y : Z) : Z :=
  let n := length (FormatElementTypeString t) in
  if (n =? 4)%nat then y
  else (current - Z.rem current (power_of_ten n)
        + Z.rem y (power_of_ten n))%Z.

(** ** The formatting side of the reference library

    The remaining library functions for the same instants and zones: an
    instant is a whole number of seconds, a date is a number of days since
    1970-01-01, a datetime is a civil second with its nanoseconds and a
    time of day is its four fields. *)
Module RefFormat.

Local Open Scope Z_scope.

Definition ToUnixMicros (t : RefTime.Time) : Z := t * 1000000.

(** Zone offsets are kept to whole minutes. *)
Definition GetNormalizedTimeZone (t : RefTime.Time) (tz : RefTime.TimeZone)
  : RefTime.TimeZone :=
  Z.quot tz 60 * 60.

Definition MakeTime (v : Z) (scale : TimestampScale) : RefTime.Time :=
  match scale with
  | kMicroseconds => v / 1000000
  | kNanoseconds => v / 1000000000
  end.

Definition AddNanoseconds (t : RefTime.Time) (ns : Z) : RefTime.Time :=
  t + ns / 1000000000.

(** From 0001-01-01 to 9999-12-31. *)
Definition IsValidDate (date : Z) : bool :=
  (-719162 <=? date) && (date <=? 2932896).

(** The conversions %Y, %m, %d, %H, %M and %S of [absl::FormatTime];
    every other byte of the format is copied. *)
Fixpoint FormatTime (format : string) (t : RefTime.Time)
  (tz : RefTime.TimeZone) : string :=
  match format with
  | EmptyString => EmptyString
  | String p EmptyString => String p EmptyString
  | String p (String c rest as tail) =>
      let civil := cs (RefTime.At tz t) in
      if negb (Ascii.eqb p "%") then String p (FormatTime tail t tz)
      else if Ascii.eqb c "Y" then
        string_of_Z (cs_year civil) ++ FormatTime rest t tz
      else if Ascii.eqb c "m" then
        StrFormat_0d 2 (cs_month civil) ++ FormatTime rest t tz
      else if Ascii.eqb c "d" then
        StrFormat_0d 2 (cs_day civil) ++ FormatTime rest t tz
      else if Ascii.eqb c "H" then
        StrFormat_0d 2 (cs_hour civil) ++ FormatTime rest t tz
      else if Ascii.eqb c "M" then
        StrFormat_0d 2 (cs_minute civil) ++ FormatTime rest t tz
      else if Ascii.eqb c "S" then
        StrFormat_0d 2 (cs_second civil) ++ FormatTime rest t tz
      else String p (String c (FormatTime rest t tz))
  end.

Definition DatetimeValue : Type := (CivilSecond * Z)%type.
Definition Datetime_IsValid (d : DatetimeValue) : bool :=
  (1 <=? cs_year (fst d)) && (cs_year (fst d) <=? 9999).
Definition Datetime_DebugString (d : DatetimeValue) : string :=
  string_of_Z (cs_year (fst d)).
Definition Datetime_ConvertToCivilSecond (d : DatetimeValue) : CivilSecond :=
  fst d.
Definition Datetime_Nanoseconds (d : DatetimeValue) : Z := snd d.

Record TimeValue : Type := mkTimeValue {
  Time_Hour : Z; Time_Minute : Z; Time_Second : Z; Time_Nanoseconds : Z
}.
Definition Time_IsValid (t : TimeValue) : bool :=
  (0 <=? Time_Hour t) && (Time_Hour t <? 24)
  && (0 <=? Time_Minute t) && (Time_Minute t <? 60)
  && (0 <=? Time_Second t) && (Time_Second t <? 60).
Definition Time_DebugString (t : TimeValue) : string :=
  string_of_Z (Time_Hour t).

Definition CastFormatTimestampToString (format_string : string)
  (timestamp : RefTime.Time) (timezone : RefTime.TimeZone) : StatusOr string :=
  CastFormatTimestampToString RefTime.Time RefTime.TimeZone RefTime.At
    RefTime.IsValidTime FormatTime RefTime.GetWeekday ToUnixMicros
    GetNormalizedTimeZone RefTime.GetSignHourAndMinuteTimeZoneOffset
    format_string timestamp timezone.

Definition CastFormatDateToString (format_string : string) (date : Z)
  : StatusOr string :=
  CastFormatDateToString RefTime.Time RefTime.TimeZone RefTime.At
    RefTime.IsValidTime FormatTime RefTime.GetWeekday ToUnixMicros
    RefTime.UTC GetNormalizedTimeZone
    RefTime.GetSignHourAndMinuteTimeZoneOffset MakeTime IsValidDate
    format_string date.

End RefFormat.

(** The state with the cursor [n] bytes further. *)
Definition shift_cursor (n : nat) (st : ParseState) : ParseState :=
  set_timestamp_str_parsed_length (n + timestamp_str_parsed_length st) st.

(** * Properties *)

(** ** Bytes and strings *)

Ltac each_ascii c :=
  destruct c as [[] [] [] [] [] [] [] []]; vm_compute; try reflexivity;
  try discriminate; auto.

Lemma toupper_idempotent (c : ascii) :
  ascii_toupper (ascii_toupper c) = ascii_toupper c.
Proof. each_ascii c. Qed.

Lemma isalpha_toupper (c : ascii) :
  ascii_isalpha (ascii_toupper c) = ascii_isalpha c.
Proof. each_ascii c. Qed.

Lemma islower_toupper (c : ascii) : ascii_islower (ascii_toupper c) = false.
Proof. each_ascii c. Qed.

Lemma isupper_toupper (c : ascii) :
  ascii_isupper (ascii_toupper c) = ascii_isalpha c.
Proof. each_ascii c. Qed.

Lemma isspace_toupper (c : ascii) :
  ascii_isspace (ascii_toupper c) = ascii_isspace c.
Proof. each_ascii c. Qed.

Lemma digit_value_toupper (c : ascii) :
  digit_value (ascii_toupper c) = digit_value c.
Proof. each_ascii c. Qed.

Lemma eqb_space_toupper (c : ascii) :
  Ascii.eqb (ascii_toupper c) space = Ascii.eqb c space.
Proof. each_ascii c. Qed.

Lemma eqb_backslash_toupper (c : ascii) :
  Ascii.eqb (ascii_toupper c) backslash = Ascii.eqb c backslash.
Proof. each_ascii c. Qed.

Lemma eqb_dquote_toupper (c : ascii) :
  Ascii.eqb (ascii_toupper c) dquote = Ascii.eqb c dquote.
Proof. each_ascii c. Qed.

Lemma eqb_minus_toupper (c : ascii) :
  Ascii.eqb (ascii_toupper c) "-"%char = Ascii.eqb c "-"%char.
Proof. each_ascii c. Qed.

Lemma eqb_plus_toupper (c : ascii) :
  Ascii.eqb (ascii_toupper c) "+"%char = Ascii.eqb c "+"%char.
Proof. each_ascii c. Qed.

Lemma length_upper (s : string) : length (AsciiStrToUpper s) = length s.
Proof. induction s; simpl; congruence. Qed.

Lemma upper_idempotent (s : string) :
  AsciiStrToUpper (AsciiStrToUpper s) = AsciiStrToUpper s.
Proof.
  induction s as [|c s IH]; simpl; [reflexivity|].
  now rewrite toupper_idempotent, IH.
Qed.

Lemma substr_from_upper (n : nat) (s : string) :
  substr_from n (AsciiStrToUpper s) = AsciiStrToUpper (substr_from n s).
Proof.
  revert s; induction n as [|n IH]; intros [|c s]; simpl; auto.
Qed.

Lemma substring_upper (p n : nat) (s : string) :
  substring p n (AsciiStrToUpper s) = AsciiStrToUpper (substring p n s).
Proof.
  revert p n; induction s as [|c s IH]; intros [|p] [|n]; simpl;
    try reflexivity; rewrite ?IH; reflexivity.
Qed.

Lemma length_substr_from (n : nat) (s : string) :
  length (substr_from n s) = length s - n.
Proof.
  revert s; induction n as [|n IH]; intros [|c s]; simpl; auto.
Qed.

Lemma substr_from_add (a b : nat) (s : string) :
  substr_from (a + b) s = substr_from b (substr_from a s).
Proof.
  revert s; induction a as [|a IH]; intros s; simpl; [reflexivity|].
  destruct s as [|c s]; [|apply IH].
  now destruct b.
Qed.

Lemma substring_substr_from (p n : nat) (s : string) :
  substring 0 n (substr_from p s) = substring p n s.
Proof.
  revert s; induction p as [|p IH]; intros s; simpl; [reflexivity|].
  destruct s as [|c s]; [now destruct n | apply IH].
Qed.

Lemma substr_from_all (n : nat) (s : string) :
  length s <= n -> substr_from n s = EmptyString.
Proof.
  revert s; induction n as [|n IH]; intros [|c s] H; simpl in *;
    try reflexivity; try lia.
  apply IH; lia.
Qed.

Lemma prefix_length (k u : string) : prefix k u = true -> length k <= length u.
Proof.
  revert u; induction k as [|a k IH]; intros u H; simpl; [lia|].
  destruct u as [|b u]; simpl in H; [discriminate|].
  destruct (ascii_dec a b); [|discriminate].
  specialize (IH _ H); simpl; lia.
Qed.

Lemma prefix_substring (k u : string) :
  prefix k u = true -> substring 0 (length k) u = k.
Proof. apply prefix_correct. Qed.

Lemma length_append (s t : string) : length (s ++ t) = length s + length t.
Proof. induction s; simpl; congruence. Qed.

(** ** The element-type trie *)

Lemma type_eqb_eq (a b : FormatElementType) : type_eqb a b = true <-> a = b.
Proof.
  split; [apply internal_FormatElementType_dec_bl
         | apply internal_FormatElementType_dec_lb].
Qed.

Lemma category_eqb_eq (a b : FormatElementCategory) :
  category_eqb a b = true <-> a = b.
Proof.
  split; [apply internal_FormatElementCategory_dec_bl
         | apply internal_FormatElementCategory_dec_lb].
Qed.

Lemma type_eqb_refl (a : FormatElementType) : type_eqb a a = true.
Proof. now apply type_eqb_eq. Qed.

Lemma category_eqb_refl (a : FormatElementCategory) : category_eqb a a = true.
Proof. now apply category_eqb_eq. Qed.

(** The lookup returns either the null value, or the data and the length
    of a bound key that is a prefix of the text. *)
Lemma GetDataForMaximalPrefix_cons (k : string) (d : FormatElementType)
  (rest : FormatElementTypeTrie) (u : string) :
  GetDataForMaximalPrefix ((k, d) :: rest) u
  = if prefix k u
       && (snd (GetDataForMaximalPrefix rest u) <? length k)%nat
       && negb (type_eqb d kFormatElementTypeNullValue)
    then (d, length k)
    else GetDataForMaximalPrefix rest u.
Proof.
  change (GetDataForMaximalPrefix ((k, d) :: rest) u)
    with (match GetDataForMaximalPrefix rest u with
          | (best_data, best_len) =>
              if prefix k u && (best_len <? length k)%nat
                 && negb (type_eqb d kFormatElementTypeNullValue)
              then (d, length k)
              else (best_data, best_len)
          end).
  destruct (GetDataForMaximalPrefix rest u) as [bd bl]. reflexivity.
Qed.

Lemma GetDataForMaximalPrefix_found (trie : FormatElementTypeTrie)
  (u : string) :
  let r := GetDataForMaximalPrefix trie u in
  (fst r = kFormatElementTypeNullValue /\ snd r = 0)
  \/ (fst r <> kFormatElementTypeNullValue
      /\ exists k, In (k, fst r) trie /\ prefix k u = true
                   /\ snd r = length k).
Proof.
  induction trie as [|[k d] rest IH]; [now left|].
  cbv zeta in *. rewrite GetDataForMaximalPrefix_cons.
  destruct (prefix k u
            && (snd (GetDataForMaximalPrefix rest u) <? length k)%nat
            && negb (type_eqb d kFormatElementTypeNullValue)) eqn:E.
  - right. apply andb_true_iff in E as [E Hd].
    apply andb_true_iff in E as [Hp _].
    simpl. split.
    + intros ->. now rewrite type_eqb_refl in Hd.
    + exists k. auto.
  - destruct IH as [IH | (Hn & k' & Hin & Hp & Hl)]; [now left|].
    right. split; [assumption|]. exists k'. simpl. auto.
Qed.

(** Maximal munch: no bound key that is a prefix of the text is longer
    than the match. *)
Lemma GetDataForMaximalPrefix_maximal (trie : FormatElementTypeTrie)
  (u k : string) (d : FormatElementType) :
  In (k, d) trie -> d <> kFormatElementTypeNullValue ->
  prefix k u = true ->
  length k <= snd (GetDataForMaximalPrefix trie u).
Proof.
  induction trie as [|[k' d'] rest IH]; [simpl; tauto|].
  intros Hin Hd Hp. rewrite GetDataForMaximalPrefix_cons.
  destruct (prefix k' u
            && (snd (GetDataForMaximalPrefix rest u) <? length k')%nat
            && negb (type_eqb d' kFormatElementTypeNullValue)) eqn:E.
  - simpl. apply andb_true_iff in E as [E _].
    apply andb_true_iff in E as [_ Hlt]. apply Nat.ltb_lt in Hlt.
    destruct Hin as [Heq | Hin]; [inversion Heq; subst; lia|].
    specialize (IH Hin Hd Hp). lia.
  - destruct Hin as [Heq | Hin]; [|now apply IH].
    inversion Heq; subst k' d'. rewrite Hp in E. simpl in E.
    assert (Hd' : negb (type_eqb d kFormatElementTypeNullValue) = true).
    { apply negb_true_iff. destruct (type_eqb d _) eqn:T; [|reflexivity].
      apply type_eqb_eq in T. contradiction. }
    rewrite Hd', andb_true_r in E. apply Nat.ltb_ge in E. exact E.
Qed.

Lemma trie_keys_wf : forallb trie_key_wf GetFormatElementTypeTrie = true.
Proof. vm_compute. reflexivity. Qed.

Lemma trie_key_wf_in (k : string) (t : FormatElementType) :
  In (k, t) GetFormatElementTypeTrie -> trie_key_wf (k, t) = true.
Proof.
  intros H. pose proof trie_keys_wf as W.
  rewrite forallb_forall in W. now apply W.
Qed.

(** A successful lookup in the element trie, spelled out. *)
Lemma trie_lookup (u : string) (t : FormatElementType) (n : nat) :
  GetDataForMaximalPrefix GetFormatElementTypeTrie u = (t, n) ->
  t <> kFormatElementTypeNullValue ->
  exists k, trie_key_wf (k, t) = true /\ prefix k u = true /\ n = length k.
Proof.
  intros E Hn.
  pose proof (GetDataForMaximalPrefix_found GetFormatElementTypeTrie u) as H.
  rewrite E in H. simpl in H.
  destruct H as [[H _] | (_ & k & Hin & Hp & Hl)]; [contradiction|].
  exists k. split; [now apply trie_key_wf_in | auto].
Qed.

(** ** Bounds on the length of one element *)

Lemma count_spaces_le (s : string) : count_spaces s <= length s.
Proof.
  induction s as [|c s IH]; simpl; [lia|].
  destruct (Ascii.eqb c space); lia.
Qed.

Lemma scan_quoted_literal_bounds (rest : string) :
  forall is_escaped matched_len literal m l,
    scan_quoted_literal rest is_escaped matched_len literal = Value (m, l) ->
    matched_len < m <= matched_len + length rest.
Proof.
  induction rest as [|c rest IH]; intros esc ml lit m l H; simpl in H;
    [discriminate|].
  destruct esc.
  - destruct (Ascii.eqb c backslash || Ascii.eqb c dquote);
      [|discriminate].
    apply IH in H. simpl. lia.
  - destruct (Ascii.eqb c backslash).
    + apply IH in H. simpl. lia.
    + destruct (Ascii.eqb c dquote).
      * inversion H; subst. simpl. lia.
      * apply IH in H. simpl. lia.
Qed.

Lemma trie_key_wf_length (k : string) (t : FormatElementType) :
  trie_key_wf (k, t) = true -> 1 <= length k.
Proof.
  unfold trie_key_wf. simpl. intros H.
  apply andb_true_iff in H as [H _]. apply andb_true_iff in H as [H _].
  now apply Nat.leb_le.
Qed.

Lemma trie_key_wf_literal (k : string) (t : FormatElementType) :
  trie_key_wf (k, t) = true ->
  GetFormatElementCategoryFromType t = kLiteral -> length k = 1.
Proof.
  unfold trie_key_wf. simpl. intros H Hc.
  apply andb_true_iff in H as [H _]. apply andb_true_iff in H as [_ H].
  rewrite Hc in H. simpl in H. now apply Nat.eqb_eq.
Qed.

(** An element read from the format string is at least one byte long and
    does not extend beyond the end of the string. *)
Lemma GetNextDateTimeFormatElement_bounds (f u : string)
  (e : DateTimeFormatElement) :
  length u = length f ->
  GetNextDateTimeFormatElement f u = Value e ->
  1 <= len_in_format_str e <= length f.
Proof.
  intros Hlen. unfold GetNextDateTimeFormatElement.
  destruct (GetDataForMaximalPrefix GetFormatElementTypeTrie u)
    as [t n] eqn:E.
  destruct (type_eqb t kFormatElementTypeNullValue) eqn:Tn; [discriminate|].
  assert (Hn : t <> kFormatElementTypeNullValue).
  { intros ->. rewrite type_eqb_refl in Tn. discriminate Tn. }
  destruct (trie_lookup _ _ _ E Hn) as (k & Hwf & Hp & ->).
  clear E Tn.
  pose proof (trie_key_wf_length _ _ Hwf) as H1.
  pose proof (prefix_length _ _ Hp) as H2.
  cbn [category type set_category set_type default_element
       set_format_casing_type set_len_in_format_str].
  destruct (category_eqb (GetFormatElementCategoryFromType t) kLiteral)
    eqn:Cl; cbn [negb].
  - apply category_eqb_eq in Cl.
    pose proof (trie_key_wf_literal _ _ Hwf Cl) as Hk1.
    destruct (type_eqb t kSimpleLiteral).
    + intros H; inversion H; subst; simpl. lia.
    + destruct (type_eqb t kWhitespace).
      * intros H; inversion H; subst; simpl.
        pose proof (count_spaces_le (substr_from (length k) f)) as Hc.
        rewrite length_substr_from in Hc. lia.
      * destruct (type_eqb t kDoubleQuotedLiteral); cbn [negb];
          [|discriminate].
        destruct (scan_quoted_literal (substr_from 1 f) false (length k)
                    EmptyString) as [[m l]|] eqn:S; simpl; [|discriminate].
        intros H; inversion H; subst; simpl.
        apply scan_quoted_literal_bounds in S.
        rewrite length_substr_from in S. lia.
  - destruct (GetFormatCasingTypeOfNonLiteralElements _ _) as [casing|];
      simpl; [|discriminate].
    destruct (type_eqb t kFFN).
    + destruct (SimpleAtoi _); [|discriminate].
      intros H; inversion H; subst; simpl. lia.
    + intros H; inversion H; subst; simpl. lia.
Qed.

(** ** The scanning loop *)

Lemma total_length_app (es es' : list DateTimeFormatElement) :
  total_length (es ++ es') = total_length es + total_length es'.
Proof.
  unfold total_length. induction es as [|e es IH]; simpl; [reflexivity|].
  rewrite IH. lia.
Qed.

Lemma loop_total_length (fuel : nat) (f u : string) :
  length u = length f ->
  forall processed_len acc es,
    processed_len <= length f ->
    total_length acc = processed_len ->
    GetDateTimeFormatElements_loop fuel f u processed_len acc
      = Some (Value es) ->
    total_length es = length f.
Proof.
  intros Hlen. induction fuel as [|fuel IH]; intros p acc es Hp Hacc H;
    simpl in H.
  - destruct (p <? length f)%nat eqn:C; [discriminate|].
    apply Nat.ltb_ge in C. inversion H; subst. lia.
  - destruct (p <? length f)%nat eqn:C.
    + apply Nat.ltb_lt in C.
      destruct (GetNextDateTimeFormatElement (substr_from p f)
                  (substr_from p u)) as [e|err] eqn:G; [|discriminate].
      apply GetNextDateTimeFormatElement_bounds in G;
        [|rewrite !length_substr_from; lia].
      rewrite length_substr_from in G.
      eapply IH; [| |exact H]; [lia|].
      rewrite total_length_app, Hacc. simpl. lia.
    + apply Nat.ltb_ge in C. inversion H; subst. lia.
Qed.

(** The fuel given by [GetDateTimeFormatElements] is never exhausted. *)
Lemma loop_enough_fuel (fuel : nat) (f u : string) :
  length u = length f ->
  forall processed_len acc,
    length f - processed_len <= fuel ->
    GetDateTimeFormatElements_loop fuel f u processed_len acc <> None.
Proof.
  intros Hlen. induction fuel as [|fuel IH]; intros p acc Hf; simpl.
  - destruct (p <? length f)%nat eqn:C; [|discriminate].
    apply Nat.ltb_lt in C. lia.
  - destruct (p <? length f)%nat eqn:C; [|discriminate].
    apply Nat.ltb_lt in C.
    destruct (GetNextDateTimeFormatElement (substr_from p f)
                (substr_from p u)) as [e|err] eqn:G; [|discriminate].
    apply GetNextDateTimeFormatElement_bounds in G;
      [|rewrite !length_substr_from; lia].
    apply IH. lia.
Qed.

Lemma GetDateTimeFormatElements_total (format_str : string) :
  GetDateTimeFormatElements_loop (length format_str) format_str
    (AsciiStrToUpper format_str) 0 [] <> None.
Proof.
  apply loop_enough_fuel; [apply length_upper | lia].
Qed.

Lemma GetDateTimeFormatElements_loop_eq (format_str : string) :
  GetDateTimeFormatElements_loop (length format_str) format_str
    (AsciiStrToUpper format_str) 0 []
  = Some (GetDateTimeFormatElements format_str).
Proof.
  unfold GetDateTimeFormatElements.
  pose proof (GetDateTimeFormatElements_total format_str) as T.
  destruct (GetDateTimeFormatElements_loop _ _ _ _ _); congruence.
Qed.

(** C3.  Tokenization total coverage: whenever tokenizing a format string
    succeeds, the values of [len_in_format_str] of the elements returned
    add up to the byte length of the format string.  (The statement holds
    for every byte string, in particular for the well-formed UTF-8 strings
    the entry points pass on.) *)
Theorem tokenization_total_coverage (format_str : string)
  (format_elements : list DateTimeFormatElement) :
  GetDateTimeFormatElements format_str = Value format_elements ->
  total_length format_elements = length format_str.
Proof.
  intros H.
  pose proof (GetDateTimeFormatElements_loop_eq format_str) as L.
  rewrite H in L.
  eapply loop_total_length; [| | |exact L].
  - apply length_upper.
  - lia.
  - reflexivity.
Qed.

Lemma tokenization_total_coverage_witness :
  exists es,
    GetDateTimeFormatElements "YYYY-Mon  dd" = Value es
    /\ total_length es = 12.
Proof.
  eexists. split.
  - vm_compute. reflexivity.
  - apply (tokenization_total_coverage "YYYY-Mon  dd"). vm_compute.
    reflexivity.
Defined.

(** C4.  Maximal munch: "YYYY", "YYY", "YY" and "Y" each tokenize to the
    single element of that type (never to several Y elements), "RRRR" and
    "RR" likewise, and "A.M." to the single dotted meridian element. *)
Theorem maximal_munch_examples :
  tokenized_types (GetDateTimeFormatElements "YYYY") = Some [kYYYY]
  /\ tokenized_types (GetDateTimeFormatElements "YYY") = Some [kYYY]
  /\ tokenized_types (GetDateTimeFormatElements "YY") = Some [kYY]
  /\ tokenized_types (GetDateTimeFormatElements "Y") = Some [kY]
  /\ tokenized_types (GetDateTimeFormatElements "RRRR") = Some [kRRRR]
  /\ tokenized_types (GetDateTimeFormatElements "RR") = Some [kRR]
  /\ tokenized_types (GetDateTimeFormatElements "A.M.") = Some [kAMWithDots].
Proof. repeat split; vm_compute; reflexivity. Qed.

(** ** Case insensitivity *)

Lemma count_spaces_upper (s : string) :
  count_spaces (AsciiStrToUpper s) = count_spaces s.
Proof.
  induction s as [|c s IH]; simpl; [reflexivity|].
  rewrite eqb_space_toupper, IH. reflexivity.
Qed.

Lemma strip_leading_ws_upper (s : string) :
  strip_leading_ws (AsciiStrToUpper s) = AsciiStrToUpper (strip_leading_ws s).
Proof.
  induction s as [|c s IH]; simpl; [reflexivity|].
  rewrite isspace_toupper. destruct (ascii_isspace c); [exact IH|reflexivity].
Qed.

Lemma strip_trailing_ws_upper (s : string) :
  strip_trailing_ws (AsciiStrToUpper s)
  = AsciiStrToUpper (strip_trailing_ws s).
Proof.
  induction s as [|c s IH]; simpl; [reflexivity|].
  rewrite IH. destruct (strip_trailing_ws s) as [|d r]; simpl.
  - rewrite isspace_toupper. now destruct (ascii_isspace c).
  - reflexivity.
Qed.

Lemma parse_digits_upper (s : string) (acc : Z) :
  parse_digits (AsciiStrToUpper s) acc = parse_digits s acc.
Proof.
  revert acc; induction s as [|c s IH]; intros acc; simpl; [reflexivity|].
  rewrite digit_value_toupper. destruct (digit_value c); [apply IH|].
  reflexivity.
Qed.

Lemma SimpleAtoi_upper (s : string) :
  SimpleAtoi (AsciiStrToUpper s) = SimpleAtoi s.
Proof.
  unfold SimpleAtoi.
  rewrite strip_leading_ws_upper, strip_trailing_ws_upper.
  destruct (strip_trailing_ws (strip_leading_ws s)) as [|c r]; simpl;
    [reflexivity|].
  rewrite eqb_minus_toupper, eqb_plus_toupper.
  destruct (Ascii.eqb c "-"%char || Ascii.eqb c "+"%char).
  - destruct r as [|d r']; simpl; [reflexivity|].
    rewrite digit_value_toupper. destruct (digit_value d); [|reflexivity].
    now rewrite parse_digits_upper.
  - simpl. rewrite digit_value_toupper.
    destruct (digit_value c); [|reflexivity].
    now rewrite parse_digits_upper.
Qed.

(** The closing-quote scan takes the same steps on the upper-cased text. *)
Lemma scan_quoted_literal_upper (rest : string) :
  forall is_escaped matched_len literal literal',
    match scan_quoted_literal rest is_escaped matched_len literal,
          scan_quoted_literal (AsciiStrToUpper rest) is_escaped matched_len
            literal' with
    | Value r, Value r' => fst r = fst r'
    | Failure _, Failure _ => True
    | _, _ => False
    end.
Proof.
  induction rest as [|c rest IH]; intros esc ml lit lit'; simpl; [exact I|].
  rewrite eqb_backslash_toupper, eqb_dquote_toupper.
  destruct esc.
  - destruct (Ascii.eqb c backslash || Ascii.eqb c dquote);
      [apply IH | exact I].
  - destruct (Ascii.eqb c backslash); [apply IH|].
    destruct (Ascii.eqb c dquote); [reflexivity | apply IH].
Qed.

Lemma char_at_upper (i : nat) (s : string) :
  i < length s ->
  char_at i (AsciiStrToUpper s) = ascii_toupper (char_at i s).
Proof.
  unfold char_at. revert i; induction s as [|c s IH]; intros i H;
    simpl in H; [lia|].
  destruct i as [|i]; simpl; [reflexivity|]. apply IH. lia.
Qed.

Lemma upper_eq_empty (s : string) :
  String.eqb (AsciiStrToUpper s) EmptyString = String.eqb s EmptyString.
Proof. now destruct s. Qed.

(** The casing of a non-literal element is always determined: for a text
    whose upper-cased form is a key of the trie, none of the internal
    checks of the casing function fails. *)
Lemma casing_determined (k s : string) (t : FormatElementType) :
  trie_key_wf (k, t) = true ->
  GetFormatElementCategoryFromType t <> kLiteral ->
  AsciiStrToUpper s = k ->
  exists casing,
    GetFormatCasingTypeOfNonLiteralElements s
      (GetFormatElementCategoryFromType t) = Value casing.
Proof.
  intros Hwf Hc Hk. unfold trie_key_wf in Hwf. cbn [fst snd] in Hwf.
  apply andb_true_iff in Hwf as [Hwf _].
  apply andb_true_iff in Hwf as [Hl Hwf]. apply Nat.leb_le in Hl.
  destruct (category_eqb (GetFormatElementCategoryFromType t) kLiteral)
    eqn:Cl; [apply category_eqb_eq in Cl; contradiction|].
  apply andb_true_iff in Hwf as [Hwf Hsnd].
  apply andb_true_iff in Hwf as [Hup _].
  assert (Hls : length s = length k)
    by (rewrite <- Hk; symmetry; apply length_upper).
  assert (H0 : ascii_isalpha (char_at 0 s) = true).
  { rewrite <- Hk, char_at_upper, isupper_toupper in Hup by lia. exact Hup. }
  unfold GetFormatCasingTypeOfNonLiteralElements.
  rewrite Cl, H0.
  assert (Hne : String.eqb s EmptyString = false)
    by (destruct s; [simpl in Hls; lia | reflexivity]).
  rewrite Hne. cbn [negb andb].
  destruct (ascii_islower (char_at 0 s)); [eauto|].
  rewrite Hk, Hls.
  destruct (category_eqb (GetFormatElementCategoryFromType t)
              kMeridianIndicator
            || category_eqb (GetFormatElementCategoryFromType t)
                 kEraIndicator
            || (length k =? 1)%nat || String.eqb k "Y,YYY") eqn:D;
    [eauto|].
  simpl in Hsnd.
  assert (H2 : 2 <= length k).
  { apply orb_false_iff in D as [D _]. apply orb_false_iff in D as [_ D].
    apply Nat.eqb_neq in D. lia. }
  assert (H1 : ascii_isalpha (char_at 1 s) = true).
  { rewrite <- isalpha_toupper, <- char_at_upper, Hk by lia. exact Hsnd. }
  rewrite H1. cbn [negb].
  destruct (ascii_isupper (char_at 0 s) && ascii_islower (char_at 1 s));
    eauto.
Qed.

(** Reading one element of a format string and of its upper-cased form
    give elements of the same type and length, or fail together. *)
Lemma GetNextDateTimeFormatElement_upper (f : string) :
  same_shape
    (GetNextDateTimeFormatElement f (AsciiStrToUpper f))
    (GetNextDateTimeFormatElement (AsciiStrToUpper f) (AsciiStrToUpper f)).
Proof.
  unfold GetNextDateTimeFormatElement, same_shape.
  destruct (GetDataForMaximalPrefix GetFormatElementTypeTrie
              (AsciiStrToUpper f)) as [t n] eqn:E.
  destruct (type_eqb t kFormatElementTypeNullValue) eqn:Tn; [exact I|].
  assert (Hn : t <> kFormatElementTypeNullValue).
  { intros ->. rewrite type_eqb_refl in Tn. discriminate Tn. }
  destruct (trie_lookup _ _ _ E Hn) as (k & Hwf & Hp & ->).
  clear E Tn.
  cbn [category type set_category set_type default_element
       set_format_casing_type set_len_in_format_str].
  destruct (category_eqb (GetFormatElementCategoryFromType t) kLiteral)
    eqn:Cl; cbn [negb].
  - destruct (type_eqb t kSimpleLiteral); [simpl; auto|].
    destruct (type_eqb t kWhitespace).
    + simpl. rewrite substr_from_upper.
      now rewrite count_spaces_upper.
    + destruct (type_eqb t kDoubleQuotedLiteral); cbn [negb]; [|exact I].
      rewrite substr_from_upper.
      pose proof (scan_quoted_literal_upper (substr_from 1 f) false
                    (length k) EmptyString EmptyString) as S.
      destruct (scan_quoted_literal (substr_from 1 f) false (length k)
                  EmptyString) as [r|];
        destruct (scan_quoted_literal (AsciiStrToUpper (substr_from 1 f))
                    false (length k) EmptyString) as [r'|];
        simpl; auto.
  - assert (Hc : GetFormatElementCategoryFromType t <> kLiteral).
    { intros C. rewrite C in Cl. discriminate. }
    pose proof (prefix_substring _ _ Hp) as Hsub.
    destruct (casing_determined k (substr 0 (length k) f) t Hwf Hc)
      as [c1 ->].
    { unfold substr. rewrite <- substring_upper. exact Hsub. }
    destruct (casing_determined k (substr 0 (length k) (AsciiStrToUpper f))
                t Hwf Hc) as [c2 ->].
    { unfold substr. rewrite Hsub.
      unfold trie_key_wf in Hwf. cbn [fst snd] in Hwf.
      apply andb_true_iff in Hwf as [Hwf _].
      apply andb_true_iff in Hwf as [_ Hwf]. rewrite Cl in Hwf.
      apply andb_true_iff in Hwf as [Hwf _].
      apply andb_true_iff in Hwf as [_ Hwf].
      now apply String.eqb_eq. }
    simpl. destruct (type_eqb t kFFN); [|simpl; auto].
    unfold substr. rewrite substring_upper, SimpleAtoi_upper.
    destruct (SimpleAtoi _); simpl; auto.
Qed.

Lemma types_of_app (es es' : list DateTimeFormatElement) :
  types_of (es ++ es') = (types_of es ++ types_of es')%list.
Proof. apply map_app. Qed.

Lemma loop_upper (fuel : nat) (f : string) :
  forall processed_len acc acc',
    types_of acc = types_of acc' ->
    option_map tokenized_types
      (GetDateTimeFormatElements_loop fuel (AsciiStrToUpper f)
         (AsciiStrToUpper f) processed_len acc')
    = option_map tokenized_types
        (GetDateTimeFormatElements_loop fuel f (AsciiStrToUpper f)
           processed_len acc).
Proof.
  induction fuel as [|fuel IH]; intros p acc acc' Hacc; simpl;
    rewrite length_upper.
  - destruct (p <? length f)%nat; [reflexivity|]. simpl. now rewrite Hacc.
  - destruct (p <? length f)%nat; [|simpl; now rewrite Hacc].
    pose proof (GetNextDateTimeFormatElement_upper (substr_from p f)) as S.
    rewrite !substr_from_upper.
    unfold same_shape in S.
    destruct (GetNextDateTimeFormatElement (substr_from p f)
                (AsciiStrToUpper (substr_from p f))) as [e|];
      destruct (GetNextDateTimeFormatElement
                  (AsciiStrToUpper (substr_from p f))
                  (AsciiStrToUpper (substr_from p f))) as [e'|];
      try contradiction; [|reflexivity].
    destruct S as [St Sl]. rewrite <- Sl. apply IH.
    rewrite !types_of_app, Hacc. simpl. now rewrite St.
Qed.

Lemma tokenized_types_upper (format_str : string) :
  tokenized_types (GetDateTimeFormatElements (AsciiStrToUpper format_str))
  = tokenized_types (GetDateTimeFormatElements format_str).
Proof.
  pose proof (GetDateTimeFormatElements_loop_eq format_str) as L.
  pose proof (GetDateTimeFormatElements_loop_eq (AsciiStrToUpper format_str))
    as L'.
  rewrite upper_idempotent, length_upper in L'.
  pose proof (loop_upper (length format_str) format_str 0 [] []
                eq_refl) as H.
  rewrite L, L' in H. simpl in H. now inversion H.
Qed.

(** The letters of the rules are those of [absl::ascii_islower] and
    [absl::ascii_isupper]. *)
Lemma lowercase_letter_islower (c : ascii) :
  lowercase_letter c = ascii_islower c.
Proof. reflexivity. Qed.

Lemma uppercase_letter_isupper (c : ascii) :
  uppercase_letter c = ascii_isupper c.
Proof. reflexivity. Qed.

Lemma trie_keys_canonical :
  forallb trie_key_canonical GetFormatElementTypeTrie = true.
Proof. vm_compute. reflexivity. Qed.

Lemma trie_lookup_canonical (u : string) (t : FormatElementType) (n : nat) :
  GetDataForMaximalPrefix GetFormatElementTypeTrie u = (t, n) ->
  t <> kFormatElementTypeNullValue ->
  exists k,
    String.eqb k "Y,YYY" = type_eqb t kYCommaYYY
    /\ prefix k u = true /\ n = length k.
Proof.
  intros E Hn.
  pose proof (GetDataForMaximalPrefix_found GetFormatElementTypeTrie u) as H.
  rewrite E in H. cbn [fst snd] in H. cbv zeta in H.
  destruct H as [[H _] | (_ & k & Hin & Hp & Hl)]; [contradiction|].
  exists k. split; [|auto].
  pose proof trie_keys_canonical as W. rewrite forallb_forall in W.
  specialize (W _ Hin). unfold trie_key_canonical in W. cbn [fst snd] in W.
  now apply Bool.eqb_prop.
Qed.

(** What [GetFormatCasingTypeOfNonLiteralElements] returns is what the
    rules give, for a text whose upper-cased form is "Y,YYY" exactly when
    the type is that of Y,YYY. *)
Lemma casing_rules_followed (text : string) (c : FormatElementCategory)
  (t : FormatElementType) (casing : FormatCasingType) :
  GetFormatCasingTypeOfNonLiteralElements text c = Value casing ->
  String.eqb (AsciiStrToUpper text) "Y,YYY" = type_eqb t kYCommaYYY ->
  casing = casing_policy text c t.
Proof.
  unfold GetFormatCasingTypeOfNonLiteralElements, casing_policy, byte_is.
  intros H Hy. rewrite Hy in H. clear Hy.
  destruct (category_eqb c kLiteral); [discriminate H|].
  destruct text as [|c0 r]; [discriminate H|].
  cbn [String.eqb negb andb char_at get] in H |- *.
  rewrite lowercase_letter_islower, uppercase_letter_isupper.
  unfold ascii_isalpha in H.
  destruct (ascii_isupper c0) eqn:U0; destruct (ascii_islower c0) eqn:L0;
    cbn [negb orb andb] in H |- *; try discriminate H;
    try (injection H as <-; reflexivity).
  destruct (category_eqb c kMeridianIndicator
            || category_eqb c kEraIndicator
            || (length (String c0 r) =? 1)%nat
            || type_eqb t kYCommaYYY);
    [injection H as <-; reflexivity|].
  destruct r as [|c1 r]; cbn [get] in H |- *.
  - change (char_at 1 (String c0 EmptyString)) with zero in H.
    change (ascii_isupper zero || ascii_islower zero) with false in H.
    discriminate H.
  - change (char_at 1 (String c0 (String c1 r))) with c1 in H.
    rewrite lowercase_letter_islower.
    destruct (ascii_isupper c1 || ascii_islower c1); cbn [negb] in H;
      [|discriminate H].
    destruct (ascii_islower c1); injection H as <-; reflexivity.
Qed.

(** The casing recorded in an element read from the format string is the
    one the rules give for the first [len_in_format_str] bytes of the
    original text. *)
Lemma GetNextDateTimeFormatElement_casing (f : string)
  (e : DateTimeFormatElement) :
  GetNextDateTimeFormatElement f (AsciiStrToUpper f) = Value e ->
  casing_of_span f 0 e.
Proof.
  unfold GetNextDateTimeFormatElement, casing_of_span.
  destruct (GetDataForMaximalPrefix GetFormatElementTypeTrie
              (AsciiStrToUpper f)) as [t n] eqn:E.
  destruct (type_eqb t kFormatElementTypeNullValue) eqn:Tn; [discriminate|].
  assert (Hn : t <> kFormatElementTypeNullValue).
  { intros ->. rewrite type_eqb_refl in Tn. discriminate Tn. }
  destruct (trie_lookup_canonical _ _ _ E Hn) as (k & Hk & Hp & ->).
  clear E Tn.
  apply prefix_substring in Hp. rewrite substring_upper in Hp.
  cbn [category type set_category set_type default_element
       set_format_casing_type set_len_in_format_str].
  destruct (category_eqb (GetFormatElementCategoryFromType t) kLiteral)
    eqn:Cl; cbn [negb].
  - destruct (type_eqb t kSimpleLiteral).
    { intros H; inversion H; subst; simpl. now rewrite Cl. }
    destruct (type_eqb t kWhitespace).
    { intros H; inversion H; subst; simpl. now rewrite Cl. }
    destruct (type_eqb t kDoubleQuotedLiteral); cbn [negb];
      [|intros H; discriminate H].
    destruct (scan_quoted_literal _ _ _ _) as [r|]; cbn [bind];
      [|intros H; discriminate H].
    intros H; inversion H; subst; simpl. now rewrite Cl.
  - destruct (GetFormatCasingTypeOfNonLiteralElements
                (substr 0 (length k) f) _) as [casing|] eqn:G;
      cbn [bind]; [|intros H; discriminate H].
    assert (R : casing
                = casing_policy (substr 0 (length k) f)
                    (GetFormatElementCategoryFromType t) t).
    { apply casing_rules_followed; [exact G|].
      unfold substr. now rewrite Hp. }
    clear G.
    cbn [category type set_category set_type default_element
         set_format_casing_type set_len_in_format_str].
    destruct (type_eqb t kFFN).
    + destruct (SimpleAtoi _); [|intros H; discriminate H].
      intros H; inversion H; subst; simpl. now rewrite Cl.
    + intros H; inversion H; subst; simpl. now rewrite Cl.
Qed.

Lemma casing_from_original_app (f : string) (es es' : list DateTimeFormatElement) :
  forall offset,
    casing_from_original f offset es ->
    casing_from_original f (offset + total_length es) es' ->
    casing_from_original f offset (es ++ es').
Proof.
  induction es as [|e es IH]; intros off H H'; simpl in *.
  - now rewrite Nat.add_0_r in H'.
  - destruct H as [He H]. split; [exact He|].
    apply IH; [exact H|]. now rewrite <- Nat.add_assoc.
Qed.

Lemma casing_of_span_shift (f : string) (p : nat)
  (e : DateTimeFormatElement) :
  casing_of_span (substr_from p f) 0 e -> casing_of_span f p e.
Proof.
  unfold casing_of_span, substr. now rewrite substring_substr_from.
Qed.

Lemma loop_casing (fuel : nat) (f : string) :
  forall processed_len acc es,
    total_length acc = processed_len ->
    casing_from_original f 0 acc ->
    GetDateTimeFormatElements_loop fuel f (AsciiStrToUpper f) processed_len
      acc
      = Some (Value es) ->
    casing_from_original f 0 es.
Proof.
  induction fuel as [|fuel IH]; intros p acc es Hp Hacc H; simpl in H.
  - destruct (p <? length f)%nat; [discriminate|]. now inversion H; subst.
  - destruct (p <? length f)%nat; [|now inversion H; subst].
    destruct (GetNextDateTimeFormatElement (substr_from p f)
                (substr_from p (AsciiStrToUpper f))) as [e|err] eqn:G;
      [|discriminate].
    eapply IH; [| |exact H].
    + rewrite total_length_app, Hp. simpl. lia.
    + apply casing_from_original_app; [exact Hacc|].
      simpl. split; [|exact I].
      rewrite Hp. apply casing_of_span_shift.
      apply GetNextDateTimeFormatElement_casing.
      rewrite <- substr_from_upper. exact G.
Qed.

(** C5.  Case insensitivity with case preservation: tokenizing a format
    string and tokenizing its ASCII-upper-cased form produce the same
    sequence of element types (and fail together), while the casing of
    every element of the tokenization is the one that the casing rules
    give for the bytes of the original, not upper-cased, format string at
    the element's span: kPreserveCase for a literal; for any other
    element all lowercase if the first letter is lowercase, all uppercase
    if it is uppercase and the category is Meridian or Era, or the element
    has one character or is Y,YYY, only the first letter uppercase if the
    first letter is uppercase and the second lowercase, and all uppercase
    otherwise. *)
Theorem tokenization_case_insensitive (format_str : string) :
  tokenized_types (GetDateTimeFormatElements (AsciiStrToUpper format_str))
  = tokenized_types (GetDateTimeFormatElements format_str)
  /\ match GetDateTimeFormatElements format_str with
     | Value es => casing_from_original format_str 0 es
     | Failure _ => True
     end.
Proof.
  split; [apply tokenized_types_upper|].
  pose proof (GetDateTimeFormatElements_loop_eq format_str) as L.
  destruct (GetDateTimeFormatElements format_str) as [es|]; [|exact I].
  eapply loop_casing; [| |exact L]; [reflexivity | exact I].
Qed.

(** The casing does depend on the original bytes: "Month", "MONTH" and
    "month" are the same element with three different casings. *)
Example casing_follows_original :
  option_map (map format_casing_type)
    (match GetDateTimeFormatElements "Month-MONTH-month" with
     | Value es => Some es
     | Failure _ => None
     end)
  = Some [kOnlyFirstLetterUppercase; kPreserveCase; kAllLettersUppercase;
          kPreserveCase; kAllLettersLowercase].
Proof. vm_compute. reflexivity. Qed.

(** ** Reading integers *)

Lemma read_digits_bounds (s : string) :
  forall max_width value,
    (0 <= value)%Z ->
    fst (read_digits s max_width value) <= max_width
    /\ (0 <= snd (read_digits s max_width value))%Z.
Proof.
  induction s as [|c s IH]; intros w v Hv; destruct w as [|w]; simpl;
    try (split; [lia | assumption]).
  unfold digit_value. destruct (ascii_isdigit c); simpl; [|split; [lia|lia]].
  destruct (IH w (v * 10 + Z.of_nat (nat_of_ascii c - 48))%Z) as [H1 H2];
    [lia|]. split; [lia | exact H2].
Qed.

(** A successful [ParseInt] has read between [min_width] and [max_width]
    bytes and a value between [min] and [max]. *)
Lemma ParseInt_bounds (s : string) (min_width max_width : nat)
  (min max : Z) (n : nat) (v : Z) :
  ParseInt s min_width max_width min max = Some (n, v) ->
  min_width <= n <= max_width /\ 1 <= n /\ (min <= v <= max)%Z.
Proof.
  unfold ParseInt, ParseInt_utils.
  destruct (fst (read_digits s max_width 0) =? 0)%nat eqn:Z0; [discriminate|].
  destruct ((min <=? snd (read_digits s max_width 0))%Z
            && (snd (read_digits s max_width 0) <=? max)%Z) eqn:R;
    [|discriminate].
  destruct (read_digits s max_width 0) as [pw value]. simpl in *.
  destruct ((pw <? min_width)%nat || (max_width <? pw)%nat) eqn:W;
    [discriminate|].
  intros H; inversion H; subst.
  apply Nat.eqb_neq in Z0. apply andb_true_iff in R as [R1 R2].
  apply orb_false_iff in W as [W1 W2].
  apply Nat.ltb_ge in W1. apply Nat.ltb_ge in W2.
  apply Z.leb_le in R1. apply Z.leb_le in R2. lia.
Qed.

Lemma power_of_ten_spec (n : nat) :
  n < 10 -> power_of_ten n = (10 ^ Z.of_nat n)%Z.
Proof.
  intros H. do 10 (destruct n as [|n]; [reflexivity|]). lia.
Qed.

(** C6.  The RR element applies the pivot of fifty years against the
    current year.  With current year 2002, "12" gives 2012 and "51" gives
    1951; with current year 2299, "12" gives 2312 and "51" gives 2251;
    the same holds through the whole cast for a current instant in those
    years.  In general the two digits read are kept, and the century of the
    current year is incremented when the digits are below 50 and the last
    two digits of the current year are at least 50, decremented when the
    digits are at least 50 and those of the current year are below 50. *)
Theorem rr_pivot :
  ParseWithFormatElementOfTypeRR "12" 2002 = Some (2, 2012%Z)
  /\ ParseWithFormatElementOfTypeRR "51" 2002 = Some (2, 1951%Z)
  /\ ParseWithFormatElementOfTypeRR "12" 2299 = Some (2, 2312%Z)
  /\ ParseWithFormatElementOfTypeRR "51" 2299 = Some (2, 2251%Z)
  /\ RefTime.CastStringToTimestamp "RR" "12" RefTime.UTC
       (RefTime.midnight 2002 6 15) = Value (RefTime.midnight 2012 6 1)
  /\ RefTime.CastStringToTimestamp "RR" "51" RefTime.UTC
       (RefTime.midnight 2002 6 15) = Value (RefTime.midnight 1951 6 1)
  /\ RefTime.CastStringToTimestamp "RR" "12" RefTime.UTC
       (RefTime.midnight 2299 6 15) = Value (RefTime.midnight 2312 6 1)
  /\ RefTime.CastStringToTimestamp "RR" "51" RefTime.UTC
       (RefTime.midnight 2299 6 15) = Value (RefTime.midnight 2251 6 1)
  /\ forall (s : string) (current_year : Z),
       ParseWithFormatElementOfTypeRR s current_year
       = match ParseInt s 1 2 0 99 with
         | Some (n, yy) =>
             let century := Z.quot current_year 100 in
             let last_two := Z.rem current_year 100 in
             Some (n,
                   ((if (yy <? 50) && (50 <=? last_two) then century + 1
                     else if (50 <=? yy) && (last_two <? 50)
                          then century - 1
                          else century) * 100 + yy)%Z)
         | None => None
         end.
Proof.
  repeat match goal with |- _ /\ _ => split end;
    [vm_compute; reflexivity .. | ].
  intros s current_year. unfold ParseWithFormatElementOfTypeRR.
  destruct (ParseInt s 1 2 0 99) as [[n yy]|]; reflexivity.
Qed.

(** C7.  A Y, YY or YYY element whose length in the format string is L
    reads an integer of 1 to L digits between 0 and 10^L - 1 and replaces
    the last L digits of the year so far: the new year is
    year - (year mod 10^L) + parsed, every other field of the state being
    kept; when nothing can be read the element fails.  With current year
    1970 the element YY turns "12" into the year 1912, also through the
    whole cast. *)
Theorem year_suffix_elements :
  (forall (format_element : DateTimeFormatElement) (input : string)
          (st : ParseState) (L : nat),
      In (type format_element) [kYYY; kYY; kY] ->
      len_in_format_str format_element = L ->
      L < 10 ->
      let p := (10 ^ Z.of_nat L)%Z in
      match ParseInt input 1 L 0 (p - 1) with
      | Some (n, parsed) =>
          1 <= n <= L /\ (0 <= parsed <= p - 1)%Z
          /\ parse_element format_element input st
             = Value (Some n,
                      set_year (year st - Z.rem (year st) p + parsed)%Z st)
          /\ ((0 <= year st)%Z ->
              ((year st - Z.rem (year st) p + parsed) / p = year st / p
               /\ (year st - Z.rem (year st) p + parsed) mod p = parsed)%Z)
      | None => parse_element format_element input st = Value (None, st)
      end)
  /\ len_in_format_str (element_of "Y") = 1
  /\ len_in_format_str (element_of "YY") = 2
  /\ len_in_format_str (element_of "YYY") = 3
  /\ parse_element (element_of "YY") "12" (state_in_year 1970)
     = Value (Some 2, state_in_year 1912)
  /\ RefTime.CastStringToTimestamp "YY" "12" RefTime.UTC
       (RefTime.midnight 1970 6 15) = Value (RefTime.midnight 1912 6 1).
Proof.
  split; [|repeat split; vm_compute; reflexivity].
  intros fe input st L Hty Hlen HL p.
  assert (Hp : power_of_ten L = p) by (now apply power_of_ten_spec).
  assert (Hpos : (0 < p)%Z) by (apply Z.pow_pos_nonneg; lia).
  assert (Hstep :
    parse_element fe input st
    = match ParseInt input 1 L 0 (p - 1) with
      | Some (n, parsed) =>
          Value (Some n,
                 set_year (year st - Z.rem (year st) p + parsed)%Z st)
      | None => Value (None, st)
      end).
  { unfold parse_element.
    assert (HltL : (L <? List.length powers_of_ten)%nat = true)
      by (apply Nat.ltb_lt; simpl; lia).
    destruct Hty as [<- | [<- | [<- | []]]]; rewrite Hlen, HltL, Hp;
      cbn [negb]; destruct (ParseInt input 1 L 0 (p - 1)) as [[n v]|];
      reflexivity. }
  destruct (ParseInt input 1 L 0 (p - 1)) as [[n parsed]|] eqn:E;
    [|exact Hstep].
  apply ParseInt_bounds in E. destruct E as (Hw & _ & Hv).
  split; [lia|]. split; [lia|]. split; [exact Hstep|].
  intros Hy. rewrite Z.rem_mod_nonneg by lia.
  replace (year st - year st mod p + parsed)%Z
    with (parsed + (year st / p) * p)%Z
    by (pose proof (Z.div_mod (year st) p); lia).
  split.
  - rewrite Z.div_add by lia. rewrite Z.div_small by lia. lia.
  - rewrite Z.mod_add by lia. apply Z.mod_small. lia.
Qed.

Lemma year_suffix_elements_witness :
  match ParseInt "12" 1 2 0 (10 ^ Z.of_nat 2 - 1) with
  | Some (n, parsed) =>
      1 <= n <= 2 /\ (0 <= parsed <= 10 ^ Z.of_nat 2 - 1)%Z
      /\ parse_element (element_of "YY") "12" (state_in_year 1970)
         = Value (Some n,
                  set_year (1970 - Z.rem 1970 (10 ^ Z.of_nat 2) + parsed)%Z
                    (state_in_year 1970))
      /\ ((0 <= 1970)%Z ->
          ((1970 - Z.rem 1970 (10 ^ Z.of_nat 2) + parsed) / 10 ^ Z.of_nat 2
           = 1970 / 10 ^ Z.of_nat 2
           /\ (1970 - Z.rem 1970 (10 ^ Z.of_nat 2) + parsed)
                mod 10 ^ Z.of_nat 2 = parsed)%Z)
  | None =>
      parse_element (element_of "YY") "12" (state_in_year 1970)
      = Value (None, state_in_year 1970)
  end.
Proof.
  apply (proj1 year_suffix_elements (element_of "YY") "12"
           (state_in_year 1970) 2).
  - vm_compute. auto.
  - vm_compute. reflexivity.
  - lia.
Defined.

(** ** The parsing loop *)

Lemma same_frame_refl (st : ParseState) : same_frame st st.
Proof. unfold same_frame; auto. Qed.

Lemma same_frame_trans (a b c : ParseState) :
  same_frame a b -> same_frame b c -> same_frame a c.
Proof. unfold same_frame; intuition congruence. Qed.

(** No branch of the [switch] writes a field other than the year and the
    error flag. *)
Lemma parse_element_frame (format_element : DateTimeFormatElement)
  (input : string) (st : ParseState) (r : option nat * ParseState) :
  parse_element format_element input st = Value r ->
  same_frame st (snd r)
  /\ processed_format_element_count (snd r)
     = processed_format_element_count st
  /\ timestamp_str_parsed_length (snd r) = timestamp_str_parsed_length st.
Proof.
  unfold parse_element, same_frame.
  destruct (type format_element);
    try (intros H; inversion H; subst; simpl; auto 10; fail).
  - intros H; inversion H; subst; simpl.
    destruct (TrimLeadingUnicodeWhiteSpaces input =? 0)%nat; simpl; auto 10.
  - destruct (ParseInt input 1 5 0 10000) as [[n v]|];
      intros H; inversion H; subst; simpl; auto 10.
  - destruct (negb _); [discriminate|].
    destruct (ParseInt _ _ _ _ _) as [[n v]|];
      intros H; inversion H; subst; simpl; auto 10.
  - destruct (negb _); [discriminate|].
    destruct (ParseInt _ _ _ _ _) as [[n v]|];
      intros H; inversion H; subst; simpl; auto 10.
  - destruct (negb _); [discriminate|].
    destruct (ParseInt _ _ _ _ _) as [[n v]|];
      intros H; inversion H; subst; simpl; auto 10.
  - destruct (ParseInt input 1 5 0 10000) as [[n v]|];
      intros H; inversion H; subst; simpl; auto 10.
  - destruct (ParseWithFormatElementOfTypeRR input (year st)) as [[n v]|];
      intros H; inversion H; subst; simpl; auto 10.
  - destruct (ParseWithFormatElementOfTypeYCommaYYY input) as [[n v]|];
      intros H; inversion H; subst; simpl; auto 10.
Qed.

(** An iteration keeps the frame, and either raises the error flag or
    moves on to the next element. *)
Lemma parse_iteration_frame (format_elements : list DateTimeFormatElement)
  (timestamp_string : string) (st st' : ParseState) :
  parse_iteration format_elements timestamp_string st = Value st' ->
  same_frame st st'
  /\ (error_in_parsing st' = true
      \/ processed_format_element_count st'
         = S (processed_format_element_count st)).
Proof.
  unfold parse_iteration.
  destruct (parse_element _ _ st) as [[pl st1]|] eqn:E; simpl;
    [|discriminate].
  apply parse_element_frame in E. simpl in E. destruct E as (F & C & _).
  destruct pl as [n|].
  - destruct (error_in_parsing st1) eqn:Er; simpl;
      intros H; inversion H; subst.
    + auto.
    + split; [|right; simpl; congruence].
      unfold same_frame in *. simpl. exact F.
  - intros H; inversion H; subst. split; [|left; reflexivity].
    unfold same_frame in *. simpl. exact F.
Qed.

Lemma parse_loop_frame (fuel : nat)
  (format_elements : list DateTimeFormatElement) (timestamp_string : string) :
  forall st st',
    parse_loop fuel format_elements timestamp_string st = Value st' ->
    same_frame st st'.
Proof.
  induction fuel as [|fuel IH]; intros st st' H; simpl in H.
  - destruct (parse_loop_condition _ _ st); inversion H; subst;
      apply same_frame_refl.
  - destruct (parse_loop_condition _ _ st);
      [|inversion H; subst; apply same_frame_refl].
    destruct (parse_iteration format_elements timestamp_string st)
      as [st1|] eqn:E; simpl in H; [|discriminate].
    apply parse_iteration_frame in E. destruct E as [F _].
    eapply same_frame_trans; [exact F | eapply IH; exact H].
Qed.

(** With as much fuel as there are elements left, the loop runs until its
    condition fails. *)
Lemma parse_loop_finished (fuel : nat)
  (format_elements : list DateTimeFormatElement) (timestamp_string : string) :
  forall st st',
    List.length format_elements - processed_format_element_count st <= fuel ->
    parse_loop fuel format_elements timestamp_string st = Value st' ->
    parse_loop_condition format_elements timestamp_string st' = false.
Proof.
  induction fuel as [|fuel IH]; intros st st' Hf H; simpl in H.
  - destruct (parse_loop_condition _ _ st) eqn:C;
      [|inversion H; subst; exact C].
    unfold parse_loop_condition in C.
    apply andb_true_iff in C as [_ C]. apply Nat.ltb_lt in C. lia.
  - destruct (parse_loop_condition _ _ st) eqn:C;
      [|inversion H; subst; exact C].
    destruct (parse_iteration format_elements timestamp_string st)
      as [st1|] eqn:E; simpl in H; [|discriminate].
    apply parse_iteration_frame in E. destruct E as [_ [Er | Cn]].
    + assert (C1 : parse_loop_condition format_elements timestamp_string st1
                   = false)
        by (unfold parse_loop_condition; rewrite Er; reflexivity).
      destruct fuel; simpl in H; rewrite C1 in H; inversion H; subst;
        exact C1.
    + eapply IH; [|exact H]. lia.
Qed.

(** ** Whitespace and empty literals at the end of parsing *)

Lemma U8_NEXT_bounds (s : string) (c : Z) (n : nat) :
  U8_NEXT s = Some (c, n) -> 1 <= n <= length s.
Proof.
  unfold U8_NEXT. destruct s as [|c0 r0]; [discriminate|].
  destruct (byte_of c0 <? 128)%Z.
  { intros H; inversion H; subst; simpl; lia. }
  destruct (between 194 223 (byte_of c0)).
  { destruct r0 as [|c1 r1]; [discriminate|].
    destruct (U8_IS_TRAIL _); [|discriminate].
    intros H; inversion H; subst; simpl; lia. }
  destruct (between 224 239 (byte_of c0)).
  { destruct r0 as [|c1 [|c2 r2]]; try discriminate.
    destruct (_ && _); [|discriminate].
    intros H; inversion H; subst; simpl; lia. }
  destruct (between 240 244 (byte_of c0)); [|discriminate].
  destruct r0 as [|c1 [|c2 [|c3 r3]]]; try discriminate.
  destruct (_ && _); [|discriminate].
  intros H; inversion H; subst; simpl; lia.
Qed.

Lemma trim_loop_spec (fuel : nat) :
  forall s offset,
    length s <= fuel ->
    offset <= trim_loop fuel s offset
    /\ whitespace_run s (trim_loop fuel s offset - offset)
    /\ no_leading_whitespace
         (substr_from (trim_loop fuel s offset - offset) s).
Proof.
  induction fuel as [|fuel IH]; intros s off Hf; simpl.
  - destruct s; simpl in Hf; [|lia].
    rewrite Nat.sub_diag. split; [lia | split; [constructor | exact I]].
  - destruct s as [|c0 r0] eqn:Es.
    { rewrite Nat.sub_diag. split; [lia | split; [constructor | exact I]]. }
    rewrite <- Es in *. clear Es c0 r0.
    destruct (U8_NEXT s) as [[c n]|] eqn:U.
    + destruct (u_isUWhiteSpace c) eqn:W.
      * pose proof (U8_NEXT_bounds _ _ _ U) as Hn.
        destruct (IH (substr_from n s) (off + n)) as (H1 & H2 & H3).
        { rewrite length_substr_from. lia. }
        set (r := trim_loop fuel (substr_from n s) (off + n)) in *.
        replace (r - off) with (n + (r - (off + n))) by lia.
        split; [lia | split].
        -- eapply whitespace_run_cons; eauto.
        -- rewrite substr_from_add. exact H3.
      * rewrite Nat.sub_diag. split; [lia | split; [constructor|]].
        unfold no_leading_whitespace. simpl. rewrite U. exact W.
    + rewrite Nat.sub_diag. split; [lia | split; [constructor|]].
      unfold no_leading_whitespace. simpl. now rewrite U.
Qed.

(** [TrimLeadingUnicodeWhiteSpaces] measures the longest run of Unicode
    whitespace at the head of the text. *)
Lemma TrimLeadingUnicodeWhiteSpaces_spec (s : string) :
  whitespace_run s (TrimLeadingUnicodeWhiteSpaces s)
  /\ no_leading_whitespace
       (substr_from (TrimLeadingUnicodeWhiteSpaces s) s).
Proof.
  unfold TrimLeadingUnicodeWhiteSpaces.
  destruct (trim_loop_spec (length s) s 0 (le_n _)) as (_ & H2 & H3).
  rewrite Nat.sub_0_r in *. auto.
Qed.

Lemma skip_empty_literals_spec (rest : list DateTimeFormatElement) :
  forall count,
    let r := skip_empty_literals rest count in
    count <= r <= count + List.length rest
    /\ (forall i, i < r - count ->
          is_empty_double_quoted_literal (nth i rest default_element) = true)
    /\ (r - count < List.length rest ->
        is_empty_double_quoted_literal (nth (r - count) rest default_element)
        = false).
Proof.
  induction rest as [|e rest IH]; intros count; simpl.
  - repeat split; try lia.
  - destruct (is_empty_double_quoted_literal e) eqn:E.
    + destruct (IH (S count)) as (H1 & H2 & H3).
      set (r := skip_empty_literals rest (S count)) in *.
      repeat split; try lia.
      * intros i Hi. destruct i as [|i]; [exact E|]. apply H2. lia.
      * intros Hr. replace (r - count) with (S (r - S count)) by lia.
        apply H3. lia.
    + rewrite Nat.sub_diag. repeat split; try lia. intros _. exact E.
Qed.

Lemma nth_skipn_add {A : Type} (l : list A) (n i : nat) (d : A) :
  nth i (skipn n l) d = nth (n + i) l d.
Proof.
  revert l; induction n as [|n IH]; intros l; simpl; [reflexivity|].
  destruct l as [|a l]; [now destruct i|]. apply IH.
Qed.

Section ParserProperties.

Variable Time : Type.
Variable TimeZone : Type.
Variable MakeCivilSecond : Z -> Z -> Z -> Z -> Z -> Z -> CivilSecond.
Variable At : TimeZone -> Time -> CivilInfo.
Variable At_pre : TimeZone -> CivilSecond -> Time.
Variable IsValidTime : Time -> bool.

Local Abbreviation run_elements := (parse_elements Time TimeZone At).
Local Abbreviation Parse :=
  (ParseTimeWithFormatElements Time TimeZone MakeCivilSecond At At_pre
     IsValidTime).
Local Abbreviation CastToTime :=
  (CastStringToTimestamp_time Time TimeZone MakeCivilSecond At At_pre
     IsValidTime).
(** The state in which the parsing loop is left: the loop condition
    fails, and the fields other than the year are the initial ones. *)
Lemma parse_elements_exit (format_elements : list DateTimeFormatElement)
  (timestamp_string : string) (tz : TimeZone) (now : Time)
  (st : ParseState) :
  run_elements format_elements timestamp_string tz now = Value st ->
  parse_loop_condition format_elements timestamp_string st = false
  /\ month st = cs_month (cs (At tz now)) /\ mday st = 1%Z
  /\ hour st = 0%Z /\ min st = 0%Z /\ sec st = 0%Z.
Proof.
  unfold parse_elements. intros H. split.
  - eapply parse_loop_finished; [|exact H]. simpl. lia.
  - apply parse_loop_frame in H. unfold same_frame in H. simpl in H.
    intuition congruence.
Qed.

(** A successful parse returns the [pre] instant of the first day, at
    midnight, of the month of the current timestamp, in the year of the
    final state. *)
Lemma Parse_result (format_elements : list DateTimeFormatElement)
  (timestamp_string : string) (tz : TimeZone) (now : Time)
  (scale : TimestampScale) (t : Time) :
  Parse format_elements timestamp_string tz now scale = Value t ->
  exists st,
    run_elements format_elements timestamp_string tz now = Value st
    /\ t = At_pre tz
             (MakeCivilSecond (year st) (cs_month (cs (At tz now))) 1 0 0 0).
Proof.
  unfold ParseTimeWithFormatElements.
  destruct (run_elements format_elements timestamp_string tz now)
    as [st|] eqn:E; simpl; [|discriminate].
  destruct (parse_elements_exit _ _ _ _ _ E)
    as (_ & Hm & Hd & Hh & Hmi & Hs).
  unfold finish_parse. rewrite Hm, Hd, Hh, Hmi, Hs.
  destruct (error_in_parsing st); [discriminate|].
  destruct (_ <? length timestamp_string)%nat; [discriminate|].
  destruct (_ <? List.length format_elements)%nat; [discriminate|].
  destruct (_ || _); [discriminate|].
  destruct (negb _); [discriminate|].
  intros H; inversion H; subst. exists st. auto.
Qed.


Variable ConvertTimeToTimestamp : Time -> option Z.

Local Abbreviation CastToMicros :=
  (CastStringToTimestamp_micros Time TimeZone MakeCivilSecond At At_pre
     IsValidTime ConvertTimeToTimestamp).

(** C10.  Only the year can be affected by the format elements: every
    successful parse, and so every successful cast of a string to a
    timestamp, returns exactly [default_timezone.At(CivilSecond(y, m, 1,
    0, 0, 0)).pre], where m is the month of the current timestamp in the
    default zone and y the year the elements left. *)
Theorem parse_affects_year_only :
  (forall format_elements timestamp_string tz now scale t,
      Parse format_elements timestamp_string tz now scale = Value t ->
      exists y,
        t = At_pre tz
              (MakeCivilSecond y (cs_month (cs (At tz now))) 1 0 0 0))
  /\ (forall format_string timestamp_string tz now t,
        CastToTime format_string timestamp_string tz now = Value t ->
        exists y,
          t = At_pre tz
                (MakeCivilSecond y (cs_month (cs (At tz now))) 1 0 0 0))
  /\ (forall format_string timestamp_string tz now micros,
        CastToMicros format_string timestamp_string tz now = Value micros ->
        exists y,
          ConvertTimeToTimestamp
            (At_pre tz
               (MakeCivilSecond y (cs_month (cs (At tz now))) 1 0 0 0))
          = Some micros).
Proof.
  split; [|split].
  - intros es ts tz now scale t H.
    apply Parse_result in H. destruct H as (st & _ & ->). eauto.
  - intros f ts tz now t. unfold CastStringToTimestamp_time.
    destruct (_ || _); [discriminate|].
    destruct (GetDateTimeFormatElements f) as [es|]; simpl;
      [|discriminate].
    destruct (ValidateDateTimeFormatElements es [] "TIMESTAMP"); simpl;
      [|discriminate].
    intros H. apply Parse_result in H. destruct H as (st & _ & ->). eauto.
  - intros f ts tz now micros. unfold CastStringToTimestamp_micros.
    destruct (_ || _); [discriminate|].
    destruct (GetDateTimeFormatElements f) as [es|]; simpl;
      [|discriminate].
    destruct (ValidateDateTimeFormatElements es [] "TIMESTAMP"); simpl;
      [|discriminate].
    unfold ParseTimeWithFormatElements_micros.
    destruct (Parse es ts tz now kMicroseconds) as [t|] eqn:P; simpl;
      [|discriminate].
    apply Parse_result in P. destruct P as (st & _ & ->).
    destruct (ConvertTimeToTimestamp _) as [m|] eqn:C; [|discriminate].
    intros H; inversion H; subst. eauto.
Qed.

(** C1.  The overload of [CastStringToTimestamp] that produces an
    [absl::Time] never checks [timestamp_string]: on the format "YYYY"
    and an input whose last byte is 0xFF, not well-formed UTF-8, the
    overload producing microseconds reports the UTF-8 error, while this
    one tokenizes, validates and parses, and reports the trailing byte as
    a parse error. *)
Theorem timestamp_string_utf8_check_missing (tz : TimeZone) (now : Time) :
  let timestamp_string := "2020" ++ str1 "255"%char in
  IsWellFormedUTF8 "YYYY" = true
  /\ IsWellFormedUTF8 timestamp_string = false
  /\ CastToMicros "YYYY" timestamp_string tz now
     = Failure (MakeEvalError "Input string is not valid UTF-8")
  /\ CastToTime "YYYY" timestamp_string tz now
     = Failure (MakeEvalError
         ("Illegal non-space trailing data '" ++ str1 "255"%char
          ++ "' in timestamp string")).
Proof. repeat split; vm_compute; reflexivity. Qed.

End ParserProperties.

(** ** The validator *)

Lemma type_eqb_sym (a b : FormatElementType) : type_eqb a b = type_eqb b a.
Proof.
  destruct (type_eqb a b) eqn:E; destruct (type_eqb b a) eqn:E';
    try reflexivity.
  - apply type_eqb_eq in E. subst. now rewrite type_eqb_refl in E'.
  - apply type_eqb_eq in E'. subst. now rewrite type_eqb_refl in E.
Qed.

Lemma category_eqb_sym (a b : FormatElementCategory) :
  category_eqb a b = category_eqb b a.
Proof.
  destruct (category_eqb a b) eqn:E; destruct (category_eqb b a) eqn:E';
    try reflexivity.
  - apply category_eqb_eq in E. subst. now rewrite category_eqb_refl in E'.
  - apply category_eqb_eq in E'. subst. now rewrite category_eqb_refl in E.
Qed.

Lemma for_each_check_ok {A : Type} (check : A -> Status) (xs : list A) :
  for_each_check check xs = OkStatus ->
  forall x, In x xs -> check x = OkStatus.
Proof.
  induction xs as [|a xs IH]; simpl; [tauto|].
  destruct (check a) as [[]|] eqn:C; simpl; [|discriminate].
  intros H x [<- | Hin]; [exact C | now apply IH].
Qed.

(** What the first loop of the validator leaves in the two maps. *)
Lemma collect_elements_maps (es : list DateTimeFormatElement) :
  forall cm tm cm' tm',
    (forall c, List.length (category_at cm c) <= 2) ->
    collect_elements es cm tm = Value (cm', tm') ->
    (forall t, type_contains tm' t = type_contains tm t || has_type t es)
    /\ (forall c,
          category_contains cm' c
          = category_contains cm c || has_category c es)
    /\ (forall c,
          List.length (category_at cm' c)
          = Nat.min 2 (List.length (category_at cm c) + count_category c es)).
Proof.
  induction es as [|e es IH]; intros cm tm cm' tm' Hcm H; simpl in H.
  - inversion H; subst. repeat split; intros.
    + simpl. now rewrite orb_false_r.
    + simpl. now rewrite orb_false_r.
    + unfold count_category. cbn [filter List.length].
      specialize (Hcm c). lia.
  - destruct (negb (IsSupportedForParsing e)); [discriminate|].
    set (cm1 := category_set cm (category e)
                  (if (List.length (category_at cm (category e)) <? 2)%nat
                   then (category_at cm (category e) ++ [e])%list
                   else category_at cm (category e))) in *.
    assert (Hcm1 : forall c, List.length (category_at cm1 c) <= 2).
    { intros c. unfold cm1, category_at, category_set.
      destruct (category_eqb c (category e)); [|apply Hcm].
      fold (category_at cm (category e)).
      destruct (List.length (category_at cm (category e)) <? 2)%nat eqn:L.
      - apply Nat.ltb_lt in L. rewrite length_app. cbn [List.length]. lia.
      - apply Hcm. }
    assert (Hc1 : forall c,
               category_contains cm1 c
               = category_contains cm c || category_eqb (category e) c).
    { intros c. unfold cm1, category_contains, category_set.
      rewrite (category_eqb_sym (category e) c).
      destruct (category_eqb c (category e)); [now rewrite orb_true_r|].
      now rewrite orb_false_r. }
    assert (Hl1 : forall c,
               List.length (category_at cm1 c)
               = Nat.min 2 (List.length (category_at cm c)
                            + if category_eqb (category e) c then 1 else 0)).
    { intros c. unfold cm1, category_at, category_set.
      rewrite (category_eqb_sym (category e) c).
      destruct (category_eqb c (category e)) eqn:Ec.
      - apply category_eqb_eq in Ec. subst c.
        fold (category_at cm (category e)).
        specialize (Hcm (category e)).
        destruct (List.length (category_at cm (category e)) <? 2)%nat eqn:L.
        + apply Nat.ltb_lt in L. rewrite length_app. cbn [List.length]. lia.
        + apply Nat.ltb_ge in L. lia.
      - fold (category_at cm c). specialize (Hcm c). lia. }
    assert (Hcount : forall c,
               count_category c (e :: es)
               = (if category_eqb (category e) c then 1 else 0)
                 + count_category c es).
    { intros c. unfold count_category. simpl.
      destruct (category_eqb (category e) c); reflexivity. }
    destruct (type_contains tm (type e)) eqn:Tc.
    + destruct (negb (category_eqb (category e) kLiteral)); [discriminate|].
      destruct (IH _ _ _ _ Hcm1 H) as (I1 & I2 & I3).
      repeat split; intros.
      * rewrite I1. simpl.
        destruct (type_eqb (type e) t) eqn:Et; [|reflexivity].
        apply type_eqb_eq in Et. subst t. rewrite Tc. reflexivity.
      * rewrite I2, Hc1. simpl. now rewrite orb_assoc.
      * rewrite I3, Hl1, Hcount. lia.
    + destruct (IH _ _ _ _ Hcm1 H) as (I1 & I2 & I3).
      repeat split; intros.
      * rewrite I1. simpl. unfold type_contains at 1, type_set.
        rewrite (type_eqb_sym (type e) t).
        destruct (type_eqb t (type e)); [now rewrite orb_true_r|].
        reflexivity.
      * rewrite I2, Hc1. simpl. now rewrite orb_assoc.
      * rewrite I3, Hl1, Hcount. lia.
Qed.

(** The first loop accepts only lists in which a repeated type is a
    literal. *)
Lemma collect_elements_no_duplicate_type (es : list DateTimeFormatElement) :
  forall cm tm r,
    collect_elements es cm tm = Value r ->
    (forall j ej, nth_error es j = Some ej ->
       type_contains tm (type ej) = true -> category ej = kLiteral)
    /\ rule_no_duplicate_type es.
Proof.
  induction es as [|e es IH]; intros cm tm r H; simpl in H.
  - split; [intros [|j] ej Hj; discriminate|].
    intros i [|j] ei ej _ _ Hj; discriminate.
  - destruct (negb (IsSupportedForParsing e)); [discriminate|].
    destruct (type_contains tm (type e)) eqn:Tc.
    + destruct (category_eqb (category e) kLiteral) eqn:Cl; simpl in H;
        [|discriminate].
      apply category_eqb_eq in Cl.
      destruct (IH _ _ _ H) as [I1 I2]. split.
      * intros [|j] ej Hj Hc; simpl in Hj.
        -- inversion Hj; subst. exact Cl.
        -- eapply I1; eauto.
      * intros [|i] [|j] ei ej Hij Hi Hj Ht; simpl in Hi, Hj; try lia.
        -- inversion Hi; subst ei. eapply I1; [exact Hj|].
           rewrite <- Ht. exact Tc.
        -- eapply I2; [|exact Hi|exact Hj|exact Ht]. lia.
    + destruct (IH _ _ _ H) as [I1 I2]. split.
      * intros [|j] ej Hj Hc; simpl in Hj.
        -- inversion Hj; subst. rewrite Hc in Tc. discriminate.
        -- eapply I1; [exact Hj|].
           unfold type_contains, type_set.
           destruct (type_eqb (type ej) (type e)); [reflexivity|exact Hc].
      * intros [|i] [|j] ei ej Hij Hi Hj Ht; simpl in Hi, Hj; try lia.
        -- inversion Hi; subst ei. eapply I1; [exact Hj|].
           unfold type_contains, type_set. rewrite <- Ht.
           now rewrite type_eqb_refl.
        -- eapply I2; [|exact Hi|exact Hj|exact Ht]. lia.
Qed.

Lemma count_category_has (c : FormatElementCategory)
  (es : list DateTimeFormatElement) :
  1 <= count_category c es -> has_category c es = true.
Proof.
  unfold count_category, has_category.
  induction es as [|e es IH]; simpl; [lia|].
  destruct (category_eqb (category e) c); simpl; [reflexivity | exact IH].
Qed.

(** What an accepted element list went through. *)
Lemma ValidateDateTimeFormatElements_ok (es : list DateTimeFormatElement)
  (invalid_categories : list FormatElementCategory) (name : string) :
  ValidateDateTimeFormatElements es invalid_categories name = OkStatus ->
  exists cm tm,
    collect_elements es empty_category_map empty_type_map = Value (cm, tm)
    /\ for_each_check
         (fun c => CheckForDuplicateElementsInCategory c cm)
         categories_to_check_duplicate = OkStatus
    /\ CheckForMutuallyExclusiveElements_type_category kDDD kMonth tm cm
       = OkStatus
    /\ CheckForMutuallyExclusiveElements_type_category kHH24
         kMeridianIndicator tm cm = OkStatus
    /\ CheckForCoexistance [kHH; kHH12] kMeridianIndicator tm cm = OkStatus
    /\ CheckForMutuallyExclusiveElements_type_category kSSSSS kHour tm cm
       = OkStatus
    /\ CheckForMutuallyExclusiveElements_type_category kSSSSS kMinute tm cm
       = OkStatus
    /\ CheckForMutuallyExclusiveElements_type_type kSSSSS kSS tm = OkStatus.
Proof.
  unfold ValidateDateTimeFormatElements.
  destruct (collect_elements es empty_category_map empty_type_map)
    as [[cm tm]|]; [|discriminate].
  cbn [bind fst snd]. intros H. exists cm, tm.
  repeat match type of H with
  | bind ?c _ = _ =>
      let E := fresh "E" in
      destruct c as [[]|] eqn:E; cbn [bind] in H; [|discriminate H]
  end.
  repeat split; assumption.
Qed.

(** A structural failure is reported whatever the invalid categories
    are: the per-type check comes last. *)
Lemma ValidateDateTimeFormatElements_order (es : list DateTimeFormatElement)
  (invalid_categories : list FormatElementCategory) (name : string)
  (e : ErrorStatus) :
  ValidateDateTimeFormatElements es [] name = Failure e ->
  ValidateDateTimeFormatElements es invalid_categories name = Failure e.
Proof.
  unfold ValidateDateTimeFormatElements.
  destruct (collect_elements es empty_category_map empty_type_map)
    as [[cm tm]|]; [|exact (fun H => H)].
  cbn [bind fst snd].
  repeat match goal with
  | |- bind ?c _ = _ -> _ =>
      destruct c as [[]|]; cbn [bind]; [|exact (fun H => H)]
  end.
  cbn [for_each_check bind]. intros H. discriminate H.
Qed.

Lemma mutually_exclusive_type_category_ok (t : FormatElementType)
  (c : FormatElementCategory) (tm : TypeToElementMap)
  (cm : CategoryToElementsMap) :
  CheckForMutuallyExclusiveElements_type_category t c tm cm = OkStatus ->
  type_contains tm t = true -> category_contains cm c = false.
Proof.
  unfold CheckForMutuallyExclusiveElements_type_category.
  intros H Ht. rewrite Ht in H.
  destruct (category_contains cm c); [discriminate H | reflexivity].
Qed.

(** The structural rules hold of every list the parse-mode validator
    accepts. *)
Lemma ValidateDateTimeFormatElements_rules
  (es : list DateTimeFormatElement)
  (invalid_categories : list FormatElementCategory) (name : string) :
  ValidateDateTimeFormatElements es invalid_categories name = OkStatus ->
  rule_no_duplicate_type es /\ rule_no_duplicate_category es
  /\ rule_mutual_exclusion es /\ rule_coexistence es.
Proof.
  intros H. apply ValidateDateTimeFormatElements_ok in H.
  destruct H as (cm & tm & Hc & Hdup & Hddd & Hhh24 & Hco & Hsh & Hsm & Hss).
  destruct (collect_elements_no_duplicate_type _ _ _ _ Hc) as [_ R2].
  destruct (collect_elements_maps es empty_category_map empty_type_map cm tm)
    as (I1 & I2 & I3); [intros c; simpl; lia | exact Hc |].
  assert (T : forall t, type_contains tm t = has_type t es)
    by (intros t; rewrite I1; reflexivity).
  assert (C : forall c, category_contains cm c = has_category c es)
    by (intros c; rewrite I2; reflexivity).
  assert (L : forall c,
             List.length (category_at cm c)
             = Nat.min 2 (count_category c es))
    by (intros c; rewrite I3; reflexivity).
  split; [exact R2|]. split; [|split].
  - intros c Hin.
    pose proof (for_each_check_ok _ _ Hdup c Hin) as D.
    unfold CheckForDuplicateElementsInCategory in D.
    destruct (Nat.le_gt_cases (count_category c es) 1) as [|G];
      [assumption|exfalso].
    rewrite C, L, count_category_has in D by lia.
    replace (Nat.min 2 (count_category c es)) with 2 in D by lia.
    discriminate D.
  - unfold rule_mutual_exclusion. rewrite <- !T, <- !C.
    split; [apply mutually_exclusive_type_category_ok; exact Hddd|].
    split; [apply mutually_exclusive_type_category_ok; exact Hhh24|].
    intros Hs. split; [|split].
    + eapply mutually_exclusive_type_category_ok; eassumption.
    + eapply mutually_exclusive_type_category_ok; eassumption.
    + unfold CheckForMutuallyExclusiveElements_type_type in Hss.
      rewrite Hs in Hss.
      destruct (type_contains tm kSS); [discriminate Hss | reflexivity].
  - unfold rule_coexistence. rewrite <- !T, <- C.
    unfold CheckForCoexistance in Hco. cbn [first_present_type] in Hco.
    destruct (type_contains tm kHH); cbn [orb].
    + destruct (category_contains cm kMeridianIndicator);
        [reflexivity | discriminate Hco].
    + destruct (type_contains tm kHH12).
      * destruct (category_contains cm kMeridianIndicator);
          [reflexivity | discriminate Hco].
      * destruct (category_contains cm kMeridianIndicator);
          [discriminate Hco | reflexivity].
Qed.

(** The format-mode validators check the categories of the elements and
    nothing else. *)
Lemma ValidateDate_categories (es : list DateTimeFormatElement) :
  ok (ValidateDateDateTimeFormatElementsForFormatting es)
  = all_categories_allowed TYPE_DATE es.
Proof.
  unfold all_categories_allowed.
  induction es as [|e es IH]; simpl; [reflexivity|].
  destruct (category e); simpl; auto.
Qed.

Lemma ValidateTime_categories (es : list DateTimeFormatElement) :
  ok (ValidateTimeDateTimeFormatElementsForFormatting es)
  = all_categories_allowed TYPE_TIME es.
Proof.
  unfold all_categories_allowed.
  induction es as [|e es IH]; simpl; [reflexivity|].
  destruct (category e); simpl; auto.
Qed.

Lemma ValidateDatetime_categories (es : list DateTimeFormatElement) :
  ok (ValidateDatetimeDateTimeFormatElementsForFormatting es)
  = all_categories_allowed TYPE_DATETIME es.
Proof.
  unfold all_categories_allowed.
  induction es as [|e es IH]; simpl; [reflexivity|].
  destruct (category e); simpl; auto.
Qed.

Lemma ValidateFormatStringForFormatting_categories (format_string : string)
  (out_type : TypeKind) :
  ok (ValidateFormatStringForFormatting format_string out_type)
  = IsWellFormedUTF8 format_string
    && match GetDateTimeFormatElements format_string with
       | Value es => all_categories_allowed out_type es
       | Failure _ => false
       end.
Proof.
  unfold ValidateFormatStringForFormatting.
  destruct (IsWellFormedUTF8 format_string); cbn [negb andb];
    [|reflexivity].
  destruct (GetDateTimeFormatElements format_string) as [es|]; cbn [bind];
    [|reflexivity].
  destruct out_type.
  - apply ValidateDate_categories.
  - apply ValidateDatetime_categories.
  - apply ValidateTime_categories.
  - unfold all_categories_allowed. simpl.
    induction es as [|e es IH]; simpl; auto.
  - reflexivity.
Qed.

(** C2, as the code has it.  The structural rules 2 to 5 are enforced in
    parse mode only.  [ValidateDateTimeFormatElements] accepts an element
    list only if no non-literal type is repeated, none of the six
    categories is repeated, the mutual exclusions hold, and HH or HH12 is
    present exactly when a meridian element is; and a list it rejects on
    those grounds is rejected with the same error whatever the invalid
    categories are, the per-type check being the last one.  In format
    mode [ValidateFormatStringForFormatting] and the three validators the
    CastFormat functions call accept exactly the well-formed format
    strings that tokenize into elements whose categories are all allowed
    for the target type. *)
Theorem structural_rules_in_parse_mode_only :
  (forall es invalid_categories name,
      ValidateDateTimeFormatElements es invalid_categories name = OkStatus ->
      rule_no_duplicate_type es /\ rule_no_duplicate_category es
      /\ rule_mutual_exclusion es /\ rule_coexistence es)
  /\ (forall es invalid_categories name e,
        ValidateDateTimeFormatElements es [] name = Failure e ->
        ValidateDateTimeFormatElements es invalid_categories name
        = Failure e)
  /\ (forall es,
        ok (ValidateDateDateTimeFormatElementsForFormatting es)
        = all_categories_allowed TYPE_DATE es
        /\ ok (ValidateTimeDateTimeFormatElementsForFormatting es)
           = all_categories_allowed TYPE_TIME es
        /\ ok (ValidateDatetimeDateTimeFormatElementsForFormatting es)
           = all_categories_allowed TYPE_DATETIME es)
  /\ (forall format_string out_type,
        ok (ValidateFormatStringForFormatting format_string out_type)
        = IsWellFormedUTF8 format_string
          && match GetDateTimeFormatElements format_string with
             | Value es => all_categories_allowed out_type es
             | Failure _ => false
             end).
Proof.
  split; [exact ValidateDateTimeFormatElements_rules|].
  split; [exact ValidateDateTimeFormatElements_order|].
  split; [|exact ValidateFormatStringForFormatting_categories].
  intros es. split; [apply ValidateDate_categories|].
  split; [apply ValidateTime_categories | apply ValidateDatetime_categories].
Qed.

Lemma structural_rules_in_parse_mode_only_witness :
  ValidateDateTimeFormatElements (elements_of "YYYY-MM-DD HH12:MI:SS AM")
    [] "TIMESTAMP" = OkStatus
  /\ rule_coexistence (elements_of "YYYY-MM-DD HH12:MI:SS AM").
Proof.
  split; [vm_compute; reflexivity|].
  apply (proj1 structural_rules_in_parse_mode_only
           (elements_of "YYYY-MM-DD HH12:MI:SS AM") [] "TIMESTAMP").
  vm_compute. reflexivity.
Defined.

(** The claim as stated fails: in format mode the format "HH", an hour
    element of type HH with no meridian element, is accepted for TIME, by
    the entry point and by the validator the CastFormat function calls,
    although parse mode rejects it. *)
Lemma format_mode_accepts_HH_without_meridian :
  exists es,
    GetDateTimeFormatElements "HH" = Value es
    /\ has_type kHH es = true
    /\ has_category kMeridianIndicator es = false
    /\ ValidateFormatStringForFormatting "HH" TYPE_TIME = OkStatus
    /\ ValidateTimeDateTimeFormatElementsForFormatting es = OkStatus
    /\ ValidateFormatStringForParsing "HH" TYPE_TIMESTAMP
       = Failure (MakeEvalError
           "Format element in category MERIDIAN_INDICATOR is required when format element 'HH' exists").
Proof.
  eexists. split; [vm_compute; reflexivity|].
  repeat split; vm_compute; reflexivity.
Qed.

(** ** The formatter *)

Section FormatterProperties.

Variable GetWeekday : CivilSecond -> Weekday.
Variable GetSignHourAndMinuteTimeZoneOffset : CivilInfo -> bool * Z * Z.

Local Abbreviation Render :=
  (FromDateTimeFormatElementToFormatString GetWeekday
     GetSignHourAndMinuteTimeZoneOffset).

(** C9.  For an AM, PM, A.M. or P.M. element the text produced before
    casing is "PM" ("P.M." for the dotted types) exactly when the
    wall-clock hour is strictly greater than 12, and "AM" ("A.M.")
    otherwise; in particular it is "AM" at hour 12. *)
Theorem meridian_rendering (format_element : DateTimeFormatElement)
  (info : CivilInfo) :
  In (type format_element) [kAM; kPM; kAMWithDots; kPMWithDots] ->
  let dotted :=
    type_eqb (type format_element) kAMWithDots
    || type_eqb (type format_element) kPMWithDots in
  let h := cs_hour (cs info) in
  ((12 < h)%Z ->
   Render format_element info = Value (if dotted then "P.M." else "PM"))
  /\ ((h <= 12)%Z ->
      Render format_element info = Value (if dotted then "A.M." else "AM"))
  /\ (h = 12%Z ->
      Render format_element info = Value (if dotted then "A.M." else "AM")).
Proof.
  intros Hty dotted h.
  assert (Hr :
    Render format_element info
    = if (12 <? h)%Z
      then Value (if dotted then "P.M." else "PM")
      else Value (if dotted then "A.M." else "AM")).
  { unfold FromDateTimeFormatElementToFormatString, dotted, h.
    destruct Hty as [<- | [<- | [<- | [<- | []]]]]; simpl;
      destruct (12 <? cs_hour (cs info))%Z; reflexivity. }
  rewrite Hr. repeat split; intros H.
  - apply Z.ltb_lt in H. now rewrite H.
  - apply Z.ltb_ge in H. now rewrite H.
  - subst h. rewrite H. reflexivity.
Qed.

End FormatterProperties.

(** ** The statements at concrete inputs *)

Lemma parse_affects_year_only_witness :
  RefTime.ParseTimeWithFormatElements (elements_of "YYYY") "2020"
    RefTime.UTC (RefTime.midnight 2002 6 15)
  = Value (RefTime.midnight 2020 6 1)
  /\ exists y,
       RefTime.midnight 2020 6 1
       = RefTime.At_pre RefTime.UTC
           (RefTime.MakeCivilSecond y
              (cs_month
                 (cs (RefTime.At RefTime.UTC (RefTime.midnight 2002 6 15))))
              1 0 0 0).
Proof.
  split; [vm_compute; reflexivity|].
  apply (proj1 (parse_affects_year_only RefTime.Time RefTime.TimeZone
                  RefTime.MakeCivilSecond RefTime.At RefTime.At_pre
                  RefTime.IsValidTime RefTime.ConvertTimeToTimestamp)
           (elements_of "YYYY") "2020" RefTime.UTC
           (RefTime.midnight 2002 6 15) kNanoseconds).
  vm_compute. reflexivity.
Defined.


(** The two diagnostics at the end of parsing, on concrete inputs. *)
Example trailing_data_and_remaining_element :
  RefTime.CastStringToTimestamp "YYYY" "2020  x" RefTime.UTC
    (RefTime.midnight 2002 6 15)
  = Failure (MakeEvalError
      "Illegal non-space trailing data 'x' in timestamp string")
  /\ RefTime.CastStringToTimestamp "YYYY-MM" "2020-" RefTime.UTC
       (RefTime.midnight 2002 6 15)
     = Failure (MakeEvalError
         "Entire timestamp string has been parsed before dealing with format element 'MM'")
  /\ RefTime.CastStringToTimestamp
       ("YYYY" ++ str1 dquote ++ str1 dquote) "2020 " RefTime.UTC
       (RefTime.midnight 2002 6 15)
     = Value (RefTime.midnight 2020 6 1).
Proof. repeat split; vm_compute; reflexivity. Qed.

Lemma meridian_rendering_witness :
  let noon := RefTime.seconds_of_fields 2021 7 4 12 0 0 in
  cs_hour (cs (RefTime.At RefTime.UTC noon)) = 12%Z
  /\ FromDateTimeFormatElementToFormatString RefTime.GetWeekday
       RefTime.GetSignHourAndMinuteTimeZoneOffset (element_of "PM")
       (RefTime.At RefTime.UTC noon)
     = Value "AM".
Proof.
  intros noon. split; [vm_compute; reflexivity|].
  assert (H : In (type (element_of "PM"))
                [kAM; kPM; kAMWithDots; kPMWithDots])
    by (vm_compute; auto).
  apply (proj2 (proj2 (meridian_rendering RefTime.GetWeekday
                         RefTime.GetSignHourAndMinuteTimeZoneOffset
                         (element_of "PM") (RefTime.At RefTime.UTC noon) H))).
  vm_compute. reflexivity.
Defined.


(** * Further properties of the code *)

(** ** The tokenizer as a relation *)

Lemma loop_read_at_offsets (fuel : nat) (f : string) :
  forall processed_len acc es,
    processed_len <= length f ->
    GetDateTimeFormatElements_loop fuel f (AsciiStrToUpper f) processed_len
      acc = Some (Value es) ->
    exists es', es = (acc ++ es')%list /\ read_at_offsets f processed_len es'.
Proof.
  induction fuel as [|fuel IH]; intros p acc es Hp H; simpl in H.
  - destruct (p <? length f)%nat eqn:C; [discriminate|].
    apply Nat.ltb_ge in C. inversion H; subst.
    exists []. rewrite app_nil_r. split; [reflexivity | simpl; lia].
  - destruct (p <? length f)%nat eqn:C.
    + apply Nat.ltb_lt in C. rewrite substr_from_upper in H.
      destruct (GetNextDateTimeFormatElement (substr_from p f)
                  (AsciiStrToUpper (substr_from p f))) as [e|err] eqn:G;
        [|discriminate].
      pose proof G as B. apply GetNextDateTimeFormatElement_bounds in B;
        [|apply length_upper].
      rewrite length_substr_from in B.
      apply IH in H; [|lia]. destruct H as (es' & -> & R).
      exists (e :: es'). rewrite <- app_assoc. simpl. auto.
    + apply Nat.ltb_ge in C. inversion H; subst.
      exists []. rewrite app_nil_r. split; [reflexivity | simpl; lia].
Qed.

Lemma read_at_offsets_loop (f : string) (es : list DateTimeFormatElement) :
  forall fuel processed_len acc,
    length f - processed_len <= fuel ->
    read_at_offsets f processed_len es ->
    GetDateTimeFormatElements_loop fuel f (AsciiStrToUpper f) processed_len
      acc = Some (Value (acc ++ es)%list).
Proof.
  induction es as [|e es IH]; intros fuel p acc Hf R; simpl in R.
  - subst p. destruct fuel; simpl; rewrite Nat.ltb_irrefl, app_nil_r;
      reflexivity.
  - destruct R as (Hp & G & R).
    destruct fuel as [|fuel]; [lia|]. simpl.
    apply Nat.ltb_lt in Hp. rewrite Hp. apply Nat.ltb_lt in Hp.
    rewrite substr_from_upper, G.
    pose proof G as B. apply GetNextDateTimeFormatElement_bounds in B;
      [|apply length_upper].
    rewrite IH; [|lia|exact R].
    now rewrite <- app_assoc.
Qed.

Lemma tokenization_iff_read_at_offsets (format_str : string)
  (es : list DateTimeFormatElement) :
  GetDateTimeFormatElements format_str = Value es
  <-> read_at_offsets format_str 0 es.
Proof.
  pose proof (GetDateTimeFormatElements_loop_eq format_str) as L.
  split; intros H.
  - rewrite H in L. apply loop_read_at_offsets in L; [|lia].
    destruct L as (es' & -> & R). exact R.
  - rewrite (read_at_offsets_loop format_str es (length format_str) 0 [])
      in L; [|lia|exact H].
    simpl in L. now inversion L.
Qed.

(** X1.  The tokenizer returns exactly the elements that
    [GetNextDateTimeFormatElement] reads one after the other, each at the
    offset where the previous one ended, the last one ending at the end of
    the format string. *)
Theorem tokenization_reads_consecutive_elements (format_str : string)
  (es : list DateTimeFormatElement) :
  GetDateTimeFormatElements format_str = Value es
  <-> read_at_offsets format_str 0 es.
Proof.
  pose proof (GetDateTimeFormatElements_loop_eq format_str) as L.
  split; intros H.
  - rewrite H in L. apply loop_read_at_offsets in L; [|lia].
    destruct L as (es' & -> & R). exact R.
  - rewrite (read_at_offsets_loop format_str es (length format_str) 0 [])
      in L; [|lia|exact H].
    simpl in L. now inversion L.
Qed.

(** What holds of every element read holds of every element of a
    tokenization. *)
Lemma read_at_offsets_Forall (P : DateTimeFormatElement -> Prop)
  (f : string) (es : list DateTimeFormatElement) :
  (forall g e,
      GetNextDateTimeFormatElement g (AsciiStrToUpper g) = Value e -> P e) ->
  forall offset, read_at_offsets f offset es -> Forall P es.
Proof.
  intros HP. induction es as [|e es IH]; intros off R; simpl in R;
    constructor.
  - destruct R as (_ & G & _). eapply HP; exact G.
  - destruct R as (_ & _ & R). eapply IH; exact R.
Qed.

Lemma tokenized_Forall (P : DateTimeFormatElement -> Prop)
  (format_str : string) (es : list DateTimeFormatElement) :
  (forall g e,
      GetNextDateTimeFormatElement g (AsciiStrToUpper g) = Value e -> P e) ->
  GetDateTimeFormatElements format_str = Value es -> Forall P es.
Proof.
  intros HP H. apply tokenization_iff_read_at_offsets in H.
  eapply read_at_offsets_Forall; eauto.
Qed.

(** ** The elements the tokenizer produces *)

Lemma trie_keys_named : forallb trie_key_named GetFormatElementTypeTrie = true.
Proof. vm_compute. reflexivity. Qed.

Lemma trie_lookup_named (u : string) (t : FormatElementType) (n : nat) :
  GetDataForMaximalPrefix GetFormatElementTypeTrie u = (t, n) ->
  t <> kFormatElementTypeNullValue ->
  exists k,
    trie_key_wf (k, t) = true /\ trie_key_named (k, t) = true
    /\ prefix k u = true /\ n = length k.
Proof.
  intros E Hn.
  pose proof (GetDataForMaximalPrefix_found GetFormatElementTypeTrie u) as H.
  rewrite E in H. cbn [fst snd] in H. cbv zeta in H.
  destruct H as [[H _] | (_ & k & Hin & Hp & Hl)]; [contradiction|].
  exists k. split; [now apply trie_key_wf_in|].
  split; [|auto].
  pose proof trie_keys_named as W. rewrite forallb_forall in W.
  now apply W.
Qed.

(** The cases of a successful [GetNextDateTimeFormatElement]. *)
Lemma GetNextDateTimeFormatElement_cases (g : string)
  (e : DateTimeFormatElement) :
  GetNextDateTimeFormatElement g (AsciiStrToUpper g) = Value e ->
  exists k t,
    trie_key_wf (k, t) = true /\ trie_key_named (k, t) = true
    /\ prefix k (AsciiStrToUpper g) = true
    /\ t <> kFormatElementTypeNullValue
    /\ ((GetFormatElementCategoryFromType t <> kLiteral
         /\ exists casing n,
              GetFormatCasingTypeOfNonLiteralElements
                (substr 0 (length k) g) (GetFormatElementCategoryFromType t)
              = Value casing
              /\ (if type_eqb t kFFN
                  then SimpleAtoi (substr 2 (length k - 2) g) = Some n
                  else n = 0%Z)
              /\ e = mkElement t (GetFormatElementCategoryFromType t)
                       (length k) casing EmptyString n)
        \/ (t = kSimpleLiteral
            /\ e = mkElement t kLiteral (length k) kPreserveCase
                     (substr 0 (length k) g) 0)
        \/ (t = kWhitespace
            /\ e = mkElement t kLiteral
                     (length k + count_spaces (substr_from (length k) g))
                     kPreserveCase EmptyString 0)
        \/ (t = kDoubleQuotedLiteral
            /\ exists m l,
                 scan_quoted_literal (substr_from 1 g) false (length k)
                   EmptyString = Value (m, l)
                 /\ e = mkElement t kLiteral m kPreserveCase l 0)).
Proof.
  unfold GetNextDateTimeFormatElement.
  destruct (GetDataForMaximalPrefix GetFormatElementTypeTrie
              (AsciiStrToUpper g)) as [t n] eqn:E.
  destruct (type_eqb t kFormatElementTypeNullValue) eqn:Tn; [discriminate|].
  assert (Hn : t <> kFormatElementTypeNullValue).
  { intros ->. rewrite type_eqb_refl in Tn. discriminate Tn. }
  destruct (trie_lookup_named _ _ _ E Hn) as (k & Hwf & Hnm & Hp & ->).
  clear E Tn.
  cbn [category type set_category set_type default_element
       set_format_casing_type set_len_in_format_str].
  intros H. exists k, t. do 4 (split; [assumption|]).
  destruct (category_eqb (GetFormatElementCategoryFromType t) kLiteral)
    eqn:Cl; cbn [negb] in H.
  - right.
    destruct (type_eqb t kSimpleLiteral) eqn:T1.
    { apply type_eqb_eq in T1. subst t. left. split; [reflexivity|].
      inversion H; subst. reflexivity. }
    destruct (type_eqb t kWhitespace) eqn:T2.
    { apply type_eqb_eq in T2. subst t. right; left. split; [reflexivity|].
      inversion H; subst. reflexivity. }
    destruct (type_eqb t kDoubleQuotedLiteral) eqn:T3; cbn [negb] in H;
      [|discriminate H].
    apply type_eqb_eq in T3. subst t. right; right. split; [reflexivity|].
    destruct (scan_quoted_literal (substr_from 1 g) false (length k)
                EmptyString) as [[m l]|]; cbn [bind] in H; [|discriminate H].
    exists m, l. split; [reflexivity|]. inversion H; subst. reflexivity.
  - left. split.
    { intros C. rewrite C in Cl. discriminate Cl. }
    destruct (GetFormatCasingTypeOfNonLiteralElements (substr 0 (length k) g)
                (GetFormatElementCategoryFromType t)) as [casing|];
      cbn [bind] in H; [|discriminate H].
    cbn [category type set_category set_type default_element
         set_format_casing_type set_len_in_format_str] in H.
    destruct (type_eqb t kFFN).
    + destruct (SimpleAtoi (substr 2 (length k - 2) g)) as [n|];
        [|discriminate H].
      exists casing, n. split; [reflexivity|]. split; [reflexivity|].
      inversion H; subst. reflexivity.
    + exists casing, 0%Z. split; [reflexivity|]. split; [reflexivity|].
      inversion H; subst. reflexivity.
Qed.

Lemma casing_values (s : string) (c : FormatElementCategory)
  (k : FormatCasingType) :
  GetFormatCasingTypeOfNonLiteralElements s c = Value k ->
  In k [kAllLettersUppercase; kAllLettersLowercase;
        kOnlyFirstLetterUppercase].
Proof.
  unfold GetFormatCasingTypeOfNonLiteralElements.
  repeat match goal with
  | |- (if ?b then _ else _) = _ -> _ => destruct b
  end; intros H; inversion H; subst; simpl; auto.
Qed.

Lemma GetNextDateTimeFormatElement_wf (g : string)
  (e : DateTimeFormatElement) :
  GetNextDateTimeFormatElement g (AsciiStrToUpper g) = Value e ->
  element_wf e.
Proof.
  intros H. pose proof H as B.
  apply GetNextDateTimeFormatElement_bounds in B; [|apply length_upper].
  apply GetNextDateTimeFormatElement_cases in H.
  destruct H as (k & t & _ & _ & _ & Hn & H).
  unfold element_wf.
  destruct H as [(Hc & casing & n & G & _ & ->)
                | [(-> & ->) | [(-> & ->) | (-> & m & l & _ & ->)]]];
    cbn [category type len_in_format_str format_casing_type] in *;
    try (repeat split; try reflexivity; try discriminate; lia).
  split; [reflexivity|]. split; [exact Hn|]. split; [lia|].
  destruct (category_eqb (GetFormatElementCategoryFromType t) kLiteral)
    eqn:Cl; [apply category_eqb_eq in Cl; contradiction|].
  eapply casing_values; exact G.
Qed.

Lemma total_length_ge (es : list DateTimeFormatElement) :
  Forall (fun e => 1 <= len_in_format_str e) es ->
  List.length es <= total_length es.
Proof.
  unfold total_length. induction 1 as [|e es He _ IH]; simpl; lia.
Qed.

(** X2.  Every element of a successful tokenization is well formed: its
    category is the category of its type, its type is not the unspecified
    one, it covers at least one byte, a literal has the casing
    kPreserveCase and any other element one of the three letter casings
    (never the unspecified one); so there are at most as many elements as
    the format string has bytes. *)
Theorem tokenized_elements_well_formed (format_str : string)
  (es : list DateTimeFormatElement) :
  GetDateTimeFormatElements format_str = Value es ->
  Forall element_wf es /\ List.length es <= length format_str.
Proof.
  intros H.
  assert (W : Forall element_wf es).
  { eapply tokenized_Forall; [|exact H].
    apply GetNextDateTimeFormatElement_wf. }
  split; [exact W|].
  pose proof (GetDateTimeFormatElements_loop_eq format_str) as L.
  rewrite H in L.
  apply loop_total_length in L; [|apply length_upper|lia|reflexivity].
  rewrite <- L. apply total_length_ge.
  eapply Forall_impl; [|exact W]. unfold element_wf. tauto.
Qed.

Lemma tokenized_elements_well_formed_witness :
  GetDateTimeFormatElements "Mon dd, YYYY" = Value (elements_of "Mon dd, YYYY")
  /\ Forall element_wf (elements_of "Mon dd, YYYY")
  /\ List.length (elements_of "Mon dd, YYYY") <= 12.
Proof.
  split; [vm_compute; reflexivity|].
  apply (tokenized_elements_well_formed "Mon dd, YYYY").
  vm_compute. reflexivity.
Defined.

Lemma substring_zero (s : string) : substring 0 0 s = EmptyString.
Proof. now destruct s. Qed.

Lemma toupper_not_alpha (c : ascii) :
  ascii_isalpha (ascii_toupper c) = false -> ascii_toupper c = c.
Proof. each_ascii c. Qed.

Lemma toupper_digit (c : ascii) :
  in_range 49 57 (ascii_toupper c) = true -> ascii_toupper c = c.
Proof. each_ascii c. Qed.

Lemma single_digit (d : ascii) :
  in_range 49 57 d = true ->
  SimpleAtoi (str1 d) = Some (Z.of_nat (nat_of_ascii d - 48))
  /\ string_of_Z (Z.of_nat (nat_of_ascii d - 48)) = str1 d
  /\ (1 <= Z.of_nat (nat_of_ascii d - 48) <= 9)%Z.
Proof.
  destruct d as [[] [] [] [] [] [] [] []]; intros H; try discriminate H;
    vm_compute; repeat split; congruence.
Qed.

Lemma upper_no_letters (s k : string) :
  AsciiStrToUpper s = k -> no_letters k = true -> s = k.
Proof.
  revert k; induction s as [|c s IH]; intros k Hk Hn; simpl in Hk;
    subst k; [reflexivity|].
  simpl in Hn. apply andb_true_iff in Hn as [Hc Hn].
  apply negb_true_iff in Hc. rewrite (toupper_not_alpha _ Hc).
  f_equal. apply IH; [reflexivity | exact Hn].
Qed.

Lemma upper_spaces (n : nat) : AsciiStrToUpper (spaces n) = spaces n.
Proof.
  induction n as [|n IH]; [reflexivity|].
  cbn [spaces AsciiStrToUpper]. rewrite IH. reflexivity.
Qed.

Lemma count_spaces_substring (s : string) :
  substring 0 (count_spaces s) s = spaces (count_spaces s).
Proof.
  induction s as [|c s IH]; simpl; [reflexivity|].
  destruct (Ascii.eqb c space) eqn:E; [|reflexivity].
  apply Ascii.eqb_eq in E. subst c. simpl. now rewrite IH.
Qed.

Lemma ToString_named (t : FormatElementType) (n : nat)
  (casing : FormatCasingType) (v : string) (d : Z) :
  GetFormatElementCategoryFromType t <> kLiteral ->
  t <> kFFN ->
  ToString (mkElement t (GetFormatElementCategoryFromType t) n casing v d)
  = "'" ++ FormatElementTypeString t ++ "'".
Proof.
  intros Hc Hf. destruct t; try reflexivity; simpl in Hc; congruence.
Qed.

(** The debug name, the digit count of FFn and the length of a
    non-literal element, for one element read. *)
Lemma GetNextDateTimeFormatElement_named (g : string)
  (e : DateTimeFormatElement) :
  GetNextDateTimeFormatElement g (AsciiStrToUpper g) = Value e ->
  debug_name_is_upper_text (substr 0 (len_in_format_str e) g) e
  /\ (type e = kFFN -> (1 <= subsecond_digit_count e <= 9)%Z)
  /\ (category e <> kLiteral ->
      len_in_format_str e = length (FormatElementTypeString (type e))).
Proof.
  intros H. apply GetNextDateTimeFormatElement_cases in H.
  destruct H as (k & t & Hwf & Hnm & Hp & Hn & H).
  pose proof (prefix_substring _ _ Hp) as Hsub.
  rewrite substring_upper in Hsub.
  unfold trie_key_named in Hnm. cbn [fst snd] in Hnm.
  unfold debug_name_is_upper_text, substr.
  destruct H as [(Hc & casing & n & G & Hd & ->)
                | [(-> & ->) | [(-> & ->) | (-> & m & l & _ & ->)]]];
    cbn [category type len_in_format_str subsecond_digit_count].
  - destruct (category_eqb (GetFormatElementCategoryFromType t) kLiteral)
      eqn:Cl; [apply category_eqb_eq in Cl; contradiction|].
    destruct (type_eqb t kFFN) eqn:Tf.
    + apply type_eqb_eq in Tf. subst t.
      destruct k as [|f1 [|f2 [|d [|? ?]]]]; try discriminate Hnm.
      apply andb_true_iff in Hnm as [Hnm Hdig].
      destruct g as [|a [|b [|c rest]]]; try discriminate Hsub.
      simpl in Hsub. injection Hsub as Hua Hub Hcd.
      assert (Hc' : c = d).
      { rewrite <- Hcd in Hdig. rewrite <- (toupper_digit _ Hdig). exact Hcd. }
      subst c. unfold substr in Hd. cbn [length Nat.sub substring] in Hd.
      rewrite substring_zero in Hd.
      change (String d EmptyString) with (str1 d) in Hd.
      destruct (single_digit d Hdig) as (Ha & Hs & Hr).
      rewrite Ha in Hd. injection Hd as <-.
      split; [|split; [intros _; exact Hr | intros _; reflexivity]].
      intros _. unfold ToString. cbn [type subsecond_digit_count].
      rewrite Hs.
      apply andb_true_iff in Hnm as [H1 H2].
      apply Ascii.eqb_eq in H1. apply Ascii.eqb_eq in H2. subst f1 f2.
      cbn [length substring AsciiStrToUpper]. rewrite substring_zero.
      cbn [AsciiStrToUpper]. rewrite Hua, Hub, Hcd. reflexivity.
    + assert (Hf : t <> kFFN).
      { intros ->. rewrite type_eqb_refl in Tf. discriminate Tf. }
      apply String.eqb_eq in Hnm.
      split; [|split; [intros C; contradiction | intros _; now rewrite Hnm]].
      intros _. rewrite ToString_named by assumption.
      rewrite Hsub, Hnm. reflexivity.
  - simpl in Hnm. rewrite andb_true_r in Hnm.
    split; [|split; [discriminate | intros C; now contradiction C]].
    intros _. unfold ToString. cbn [type literal_value].
    pose proof (upper_no_letters _ _ Hsub Hnm) as Hk.
    unfold substr. rewrite Hk in Hsub |- *. rewrite Hsub. reflexivity.
  - simpl in Hnm. apply andb_true_iff in Hnm as [_ Hk].
    apply String.eqb_eq in Hk. subst k.
    split; [|split; [discriminate | intros C; now contradiction C]].
    intros _. unfold ToString. cbn [type len_in_format_str].
    destruct g as [|c rest]; [discriminate Hsub|].
    simpl in Hsub. injection Hsub as Hc.
    assert (Hsp : c = space).
    { rewrite <- (toupper_not_alpha c); [exact Hc|]. rewrite Hc.
      reflexivity. }
    subst c. cbn [length Nat.add substr_from substring].
    rewrite count_spaces_substring.
    change (String space (spaces (count_spaces rest)))
      with (spaces (S (count_spaces rest))).
    now rewrite upper_spaces.
  - split; [intros C; now contradiction C|].
    split; [discriminate | intros C; now contradiction C].
Qed.

Lemma read_at_offsets_at_spans (Q : string -> DateTimeFormatElement -> Prop)
  (f : string) (es : list DateTimeFormatElement) :
  (forall g e,
      GetNextDateTimeFormatElement g (AsciiStrToUpper g) = Value e ->
      Q (substr 0 (len_in_format_str e) g) e) ->
  forall offset, read_at_offsets f offset es -> at_spans Q f offset es.
Proof.
  intros HQ. induction es as [|e es IH]; intros off R; simpl in *;
    [exact I|].
  destruct R as (_ & G & R). split; [|apply IH; exact R].
  apply HQ in G. unfold substr in *.
  now rewrite substring_substr_from in G.
Qed.

(** X3.  In a successful tokenization the debug name of every element
    other than a quoted literal is the upper-cased text of the element in
    the format string, between single quotes; the digit count of an FFn
    element is between 1 and 9; and a non-literal element is as long as the
    name of its type. *)
Theorem tokenized_elements_named (format_str : string)
  (es : list DateTimeFormatElement) :
  GetDateTimeFormatElements format_str = Value es ->
  at_spans debug_name_is_upper_text format_str 0 es
  /\ Forall (fun e =>
       (type e = kFFN -> (1 <= subsecond_digit_count e <= 9)%Z)
       /\ (category e <> kLiteral ->
           len_in_format_str e = length (FormatElementTypeString (type e))))
       es.
Proof.
  intros H. split.
  - apply tokenization_iff_read_at_offsets in H.
    eapply read_at_offsets_at_spans; [|exact H].
    intros g e G. now apply GetNextDateTimeFormatElement_named in G.
  - eapply tokenized_Forall; [|exact H].
    intros g e G. now apply GetNextDateTimeFormatElement_named in G.
Qed.

Lemma tokenized_elements_named_witness :
  GetDateTimeFormatElements "hh24:mi:ss.ff3" = Value (elements_of "hh24:mi:ss.ff3")
  /\ at_spans debug_name_is_upper_text "hh24:mi:ss.ff3" 0
       (elements_of "hh24:mi:ss.ff3")
  /\ map ToString (elements_of "hh24:mi:ss.ff3")
     = ["'HH24'"; "':'"; "'MI'"; "':'"; "'SS'"; "'.'"; "'FF3'"].
Proof.
  split; [vm_compute; reflexivity|]. split; [|vm_compute; reflexivity].
  apply (tokenized_elements_named "hh24:mi:ss.ff3"). vm_compute. reflexivity.
Defined.

(** ** Reading one element, then the rest *)

Lemma read_at_offsets_shift (f : string) (a : nat)
  (es : list DateTimeFormatElement) :
  a <= length f ->
  forall o,
    read_at_offsets (substr_from a f) o es -> read_at_offsets f (a + o) es.
Proof.
  intros Ha. induction es as [|e es IH]; intros o R; simpl in *.
  - rewrite length_substr_from in R. lia.
  - destruct R as (Ho & G & R). rewrite length_substr_from in Ho.
    rewrite <- substr_from_add in G. split; [lia|]. split; [exact G|].
    rewrite <- Nat.add_assoc. apply IH. exact R.
Qed.

(** Tokenizing is reading the first element and tokenizing what follows
    it. *)
Lemma tokenize_cons (f : string) (e : DateTimeFormatElement)
  (es : list DateTimeFormatElement) :
  GetNextDateTimeFormatElement f (AsciiStrToUpper f) = Value e ->
  GetDateTimeFormatElements (substr_from (len_in_format_str e) f) = Value es ->
  GetDateTimeFormatElements f = Value (e :: es).
Proof.
  intros G H. pose proof G as B.
  apply GetNextDateTimeFormatElement_bounds in B; [|apply length_upper].
  apply tokenization_iff_read_at_offsets.
  apply tokenization_iff_read_at_offsets in H.
  simpl. split; [lia|]. split; [exact G|].
  replace (len_in_format_str e) with (len_in_format_str e + 0) at 1 by lia.
  apply read_at_offsets_shift; [lia | exact H].
Qed.

Lemma tokenize_first_failure (f : string) (e : ErrorStatus) :
  f <> EmptyString ->
  GetNextDateTimeFormatElement f (AsciiStrToUpper f) = Failure e ->
  GetDateTimeFormatElements f
  = Failure (MakeEvalError (message e ++ " at " ++ string_of_nat 0)).
Proof.
  intros Hne G. unfold GetDateTimeFormatElements.
  destruct f as [|c r]; [contradiction|].
  cbn [length GetDateTimeFormatElements_loop Nat.ltb Nat.leb substr_from].
  change (substr_from 0 ?s) with s.
  now rewrite G.
Qed.

Lemma substr_from_app (a b : string) : substr_from (length a) (a ++ b) = b.
Proof. induction a; simpl; auto. Qed.

Lemma upper_app (a b : string) :
  AsciiStrToUpper (a ++ b) = AsciiStrToUpper a ++ AsciiStrToUpper b.
Proof. induction a as [|c a IH]; simpl; [reflexivity | now rewrite IH]. Qed.

Lemma append_assoc (a b c : string) : (a ++ b) ++ c = a ++ (b ++ c).
Proof. induction a as [|x a IH]; simpl; [reflexivity | now rewrite IH]. Qed.

Lemma append_empty_r (a : string) : a ++ EmptyString = a.
Proof. induction a as [|x a IH]; simpl; [reflexivity | now rewrite IH]. Qed.

Lemma lookup_space (r : string) :
  GetDataForMaximalPrefix GetFormatElementTypeTrie (String space r)
  = (kWhitespace, 1).
Proof. destruct r; vm_compute; reflexivity. Qed.

Lemma lookup_dquote (r : string) :
  GetDataForMaximalPrefix GetFormatElementTypeTrie (String dquote r)
  = (kDoubleQuotedLiteral, 1).
Proof. destruct r; vm_compute; reflexivity. Qed.

Lemma count_spaces_app (n : nat) (rest : string) :
  count_spaces (spaces n ++ rest) = n + count_spaces rest.
Proof. induction n as [|n IH]; simpl; [reflexivity | now rewrite IH]. Qed.

Lemma length_spaces (n : nat) : length (spaces n) = n.
Proof. induction n; simpl; congruence. Qed.

(** X4.  A run of n spaces, n at least 1, that is not followed by
    another space is one whitespace element of length n, whatever the
    elements that follow. *)
Theorem whitespace_run_is_one_element (n : nat) (rest : string)
  (es : list DateTimeFormatElement) :
  1 <= n ->
  count_spaces rest = 0 ->
  GetDateTimeFormatElements rest = Value es ->
  GetDateTimeFormatElements (spaces n ++ rest)
  = Value (whitespace_element n :: es).
Proof.
  intros Hn Hr H. destruct n as [|m]; [lia|].
  apply tokenize_cons.
  - unfold GetNextDateTimeFormatElement.
    cbn [spaces append AsciiStrToUpper].
    change (ascii_toupper space) with space. rewrite lookup_space.
    cbn. rewrite count_spaces_app, Hr, Nat.add_0_r. reflexivity.
  - cbn [whitespace_element len_in_format_str].
    rewrite <- (length_spaces (S m)) at 1. now rewrite substr_from_app.
Qed.

Lemma whitespace_run_is_one_element_witness :
  GetDateTimeFormatElements (spaces 3 ++ "YYYY")
  = Value (whitespace_element 3 :: elements_of "YYYY").
Proof.
  apply (whitespace_run_is_one_element 3 "YYYY" (elements_of "YYYY"));
    [lia | reflexivity | vm_compute; reflexivity].
Defined.

(** ** Quoted literals *)

Ltac same_value_pair :=
  match goal with
  | |- Value (?a, _) = Value (?b, _) => replace a with b by lia; reflexivity
  end.

Lemma scan_escaped_text (text : string) :
  forall rest matched_len literal,
    scan_quoted_literal (escape_quoted text ++ String dquote rest) false
      matched_len literal
    = Value (matched_len + length (escape_quoted text) + 1, literal ++ text).
Proof.
  induction text as [|c t IH]; intros rest ml lit.
  - cbn. rewrite append_empty_r. same_value_pair.
  - cbn [escape_quoted].
    destruct (Ascii.eqb c backslash) eqn:Eb.
    + apply Ascii.eqb_eq in Eb. subst c. cbn. rewrite IH.
      rewrite append_assoc. cbn. same_value_pair.
    + destruct (Ascii.eqb c dquote) eqn:Eq.
      * apply Ascii.eqb_eq in Eq. subst c. cbn. rewrite IH.
        rewrite append_assoc. cbn. same_value_pair.
      * cbn. rewrite Eb, Eq. rewrite IH.
        rewrite append_assoc. cbn. same_value_pair.
Qed.

Lemma GetNextDateTimeFormatElement_quoted (text rest : string) :
  GetNextDateTimeFormatElement (quoted text ++ rest)
    (AsciiStrToUpper (quoted text ++ rest))
  = Value (quoted_element text).
Proof.
  unfold GetNextDateTimeFormatElement, quoted.
  cbn [append AsciiStrToUpper].
  change (ascii_toupper dquote) with dquote. rewrite lookup_dquote.
  cbn [type_eqb FormatElementType_beq kFormatElementTypeNullValue
       category type set_category set_type default_element
       set_format_casing_type GetFormatElementCategoryFromType
       category_eqb FormatElementCategory_beq negb substr_from].
  rewrite append_assoc. cbn [str1 append].
  rewrite scan_escaped_text. cbn [bind fst snd].
  unfold quoted_element, quoted.
  assert (L : length (String dquote (escape_quoted text ++ str1 dquote))
              = 1 + length (escape_quoted text) + 1).
  { cbn [length]. rewrite length_append. cbn [length str1]. lia. }
  rewrite L. reflexivity.
Qed.

Lemma length_quoted (text : string) :
  len_in_format_str (quoted_element text) = length (quoted text).
Proof. reflexivity. Qed.

(** X5.  Quoting round trip: a text written as a quoted literal (between
    double quotes, with a backslash before each of its backslashes and
    double quotes) is read back as one element of type
    kDoubleQuotedLiteral whose literal value is the text itself and whose
    length is that of the quoted form, whatever follows. *)
Theorem quoted_literal_round_trip (text rest : string)
  (es : list DateTimeFormatElement) :
  GetDateTimeFormatElements rest = Value es ->
  GetDateTimeFormatElements (quoted text ++ rest)
  = Value (quoted_element text :: es).
Proof.
  intros H. apply tokenize_cons.
  - apply GetNextDateTimeFormatElement_quoted.
  - rewrite length_quoted, substr_from_app. exact H.
Qed.

Lemma quoted_literal_round_trip_witness :
  let text := "at " ++ str1 dquote ++ "noon" ++ str1 dquote in
  GetDateTimeFormatElements (quoted text ++ "HH24")
  = Value (quoted_element text :: elements_of "HH24").
Proof.
  intros text.
  apply (quoted_literal_round_trip text "HH24" (elements_of "HH24")).
  vm_compute. reflexivity.
Defined.

(** ** The failures of the tokenizer *)

Lemma scan_quoted_literal_failure (rest : string) :
  forall is_escaped matched_len literal e,
    scan_quoted_literal rest is_escaped matched_len literal = Failure e ->
    exists reason,
      e = MakeEvalError reason
      /\ (reason = "Cannot find matching " ++ str1 dquote
                   ++ " for quoted literal"
          \/ exists c,
               reason = "Unsupported escape sequence " ++ str1 backslash
                        ++ str1 c ++ " in text").
Proof.
  induction rest as [|c rest IH]; intros esc ml lit e H; simpl in H.
  - injection H as <-. eexists. split; [reflexivity|].
    left. reflexivity.
  - destruct esc.
    + destruct (Ascii.eqb c backslash || Ascii.eqb c dquote).
      * eapply IH; exact H.
      * injection H as <-. eexists. split; [reflexivity|].
        right. exists c. reflexivity.
    + destruct (Ascii.eqb c backslash); [eapply IH; exact H|].
      destruct (Ascii.eqb c dquote); [discriminate H | eapply IH; exact H].
Qed.

Lemma literal_types (t : FormatElementType) :
  GetFormatElementCategoryFromType t = kLiteral ->
  t = kSimpleLiteral \/ t = kWhitespace \/ t = kDoubleQuotedLiteral.
Proof. destruct t; simpl; intros H; try discriminate H; auto. Qed.

(** The digit of an FFn element, as found in the original text. *)
Lemma ffn_digit (k g : string) :
  trie_key_named (k, kFFN) = true ->
  prefix k (AsciiStrToUpper g) = true ->
  exists d, in_range 49 57 d = true /\ substr 2 (length k - 2) g = str1 d.
Proof.
  unfold trie_key_named. cbn [fst snd]. intros Hnm Hp.
  change (category_eqb (GetFormatElementCategoryFromType kFFN) kLiteral)
    with false in Hnm.
  change (type_eqb kFFN kFFN) with true in Hnm. cbv iota in Hnm.
  destruct k as [|f1 [|f2 [|d [|? ?]]]]; try discriminate Hnm.
  apply andb_true_iff in Hnm as [_ Hdig].
  apply prefix_substring in Hp. rewrite substring_upper in Hp.
  destruct g as [|a [|b [|c rest]]]; try discriminate Hp.
  simpl in Hp. injection Hp as _ _ Hcd.
  exists d. split; [exact Hdig|].
  assert (Hc' : c = d).
  { rewrite <- Hcd in Hdig. rewrite <- (toupper_digit _ Hdig). exact Hcd. }
  subst c. unfold substr. cbn [length Nat.sub substring].
  now rewrite substring_zero.
Qed.

(** Reading an element fails for one of three reasons only; the internal
    checks of the function never fail. *)
Lemma GetNextDateTimeFormatElement_failure (g : string) (e : ErrorStatus) :
  GetNextDateTimeFormatElement g (AsciiStrToUpper g) = Failure e ->
  exists reason, e = MakeEvalError reason /\ tokenizer_failure_reason reason.
Proof.
  unfold GetNextDateTimeFormatElement.
  destruct (GetDataForMaximalPrefix GetFormatElementTypeTrie
              (AsciiStrToUpper g)) as [t n] eqn:E.
  destruct (type_eqb t kFormatElementTypeNullValue) eqn:Tn.
  { intros H. injection H as <-. eexists. split; [reflexivity|].
    left. reflexivity. }
  assert (Hn : t <> kFormatElementTypeNullValue).
  { intros ->. rewrite type_eqb_refl in Tn. discriminate Tn. }
  destruct (trie_lookup_named _ _ _ E Hn) as (k & Hwf & Hnm & Hp & ->).
  clear E Tn.
  cbn [category type set_category set_type default_element
       set_format_casing_type set_len_in_format_str].
  destruct (category_eqb (GetFormatElementCategoryFromType t) kLiteral)
    eqn:Cl; cbn [negb].
  - apply category_eqb_eq in Cl.
    destruct (literal_types t Cl) as [-> | [-> | ->]];
      cbn [type_eqb FormatElementType_beq negb].
    + intros H. discriminate H.
    + intros H. discriminate H.
    + destruct (scan_quoted_literal (substr_from 1 g) false (length k)
                  EmptyString) as [r|e0] eqn:S; cbn [bind]; intros H;
        [discriminate H|].
      injection H as <-.
      apply scan_quoted_literal_failure in S.
      destruct S as (reason & -> & Hr). exists reason.
      split; [reflexivity|]. right. exact Hr.
  - assert (Hc : GetFormatElementCategoryFromType t <> kLiteral).
    { intros C. rewrite C in Cl. discriminate Cl. }
    destruct (casing_determined k (substr 0 (length k) g) t Hwf Hc)
      as [casing ->].
    { unfold substr. rewrite <- substring_upper.
      now apply prefix_substring. }
    cbn [bind category type set_category set_type default_element
         set_format_casing_type set_len_in_format_str].
    destruct (type_eqb t kFFN) eqn:Tf; [|intros H; discriminate H].
    apply type_eqb_eq in Tf. subst t.
    destruct (ffn_digit k g Hnm Hp) as (d & Hd & ->).
    destruct (single_digit d Hd) as (-> & _ & _).
    intros H. discriminate H.
Qed.

Lemma loop_failure (fuel : nat) (f : string) :
  forall processed_len acc err,
    GetDateTimeFormatElements_loop fuel f (AsciiStrToUpper f) processed_len
      acc = Some (Failure err) ->
    exists K e0,
      K < length f
      /\ GetNextDateTimeFormatElement (substr_from K f)
           (AsciiStrToUpper (substr_from K f)) = Failure e0
      /\ err = MakeEvalError (message e0 ++ " at " ++ string_of_nat K).
Proof.
  induction fuel as [|fuel IH]; intros p acc err H; simpl in H.
  - destruct (p <? length f)%nat; discriminate H.
  - destruct (p <? length f)%nat eqn:C; [|discriminate H].
    apply Nat.ltb_lt in C. rewrite substr_from_upper in H.
    destruct (GetNextDateTimeFormatElement (substr_from p f)
                (AsciiStrToUpper (substr_from p f))) as [e|e0] eqn:G.
    + eapply IH; exact H.
    + injection H as <-. exists p, e0. auto.
Qed.

(** X6.  A failure of the tokenizer is always an evaluation error whose
    message is a reason followed by " at K", K being an offset inside the
    format string, and the reason is one of three: no element matches, a
    quoted literal is not closed, or a backslash in a quoted literal is
    followed by something other than a backslash or a double quote.  The
    internal checks of the tokenizer, and the error on the digit of FFn,
    are never reported. *)
Theorem tokenizer_failures (format_str : string) (err : ErrorStatus) :
  GetDateTimeFormatElements format_str = Failure err ->
  exists K reason,
    K < length format_str
    /\ tokenizer_failure_reason reason
    /\ err = MakeEvalError (reason ++ " at " ++ string_of_nat K).
Proof.
  intros H.
  pose proof (GetDateTimeFormatElements_loop_eq format_str) as L.
  rewrite H in L. apply loop_failure in L.
  destruct L as (K & e0 & HK & G & ->).
  apply GetNextDateTimeFormatElement_failure in G.
  destruct G as (reason & -> & Hr).
  exists K, reason. auto.
Qed.

Lemma tokenizer_failures_witness :
  exists K reason,
    K < length "YYYY-Q?"
    /\ tokenizer_failure_reason reason
    /\ MakeEvalError "Cannot find matched format element at 6"
       = MakeEvalError (reason ++ " at " ++ string_of_nat K).
Proof.
  apply (tokenizer_failures "YYYY-Q?"). vm_compute. reflexivity.
Defined.

Lemma scan_without_quote (rest : string) :
  contains_byte dquote rest = false ->
  forall is_escaped matched_len literal,
    exists e,
      scan_quoted_literal rest is_escaped matched_len literal = Failure e.
Proof.
  induction rest as [|c rest IH]; intros Hc esc ml lit; simpl.
  - eauto.
  - simpl in Hc. apply orb_false_iff in Hc as [Hq Hc]. rewrite Hq.
    destruct esc.
    + rewrite orb_false_r.
      destruct (Ascii.eqb c backslash); [apply IH; exact Hc | eauto].
    + destruct (Ascii.eqb c backslash); apply IH; exact Hc.
Qed.

(** X7.  A format string that opens a quoted literal and has no further
    double quote is rejected at offset 0: the literal is not closed, or
    one of its backslashes starts an escape that is not supported. *)
Theorem unterminated_quoted_literal (text : string) :
  contains_byte dquote text = false ->
  exists reason,
    GetDateTimeFormatElements (String dquote text)
    = Failure (MakeEvalError (reason ++ " at 0"))
    /\ (reason = "Cannot find matching " ++ str1 dquote
                 ++ " for quoted literal"
        \/ exists c,
             reason = "Unsupported escape sequence " ++ str1 backslash
                      ++ str1 c ++ " in text").
Proof.
  intros Hc.
  destruct (scan_without_quote text Hc false 1 EmptyString) as [e S].
  pose proof (scan_quoted_literal_failure _ _ _ _ _ S) as (reason & -> & Hr).
  assert (G : GetNextDateTimeFormatElement (String dquote text)
                (AsciiStrToUpper (String dquote text))
              = Failure (MakeEvalError reason)).
  { unfold GetNextDateTimeFormatElement. cbn [AsciiStrToUpper].
    change (ascii_toupper dquote) with dquote. rewrite lookup_dquote.
    cbn [type_eqb FormatElementType_beq kFormatElementTypeNullValue
         category type set_category set_type default_element
         set_format_casing_type GetFormatElementCategoryFromType
         category_eqb FormatElementCategory_beq negb substr_from].
    rewrite S. reflexivity. }
  apply tokenize_first_failure in G; [|discriminate].
  exists reason. split; [exact G | exact Hr].
Qed.

Lemma unterminated_quoted_literal_witness :
  exists reason,
    GetDateTimeFormatElements (String dquote "o'clock")
    = Failure (MakeEvalError (reason ++ " at 0"))
    /\ (reason = "Cannot find matching " ++ str1 dquote
                 ++ " for quoted literal"
        \/ exists c,
             reason = "Unsupported escape sequence " ++ str1 backslash
                      ++ str1 c ++ " in text").
Proof. apply (unterminated_quoted_literal "o'clock"). reflexivity. Defined.

(** X8.  The names of the catalog and the keys of the trie agree: the
    name of every type that is neither a literal, nor FFN, nor the
    unspecified type tokenizes to the single element of that type, written
    in upper case or in lower case. *)
Theorem type_name_round_trip (t : FormatElementType) :
  GetFormatElementCategoryFromType t <> kLiteral ->
  t <> kFFN ->
  t <> kFormatElementTypeUnspecified ->
  GetDateTimeFormatElements (FormatElementTypeString t)
  = Value [mkElement t (GetFormatElementCategoryFromType t)
             (length (FormatElementTypeString t)) kAllLettersUppercase
             EmptyString 0]
  /\ GetDateTimeFormatElements (AsciiStrToLower (FormatElementTypeString t))
     = Value [mkElement t (GetFormatElementCategoryFromType t)
                (length (FormatElementTypeString t)) kAllLettersLowercase
                EmptyString 0].
Proof.
  intros Hc Hf Hu.
  destruct t; try (exfalso; simpl in Hc; congruence);
    split; vm_compute; reflexivity.
Qed.

Lemma type_name_round_trip_witness :
  GetDateTimeFormatElements (FormatElementTypeString kYCommaYYY)
  = Value [mkElement kYCommaYYY kYear 5 kAllLettersUppercase EmptyString 0]
  /\ GetDateTimeFormatElements
       (AsciiStrToLower (FormatElementTypeString kYCommaYYY))
     = Value [mkElement kYCommaYYY kYear 5 kAllLettersLowercase
                EmptyString 0].
Proof.
  apply (type_name_round_trip kYCommaYYY); discriminate.
Defined.

(** ** The parse-mode validator, exactly *)

Lemma for_each_check_all {A : Type} (check : A -> Status) (xs : list A) :
  (forall x, In x xs -> check x = OkStatus) ->
  for_each_check check xs = OkStatus.
Proof.
  induction xs as [|a xs IH]; intros H; simpl; [reflexivity|].
  rewrite (H a) by (now left). simpl. apply IH.
  intros x Hx. apply H. now right.
Qed.

Lemma collect_elements_supported (es : list DateTimeFormatElement) :
  forall cm tm r,
    collect_elements es cm tm = Value r ->
    forallb IsSupportedForParsing es = true.
Proof.
  induction es as [|e es IH]; intros cm tm r H; simpl in *; [reflexivity|].
  destruct (IsSupportedForParsing e); cbn [negb] in H; [|discriminate H].
  simpl. destruct (type_contains tm (type e)).
  - destruct (negb (category_eqb (category e) kLiteral)); [discriminate H|].
    eapply IH; exact H.
  - eapply IH; exact H.
Qed.

Lemma collect_elements_succeeds (es : list DateTimeFormatElement) :
  forall cm tm,
    forallb IsSupportedForParsing es = true ->
    (forall j ej, nth_error es j = Some ej ->
       type_contains tm (type ej) = true -> category ej = kLiteral) ->
    rule_no_duplicate_type es ->
    exists r, collect_elements es cm tm = Value r.
Proof.
  induction es as [|e es IH]; intros cm tm Hs Htm R; simpl; [eauto|].
  simpl in Hs. apply andb_true_iff in Hs as [He Hs]. rewrite He.
  cbn [negb].
  assert (R' : rule_no_duplicate_type es).
  { intros i j ei ej Hij Hi Hj Ht.
    apply (R (S i) (S j) ei ej); simpl; auto. lia. }
  destruct (type_contains tm (type e)) eqn:Tc.
  - rewrite (Htm 0 e eq_refl Tc). cbn [category_eqb FormatElementCategory_beq negb].
    apply IH; [exact Hs | | exact R'].
    intros j ej Hj. apply (Htm (S j) ej Hj).
  - apply IH; [exact Hs | | exact R'].
    intros j ej Hj Hc. unfold type_contains, type_set in Hc.
    destruct (type_eqb (type ej) (type e)) eqn:Et.
    + apply type_eqb_eq in Et.
      apply (R 0 (S j) e ej); simpl; auto. lia.
    + apply (Htm (S j) ej Hj). exact Hc.
Qed.

(** What an accepted element list went through, the last check
    included. *)
Lemma ValidateDateTimeFormatElements_invalid_categories
  (es : list DateTimeFormatElement)
  (invalid_categories : list FormatElementCategory) (name : string) :
  ValidateDateTimeFormatElements es invalid_categories name = OkStatus ->
  forallb IsSupportedForParsing es = true
  /\ forall c, In c invalid_categories -> has_category c es = false.
Proof.
  unfold ValidateDateTimeFormatElements.
  destruct (collect_elements es empty_category_map empty_type_map)
    as [[cm tm]|] eqn:Hc; [|discriminate].
  cbn [bind fst snd]. intros H.
  repeat match type of H with
  | bind ?c _ = _ =>
      let E := fresh "E" in
      destruct c as [[]|] eqn:E; cbn [bind] in H; [|discriminate H]
  end.
  split; [eapply collect_elements_supported; exact Hc|].
  intros c Hin.
  match goal with
  | E : for_each_check _ invalid_categories = _ |- _ =>
      pose proof (for_each_check_ok _ _ E c Hin) as D
  end.
  unfold CheckCategoryNotExist in D.
  destruct (collect_elements_maps es empty_category_map empty_type_map cm tm)
    as (_ & I2 & _); [intros c'; simpl; lia | exact Hc |].
  rewrite I2 in D. cbn [category_contains empty_category_map orb] in D.
  destruct (has_category c es); [discriminate D | reflexivity].
Qed.

Lemma ValidateDateTimeFormatElements_accepts
  (es : list DateTimeFormatElement)
  (invalid_categories : list FormatElementCategory) (name : string) :
  forallb IsSupportedForParsing es = true ->
  rule_no_duplicate_type es -> rule_no_duplicate_category es ->
  rule_mutual_exclusion es -> rule_coexistence es ->
  (forall c, In c invalid_categories -> has_category c es = false) ->
  ValidateDateTimeFormatElements es invalid_categories name = OkStatus.
Proof.
  intros Hs R2 R3 R4 R5 R6.
  destruct (collect_elements_succeeds es empty_category_map empty_type_map
              Hs) as [[cm tm] Hc]; [intros j ej _ C; discriminate C | exact R2|].
  destruct (collect_elements_maps es empty_category_map empty_type_map cm tm)
    as (I1 & I2 & I3); [intros c; simpl; lia | exact Hc |].
  assert (T : forall t, type_contains tm t = has_type t es)
    by (intros t; rewrite I1; reflexivity).
  assert (C : forall c, category_contains cm c = has_category c es)
    by (intros c; rewrite I2; reflexivity).
  assert (L : forall c,
             List.length (category_at cm c)
             = Nat.min 2 (count_category c es))
    by (intros c; rewrite I3; reflexivity).
  destruct R4 as (M1 & M2 & M3). unfold rule_coexistence in R5.
  unfold ValidateDateTimeFormatElements. rewrite Hc. cbn [bind fst snd].
  rewrite for_each_check_all.
  2:{ intros c Hin. unfold CheckForDuplicateElementsInCategory.
      specialize (R3 c Hin). rewrite L.
      replace (1 <? Nat.min 2 (count_category c es))%nat with false;
        [now rewrite andb_false_r|].
      symmetry. apply Nat.ltb_ge. lia. }
  cbn [bind].
  assert (X : forall t c,
             (has_type t es = true -> has_category c es = false) ->
             CheckForMutuallyExclusiveElements_type_category t c tm cm
             = OkStatus).
  { intros t c Hx. unfold CheckForMutuallyExclusiveElements_type_category.
    rewrite T, C. destruct (has_type t es); [|reflexivity].
    now rewrite Hx. }
  rewrite (X kDDD kMonth M1). cbn [bind].
  rewrite (X kHH24 kMeridianIndicator M2). cbn [bind].
  assert (Co : CheckForCoexistance [kHH; kHH12] kMeridianIndicator tm cm
               = OkStatus).
  { unfold CheckForCoexistance. cbn [first_present_type].
    rewrite !T, C, <- R5.
    destruct (has_type kHH es); [reflexivity|].
    destruct (has_type kHH12 es); reflexivity. }
  rewrite Co. cbn [bind].
  rewrite (X kSSSSS kHour) by (intros Hx; now apply M3).
  cbn [bind].
  rewrite (X kSSSSS kMinute) by (intros Hx; now apply M3).
  cbn [bind].
  assert (SS : CheckForMutuallyExclusiveElements_type_type kSSSSS kSS tm
               = OkStatus).
  { unfold CheckForMutuallyExclusiveElements_type_type. rewrite !T.
    destruct (has_type kSSSSS es) eqn:Hx; [|reflexivity].
    destruct (M3 eq_refl) as (_ & _ & ->). reflexivity. }
  rewrite SS. cbn [bind].
  rewrite for_each_check_all; [reflexivity|].
  intros c Hin. unfold CheckCategoryNotExist. rewrite C, (R6 c Hin).
  reflexivity.
Qed.

(** X9.  The parse-mode validator accepts an element list exactly when
    every element is supported for parsing, the structural rules 2 to 5
    hold, and no element is in one of the invalid categories; the name of
    the output type plays no part in the outcome. *)
Theorem validator_accepts_exactly (es : list DateTimeFormatElement)
  (invalid_categories : list FormatElementCategory) (name : string) :
  ValidateDateTimeFormatElements es invalid_categories name = OkStatus
  <-> forallb IsSupportedForParsing es = true
      /\ rule_no_duplicate_type es /\ rule_no_duplicate_category es
      /\ rule_mutual_exclusion es /\ rule_coexistence es
      /\ (forall c, In c invalid_categories -> has_category c es = false).
Proof.
  split.
  - intros H.
    destruct (ValidateDateTimeFormatElements_invalid_categories _ _ _ H)
      as [Hs Hi].
    destruct (ValidateDateTimeFormatElements_rules _ _ _ H)
      as (R2 & R3 & R4 & R5).
    auto 10.
  - intros (Hs & R2 & R3 & R4 & R5 & R6).
    now apply ValidateDateTimeFormatElements_accepts.
Qed.

(** X10.  In format mode what is valid for DATE or for TIME is valid for
    DATETIME, and what is valid for DATETIME is valid for TIMESTAMP. *)
Theorem formatting_validity_is_monotone (format_string : string) :
  (ok (ValidateFormatStringForFormatting format_string TYPE_DATE) = true ->
   ok (ValidateFormatStringForFormatting format_string TYPE_DATETIME) = true)
  /\ (ok (ValidateFormatStringForFormatting format_string TYPE_TIME) = true ->
      ok (ValidateFormatStringForFormatting format_string TYPE_DATETIME)
      = true)
  /\ (ok (ValidateFormatStringForFormatting format_string TYPE_DATETIME)
      = true ->
      ok (ValidateFormatStringForFormatting format_string TYPE_TIMESTAMP)
      = true).
Proof.
  rewrite !ValidateFormatStringForFormatting_categories.
  destruct (IsWellFormedUTF8 format_string); cbn [andb];
    [|repeat split; intros H; exact H].
  destruct (GetDateTimeFormatElements format_string) as [es|];
    [|repeat split; intros H; exact H].
  unfold all_categories_allowed.
  repeat split; intros H; apply forallb_forall; intros e He;
    rewrite forallb_forall in H; specialize (H e He);
    destruct (category e); simpl in *; congruence.
Qed.

Lemma formatting_validity_is_monotone_witness :
  ok (ValidateFormatStringForFormatting "YYYY-MM-DD" TYPE_DATE) = true
  /\ ok (ValidateFormatStringForFormatting "YYYY-MM-DD" TYPE_DATETIME) = true.
Proof.
  split; [vm_compute; reflexivity|].
  apply (proj1 (formatting_validity_is_monotone "YYYY-MM-DD")).
  vm_compute. reflexivity.
Defined.

(** ** The cursor and the element index of the parser *)

Lemma whitespace_run_le (s : string) (n : nat) :
  whitespace_run s n -> n <= length s.
Proof.
  induction 1 as [s | s c n m U W R IH]; [lia|].
  apply U8_NEXT_bounds in U. rewrite length_substr_from in IH. lia.
Qed.

Lemma TrimLeadingUnicodeWhiteSpaces_le (s : string) :
  TrimLeadingUnicodeWhiteSpaces s <= length s.
Proof.
  apply whitespace_run_le. apply TrimLeadingUnicodeWhiteSpaces_spec.
Qed.

Lemma ParseStringByExactMatch_le (s target : string) (n : nat) :
  ParseStringByExactMatch s target = Some n -> n <= length s.
Proof.
  unfold ParseStringByExactMatch, StartsWith.
  destruct (String.eqb target EmptyString).
  - intros H; injection H as <-. lia.
  - destruct (prefix target s) eqn:P; [|discriminate].
    intros H; injection H as <-. now apply prefix_length.
Qed.

Lemma read_digits_le (s : string) :
  forall max_width value, fst (read_digits s max_width value) <= length s.
Proof.
  induction s as [|c s IH]; intros [|w] v; simpl; try lia.
  destruct (digit_value c); simpl; [|lia].
  specialize (IH w (v * 10 + z)%Z). lia.
Qed.

Lemma ParseInt_le (s : string) (min_width max_width : nat) (min max : Z)
  (n : nat) (v : Z) :
  ParseInt s min_width max_width min max = Some (n, v) -> n <= length s.
Proof.
  unfold ParseInt, ParseInt_utils.
  pose proof (read_digits_le s max_width 0) as L.
  destruct (fst (read_digits s max_width 0) =? 0)%nat; [discriminate|].
  destruct (_ && _); [|discriminate].
  destruct (read_digits s max_width 0) as [pw value]. simpl in L.
  destruct (_ || _); [discriminate|].
  intros H; injection H as <- _. exact L.
Qed.

Lemma ParseWithFormatElementOfTypeRR_le (s : string) (y : Z) (n : nat)
  (v : Z) :
  ParseWithFormatElementOfTypeRR s y = Some (n, v) -> n <= length s.
Proof.
  unfold ParseWithFormatElementOfTypeRR.
  destruct (ParseInt s 1 2 0 99) as [[m yy]|] eqn:E; [|discriminate].
  intros H; injection H as <- _. eapply ParseInt_le; exact E.
Qed.

Lemma ParseWithFormatElementOfTypeYCommaYYY_le (s : string) (n : nat)
  (v : Z) :
  ParseWithFormatElementOfTypeYCommaYYY s = Some (n, v) -> n <= length s.
Proof.
  unfold ParseWithFormatElementOfTypeYCommaYYY.
  destruct (ParseInt s 1 2 0 10) as [[n1 y1]|] eqn:E1; [|discriminate].
  destruct (ParseStringByExactMatch (substr_from n1 s) ",") as [n2|] eqn:E2;
    [|discriminate].
  destruct (ParseInt (substr_from n2 (substr_from n1 s)) 3 3 0 999)
    as [[n3 y3]|] eqn:E3; [|discriminate].
  intros H; injection H as <- _.
  apply ParseInt_le in E1. apply ParseStringByExactMatch_le in E2.
  apply ParseInt_le in E3. rewrite !length_substr_from in *. lia.
Qed.

(** A branch of the [switch] consumes no more than what is left of the
    input, and only the types with a branch consume anything. *)
Lemma parse_element_consumes (format_element : DateTimeFormatElement)
  (input : string) (st st' : ParseState) (n : nat) :
  parse_element format_element input st = Value (Some n, st') ->
  n <= length input /\ has_parse_branch (type format_element) = true.
Proof.
  unfold parse_element.
  destruct (type format_element); try discriminate;
    cbn [has_parse_branch].
  - intros H; injection H as H _. split; [|reflexivity].
    eapply ParseStringByExactMatch_le; exact H.
  - intros H; injection H as H _. split; [|reflexivity].
    eapply ParseStringByExactMatch_le; exact H.
  - intros H; injection H as <- _. split; [|reflexivity].
    apply TrimLeadingUnicodeWhiteSpaces_le.
  - destruct (ParseInt input 1 5 0 10000) as [[m v]|] eqn:E;
      [|discriminate].
    intros H; injection H as <- _. split; [|reflexivity].
    eapply ParseInt_le; exact E.
  - destruct (negb _); [discriminate|].
    destruct (ParseInt _ _ _ _ _) as [[m v]|] eqn:E; [|discriminate].
    intros H; injection H as <- _. split; [|reflexivity].
    eapply ParseInt_le; exact E.
  - destruct (negb _); [discriminate|].
    destruct (ParseInt _ _ _ _ _) as [[m v]|] eqn:E; [|discriminate].
    intros H; injection H as <- _. split; [|reflexivity].
    eapply ParseInt_le; exact E.
  - destruct (negb _); [discriminate|].
    destruct (ParseInt _ _ _ _ _) as [[m v]|] eqn:E; [|discriminate].
    intros H; injection H as <- _. split; [|reflexivity].
    eapply ParseInt_le; exact E.
  - destruct (ParseInt input 1 5 0 10000) as [[m v]|] eqn:E;
      [|discriminate].
    intros H; injection H as <- _. split; [|reflexivity].
    eapply ParseInt_le; exact E.
  - destruct (ParseWithFormatElementOfTypeRR input (year st))
      as [[m v]|] eqn:E; [|discriminate].
    intros H; injection H as <- _. split; [|reflexivity].
    eapply ParseWithFormatElementOfTypeRR_le; exact E.
  - destruct (ParseWithFormatElementOfTypeYCommaYYY input)
      as [[m v]|] eqn:E; [|discriminate].
    intros H; injection H as <- _. split; [|reflexivity].
    eapply ParseWithFormatElementOfTypeYCommaYYY_le; exact E.
Qed.

(** An iteration either raises the error flag where it stands, or moves
    to the next element, the element just processed having a branch and
    the cursor staying inside the input. *)
Lemma parse_iteration_step (format_elements : list DateTimeFormatElement)
  (timestamp_string : string) (st st' : ParseState) :
  timestamp_str_parsed_length st <= length timestamp_string ->
  parse_iteration format_elements timestamp_string st = Value st' ->
  (error_in_parsing st' = true
   /\ processed_format_element_count st'
      = processed_format_element_count st
   /\ timestamp_str_parsed_length st' = timestamp_str_parsed_length st)
  \/ (error_in_parsing st' = false
      /\ processed_format_element_count st'
         = S (processed_format_element_count st)
      /\ timestamp_str_parsed_length st'
         <= length timestamp_string
      /\ has_parse_branch
           (type (nth (processed_format_element_count st) format_elements
                      default_element)) = true).
Proof.
  intros Hpos. unfold parse_iteration.
  destruct (parse_element _ _ st) as [[pl st1]|] eqn:E; cbn [bind fst snd];
    [|discriminate].
  pose proof (parse_element_frame _ _ _ _ E) as (_ & C & P).
  cbn [snd] in C, P.
  destruct pl as [n|].
  - apply parse_element_consumes in E. destruct E as [Hn Hb].
    rewrite length_substr_from in Hn.
    destruct (error_in_parsing st1) eqn:Er; cbn [negb];
      intros H; injection H as <-.
    + left. auto.
    + right. cbn. rewrite Er, C, P. repeat split; try reflexivity;
        [lia | exact Hb].
  - intros H; injection H as <-. left. cbn. auto.
Qed.

Lemma parse_loop_bounds (fuel : nat)
  (format_elements : list DateTimeFormatElement) (timestamp_string : string) :
  forall st st',
    let inv s :=
      timestamp_str_parsed_length s <= length timestamp_string
      /\ processed_format_element_count s <= List.length format_elements
      /\ (error_in_parsing s = true ->
          processed_format_element_count s < List.length format_elements)
      /\ (forall i, i < processed_format_element_count s ->
            has_parse_branch (type (nth i format_elements default_element))
            = true) in
    inv st ->
    parse_loop fuel format_elements timestamp_string st = Value st' ->
    inv st'.
Proof.
  induction fuel as [|fuel IH]; intros st st' inv Hi H; simpl in H.
  - destruct (parse_loop_condition _ _ st); injection H as <-; exact Hi.
  - destruct (parse_loop_condition _ _ st) eqn:C;
      [|injection H as <-; exact Hi].
    destruct (parse_iteration format_elements timestamp_string st)
      as [st1|] eqn:E; cbn [bind] in H; [|discriminate].
    apply (IH st1 st'); [|exact H].
    unfold parse_loop_condition in C.
    apply andb_true_iff in C as [C Hc]. apply andb_true_iff in C as [_ _].
    apply Nat.ltb_lt in Hc.
    destruct Hi as (I1 & I2 & I3 & I4).
    apply parse_iteration_step in E; [|exact I1].
    destruct E as [(Er & Ec & Ep) | (Er & Ec & Ep & Eb)].
    + rewrite Ec, Ep. repeat split; auto.
    + rewrite Ec, Er. repeat split; try lia; try discriminate.
      intros i Hlt. destruct (Nat.eq_dec i (processed_format_element_count st))
        as [-> | Hne]; [exact Eb | apply I4; lia].
Qed.

Section ParserBounds.

Variable Time : Type.
Variable TimeZone : Type.
Variable At : TimeZone -> Time -> CivilInfo.

Local Abbreviation run_elements := (parse_elements Time TimeZone At).

Lemma parse_elements_bounds (format_elements : list DateTimeFormatElement)
  (timestamp_string : string) (tz : TimeZone) (now : Time)
  (st : ParseState) :
  run_elements format_elements timestamp_string tz now = Value st ->
  timestamp_str_parsed_length st <= length timestamp_string
  /\ processed_format_element_count st <= List.length format_elements
  /\ (error_in_parsing st = true ->
      processed_format_element_count st < List.length format_elements)
  /\ (forall i, i < processed_format_element_count st ->
        has_parse_branch (type (nth i format_elements default_element))
        = true).
Proof.
  unfold parse_elements. intros H.
  eapply (parse_loop_bounds _ _ _ _ st); [|exact H].
  cbn. repeat split; try lia; try discriminate.
  apply TrimLeadingUnicodeWhiteSpaces_le.
Qed.

(** X11.  When the parsing loop is left the cursor is within the input
    and the element index within the element list; and if the error flag
    is raised the index is that of an existing element, the one the
    failure message names. *)
Theorem parser_stays_in_bounds (format_elements : list DateTimeFormatElement)
  (timestamp_string : string) (tz : TimeZone) (now : Time)
  (st : ParseState) :
  run_elements format_elements timestamp_string tz now = Value st ->
  timestamp_str_parsed_length st <= length timestamp_string
  /\ processed_format_element_count st <= List.length format_elements
  /\ (error_in_parsing st = true ->
      exists e,
        nth_error format_elements (processed_format_element_count st)
        = Some e).
Proof.
  intros H. apply parse_elements_bounds in H.
  destruct H as (H1 & H2 & H3 & _). split; [exact H1|]. split; [exact H2|].
  intros Er. specialize (H3 Er).
  destruct (nth_error format_elements (processed_format_element_count st))
    as [e|] eqn:N; [eauto|].
  apply nth_error_None in N. lia.
Qed.

Variable MakeCivilSecond : Z -> Z -> Z -> Z -> Z -> Z -> CivilSecond.
Variable At_pre : TimeZone -> CivilSecond -> Time.
Variable IsValidTime : Time -> bool.

Local Abbreviation Parse :=
  (ParseTimeWithFormatElements Time TimeZone MakeCivilSecond At At_pre
     IsValidTime).
Local Abbreviation CastToTime :=
  (CastStringToTimestamp_time Time TimeZone MakeCivilSecond At At_pre
     IsValidTime).

Lemma Parse_success_branches (format_elements : list DateTimeFormatElement)
  (timestamp_string : string) (tz : TimeZone) (now : Time)
  (scale : TimestampScale) (t : Time) :
  Parse format_elements timestamp_string tz now scale = Value t ->
  forallb (fun e => has_parse_branch (type e)) format_elements = true.
Proof.
  unfold ParseTimeWithFormatElements.
  destruct (run_elements format_elements timestamp_string tz now)
    as [st|] eqn:E; cbn [bind]; [|discriminate].
  apply parse_elements_bounds in E. destruct E as (_ & Hc & _ & Hb).
  unfold finish_parse.
  destruct (error_in_parsing st); [discriminate|].
  destruct (_ <? length timestamp_string)%nat; [discriminate|].
  set (cnt := processed_format_element_count st) in *.
  destruct (skip_empty_literals (skipn cnt format_elements) cnt
            <? List.length format_elements)%nat eqn:L; [discriminate|].
  intros _. apply Nat.ltb_ge in L.
  pose proof (skip_empty_literals_spec (skipn cnt format_elements) cnt)
    as Hs. cbv zeta in Hs. destruct Hs as (Hs1 & Hs2 & _).
  apply forallb_forall. intros e He.
  apply In_nth with (d := default_element) in He.
  destruct He as (i & Hi & <-).
  destruct (Nat.lt_ge_cases i cnt) as [Hlt | Hge]; [now apply Hb|].
  specialize (Hs2 (i - cnt)). rewrite nth_skipn_add in Hs2.
  replace (cnt + (i - cnt)) with i in Hs2 by lia.
  assert (Hem : is_empty_double_quoted_literal
                  (nth i format_elements default_element) = true)
    by (apply Hs2; lia).
  unfold is_empty_double_quoted_literal in Hem.
  apply andb_true_iff in Hem as [Ht _]. apply type_eqb_eq in Ht.
  now rewrite Ht.
Qed.

(** X12.  A parse succeeds only on element lists made of literals and
    of the year elements YYYY, YYY, YY, Y, RRRR, RR and Y,YYY: an element
    of any other type (months, days, hours, minutes, seconds, meridian
    indicators and time zones among them) has no branch in the parsing
    loop and makes every parse, and so every cast, fail. *)
Theorem parse_succeeds_only_on_year_elements :
  (forall format_elements timestamp_string tz now scale t,
      Parse format_elements timestamp_string tz now scale = Value t ->
      forallb (fun e => has_parse_branch (type e)) format_elements = true)
  /\ (forall format_string timestamp_string tz now t,
        CastToTime format_string timestamp_string tz now = Value t ->
        exists es,
          GetDateTimeFormatElements format_string = Value es
          /\ forallb (fun e => has_parse_branch (type e)) es = true).
Proof.
  split; [exact Parse_success_branches|].
  intros f ts tz now t. unfold CastStringToTimestamp_time.
  destruct (_ || _); [discriminate|].
  destruct (GetDateTimeFormatElements f) as [es|]; cbn [bind];
    [|discriminate].
  destruct (ValidateDateTimeFormatElements es [] "TIMESTAMP"); cbn [bind];
    [|discriminate].
  intros H. exists es. split; [reflexivity|].
  eapply Parse_success_branches; exact H.
Qed.

(** X13.  Validation for parsing and the cast agree on the format: if
    [ValidateFormatStringForParsing] rejects a format for TIMESTAMP, the
    cast of any well-formed input with that format fails with the same
    error; if it accepts it, the cast is the parse of the input with the
    elements of the format. *)
Theorem validation_agrees_with_cast (format_string timestamp_string : string)
  (tz : TimeZone) (now : Time) :
  IsWellFormedUTF8 timestamp_string = true ->
  match ValidateFormatStringForParsing format_string TYPE_TIMESTAMP with
  | Failure e =>
      CastToTime format_string timestamp_string tz now = Failure e
  | Value _ =>
      CastToTime format_string timestamp_string tz now
      = Parse (elements_of format_string) timestamp_string tz now
          kNanoseconds
  end.
Proof.
  intros Hts.
  unfold ValidateFormatStringForParsing, CastStringToTimestamp_time,
    elements_of.
  destruct (IsWellFormedUTF8 format_string); cbn [negb orb];
    [|reflexivity].
  destruct (GetDateTimeFormatElements format_string) as [es|]; cbn [bind];
    [|reflexivity].
  destruct (ValidateDateTimeFormatElements es [] "TIMESTAMP") as [[]|];
    cbn [bind]; reflexivity.
Qed.

Variable ConvertTimeToTimestamp : Time -> option Z.

Local Abbreviation CastToMicros :=
  (CastStringToTimestamp_micros Time TimeZone MakeCivilSecond At At_pre
     IsValidTime ConvertTimeToTimestamp).

(** X14.  On a well-formed input the overload producing microseconds is
    the overload producing an instant followed by the conversion of the
    instant, an instant that does not convert being reported as "Invalid
    result from parsing function". *)
Theorem micros_overload_is_time_overload_converted
  (format_string timestamp_string : string) (tz : TimeZone) (now : Time) :
  IsWellFormedUTF8 timestamp_string = true ->
  CastToMicros format_string timestamp_string tz now
  = bind (CastToTime format_string timestamp_string tz now)
      (fun base_time =>
         match ConvertTimeToTimestamp base_time with
         | None =>
             Failure (MakeEvalError "Invalid result from parsing function")
         | Some timestamp_micros => Value timestamp_micros
         end).
Proof.
  intros Hts.
  unfold CastStringToTimestamp_micros, CastStringToTimestamp_time.
  rewrite Hts. cbn [negb orb].
  destruct (IsWellFormedUTF8 format_string); cbn [negb orb bind];
    [|reflexivity].
  destruct (GetDateTimeFormatElements format_string) as [es|]; cbn [bind];
    [|reflexivity].
  destruct (ValidateDateTimeFormatElements es [] "TIMESTAMP") as [[]|];
    cbn [bind]; [|reflexivity].
  unfold ParseTimeWithFormatElements_micros.
  (* The scale is not looked at by the parser. *)
  reflexivity.
Qed.

End ParserBounds.

Lemma parser_stays_in_bounds_witness :
  let st :=
    {| processed_format_element_count := 1;
       timestamp_str_parsed_length := 4;
       year := 2020; month := 6; mday := 1; hour := 0; min := 0; sec := 0;
       error_in_parsing := true |} in
  parse_elements RefTime.Time RefTime.TimeZone RefTime.At
    (elements_of "YYYY-MM") "2020/11" RefTime.UTC (RefTime.midnight 2002 6 15)
  = Value st
  /\ timestamp_str_parsed_length st <= length "2020/11"
  /\ processed_format_element_count st
     <= List.length (elements_of "YYYY-MM")
  /\ (error_in_parsing st = true ->
      exists e,
        nth_error (elements_of "YYYY-MM") (processed_format_element_count st)
        = Some e).
Proof.
  intros st. split; [vm_compute; reflexivity|].
  apply (parser_stays_in_bounds RefTime.Time RefTime.TimeZone RefTime.At
           (elements_of "YYYY-MM") "2020/11" RefTime.UTC
           (RefTime.midnight 2002 6 15) st).
  vm_compute. reflexivity.
Defined.

Lemma parse_succeeds_only_on_year_elements_witness :
  RefTime.ParseTimeWithFormatElements (elements_of "YYYY") "1999"
    RefTime.UTC (RefTime.midnight 2002 6 15)
  = Value (RefTime.midnight 1999 6 1)
  /\ forallb (fun e => has_parse_branch (type e)) (elements_of "YYYY") = true.
Proof.
  split; [vm_compute; reflexivity|].
  apply (proj1 (parse_succeeds_only_on_year_elements RefTime.Time
                  RefTime.TimeZone RefTime.At RefTime.MakeCivilSecond
                  RefTime.At_pre RefTime.IsValidTime)
           (elements_of "YYYY") "1999" RefTime.UTC
           (RefTime.midnight 2002 6 15) kNanoseconds
           (RefTime.midnight 1999 6 1)).
  vm_compute. reflexivity.
Defined.

Lemma validation_agrees_with_cast_witness :
  IsWellFormedUTF8 "11" = true
  /\ ValidateFormatStringForParsing "HH12" TYPE_TIMESTAMP
     = Failure (MakeEvalError
         "Format element in category MERIDIAN_INDICATOR is required when format element 'HH12' exists")
  /\ RefTime.CastStringToTimestamp "HH12" "11" RefTime.UTC
       (RefTime.midnight 2002 6 15)
     = Failure (MakeEvalError
         "Format element in category MERIDIAN_INDICATOR is required when format element 'HH12' exists").
Proof.
  split; [vm_compute; reflexivity|]. split; [vm_compute; reflexivity|].
  pose proof (validation_agrees_with_cast RefTime.Time RefTime.TimeZone
                RefTime.At RefTime.MakeCivilSecond RefTime.At_pre
                RefTime.IsValidTime "HH12" "11" RefTime.UTC
                (RefTime.midnight 2002 6 15) eq_refl) as H.
  exact H.
Defined.

Lemma micros_overload_is_time_overload_converted_witness :
  IsWellFormedUTF8 "2020" = true
  /\ CastStringToTimestamp_micros RefTime.Time RefTime.TimeZone
       RefTime.MakeCivilSecond RefTime.At RefTime.At_pre RefTime.IsValidTime
       RefTime.ConvertTimeToTimestamp "YYYY" "2020" RefTime.UTC
       (RefTime.midnight 2002 6 15)
     = Value (RefTime.midnight 2020 6 1 * 1000000)%Z.
Proof.
  split; [vm_compute; reflexivity|].
  rewrite (micros_overload_is_time_overload_converted RefTime.Time
             RefTime.TimeZone RefTime.At RefTime.MakeCivilSecond
             RefTime.At_pre RefTime.IsValidTime
             RefTime.ConvertTimeToTimestamp "YYYY" "2020" RefTime.UTC
             (RefTime.midnight 2002 6 15) eq_refl).
  vm_compute. reflexivity.
Defined.

(** ** Formatting *)

Lemma substr_from_split (off n : nat) (f : string) :
  off + n <= length f ->
  substr_from off f = substr off n f ++ substr_from (off + n) f.
Proof.
  revert off n. induction f as [|c f IH]; intros off n H.
  - simpl in H. assert (off = 0) by lia. assert (n = 0) by lia. subst.
    reflexivity.
  - destruct off as [|off].
    + destruct n as [|n]; [reflexivity|].
      cbn [Nat.add substr_from substr substring append]. f_equal.
      specialize (IH 0 n). cbn [Nat.add] in IH.
      change (substr_from 0 f) with f in IH. unfold substr in IH.
      apply IH. simpl in H. lia.
    + cbn [Nat.add substr_from substr substring].
      apply (IH off n). simpl in H. lia.
Qed.

Section FormatterChain.

Variable Time : Type.
Variable TimeZone : Type.
Variable At : TimeZone -> Time -> CivilInfo.
Variable FormatTime : string -> Time -> TimeZone -> string.
Variable GetWeekday : CivilSecond -> Weekday.
Variable GetSignHourAndMinuteTimeZoneOffset : CivilInfo -> bool * Z * Z.

Local Abbreviation Resolve :=
  (ResolveFormatString Time TimeZone At FormatTime GetWeekday
     GetSignHourAndMinuteTimeZoneOffset).
Local Abbreviation append_all :=
  (append_resolved Time TimeZone At FormatTime GetWeekday
     GetSignHourAndMinuteTimeZoneOffset).

Lemma append_resolved_acc (es : list DateTimeFormatElement) (t : Time)
  (tz : TimeZone) :
  forall acc,
    append_all es t tz acc
    = bind (append_all es t tz EmptyString) (fun s => Value (acc ++ s)).
Proof.
  induction es as [|e es IH]; intros acc; cbn [append_resolved].
  - cbn [bind]. now rewrite append_empty_r.
  - destruct (Resolve e t tz) as [s|]; cbn [bind]; [|reflexivity].
    rewrite (IH (acc ++ s)), (IH (EmptyString ++ s)).
    destruct (append_all es t tz EmptyString) as [r|]; cbn [bind];
      [|reflexivity].
    cbn [append]. now rewrite append_assoc.
Qed.

Lemma append_resolved_app (pre post : list DateTimeFormatElement) (t : Time)
  (tz : TimeZone) :
  forall acc,
    append_all (pre ++ post)%list t tz acc
    = bind (append_all pre t tz acc) (fun s => append_all post t tz s).
Proof.
  induction pre as [|e pre IH]; intros acc; cbn [append_resolved app].
  - reflexivity.
  - destruct (Resolve e t tz) as [s|]; cbn [bind]; [|reflexivity].
    apply IH.
Qed.

Lemma Resolve_unsupported (e : DateTimeFormatElement) (t : Time)
  (tz : TimeZone) :
  has_format_branch (type e) = false ->
  Resolve e t tz
  = Failure (MakeEvalError ("Unsupported format element " ++ ToString e)).
Proof.
  intros H. unfold ResolveFormatString,
    FromDateTimeFormatElementToFormatString.
  destruct (type e); try discriminate H; reflexivity.
Qed.

Lemma Resolve_supported (e : DateTimeFormatElement) (t : Time)
  (tz : TimeZone) :
  has_format_branch (type e) = true ->
  (category e <> kLiteral ->
   format_casing_type e <> kFormatCasingTypeUnspecified) ->
  exists s, Resolve e t tz = Value s.
Proof.
  intros H Hc. unfold ResolveFormatString.
  assert (R : exists s,
             FromDateTimeFormatElementToFormatString GetWeekday
               GetSignHourAndMinuteTimeZoneOffset e (At tz t) = Value s).
  { unfold FromDateTimeFormatElementToFormatString.
    destruct (type e); try discriminate H; try (eexists; reflexivity).
    - destruct (12 <? _)%Z; eexists; reflexivity.
    - destruct (12 <? _)%Z; eexists; reflexivity.
    - destruct (12 <? _)%Z; eexists; reflexivity.
    - destruct (12 <? _)%Z; eexists; reflexivity.
    - destruct (GetSignHourAndMinuteTimeZoneOffset _) as [[p h] m].
      eexists; reflexivity.
    - destruct (GetSignHourAndMinuteTimeZoneOffset _) as [[p h] m].
      eexists; reflexivity. }
  destruct R as [s ->]. cbn [bind].
  destruct (category_eqb (category e) kLiteral) eqn:C;
    [eexists; reflexivity|].
  assert (Hl : category e <> kLiteral).
  { intros E. rewrite E in C. discriminate C. }
  specialize (Hc Hl).
  destruct (format_casing_type e); try (eexists; reflexivity).
  now contradiction Hc.
Qed.

(** The text a literal written without quotes is rendered as is its own
    text in the format string. *)
Lemma Resolve_unquoted_literal (g : string) (e : DateTimeFormatElement)
  (t : Time) (tz : TimeZone) :
  GetNextDateTimeFormatElement g (AsciiStrToUpper g) = Value e ->
  is_unquoted_literal e = true ->
  Resolve e t tz = Value (substr 0 (len_in_format_str e) g).
Proof.
  intros G U. apply GetNextDateTimeFormatElement_cases in G.
  destruct G as (k & ty & Hwf & Hnm & Hp & Hn & G).
  pose proof (prefix_substring _ _ Hp) as Hsub.
  rewrite substring_upper in Hsub.
  unfold trie_key_named in Hnm. cbn [fst snd] in Hnm.
  unfold is_unquoted_literal in U.
  destruct G as [(Hc & casing & n & _ & _ & ->)
                | [(-> & ->) | [(-> & ->) | (-> & m & l & _ & ->)]]];
    cbn [type] in U.
  - exfalso. destruct ty; simpl in U; try discriminate U;
      now contradiction Hc.
  - reflexivity.
  - simpl in Hnm. apply andb_true_iff in Hnm as [_ Hk].
    apply String.eqb_eq in Hk. subst k.
    unfold ResolveFormatString, FromDateTimeFormatElementToFormatString.
    cbn [type len_in_format_str category bind category_eqb
         FormatElementCategory_beq].
    destruct g as [|c rest]; [discriminate Hsub|].
    simpl in Hsub. injection Hsub as Hc.
    assert (Hsp : c = space).
    { rewrite <- (toupper_not_alpha c); [exact Hc|]. rewrite Hc.
      reflexivity. }
    subst c. cbn [length Nat.add substr_from substr substring].
    now rewrite count_spaces_substring.
  - discriminate U.
Qed.

Lemma append_resolved_unquoted (f : string) (t : Time) (tz : TimeZone)
  (es : list DateTimeFormatElement) :
  forall offset acc,
    read_at_offsets f offset es ->
    forallb is_unquoted_literal es = true ->
    append_all es t tz acc = Value (acc ++ substr_from offset f).
Proof.
  induction es as [|e es IH]; intros off acc R U;
    cbn [read_at_offsets forallb append_resolved] in *.
  - subst off. rewrite substr_from_all by lia. now rewrite append_empty_r.
  - destruct R as (Hlt & G & R). apply andb_true_iff in U as [Ue U].
    pose proof G as B.
    apply GetNextDateTimeFormatElement_bounds in B; [|apply length_upper].
    rewrite length_substr_from in B.
    rewrite (Resolve_unquoted_literal _ _ t tz G Ue). cbn [bind].
    rewrite (IH _ _ R U). f_equal. rewrite append_assoc. f_equal.
    unfold substr. rewrite substring_substr_from.
    symmetry. apply substr_from_split. lia.
Qed.

Variable IsValidTime : Time -> bool.
Variable ToUnixMicros : Time -> Z.
Variable GetNormalizedTimeZone : Time -> TimeZone -> TimeZone.

Local Abbreviation Internal :=
  (FromCastFormatTimestampToStringInternal Time TimeZone At IsValidTime
     FormatTime GetWeekday ToUnixMicros GetNormalizedTimeZone
     GetSignHourAndMinuteTimeZoneOffset).
Local Abbreviation CastToString :=
  (CastFormatTimestampToString Time TimeZone At IsValidTime FormatTime
     GetWeekday ToUnixMicros GetNormalizedTimeZone
     GetSignHourAndMinuteTimeZoneOffset).

(** X15.  Punctuation and spaces are copied: a format string that is
    made of unquoted literals only (the characters - . / , ' ; : and runs
    of spaces) formats every valid timestamp to the format string
    itself. *)
Theorem unquoted_literals_are_copied (format_string : string)
  (es : list DateTimeFormatElement) (timestamp : Time) (timezone : TimeZone) :
  IsWellFormedUTF8 format_string = true ->
  IsValidTime timestamp = true ->
  GetDateTimeFormatElements format_string = Value es ->
  forallb is_unquoted_literal es = true ->
  CastToString format_string timestamp timezone = Value format_string.
Proof.
  intros Hf Ht H U.
  unfold CastFormatTimestampToString,
    FromCastFormatTimestampToStringInternal.
  rewrite Hf, H, Ht. cbn [negb bind].
  apply tokenization_iff_read_at_offsets in H.
  now rewrite (append_resolved_unquoted format_string _ _ es 0 EmptyString).
Qed.

(** X16.  A quoted literal is rendered as the text it quotes and
    nothing else of the output depends on it: if the rest of a format
    string formats a timestamp to [s], the rest preceded by the quoted
    form of [text] formats it to [text] followed by [s].  The text is not
    interpreted, whatever it contains. *)
Theorem quoted_literal_is_formatted_verbatim (text rest s : string)
  (timestamp : Time) (timezone : TimeZone) :
  IsWellFormedUTF8 (quoted text ++ rest) = true ->
  CastToString rest timestamp timezone = Value s ->
  CastToString (quoted text ++ rest) timestamp timezone = Value (text ++ s).
Proof.
  intros Hf. unfold CastFormatTimestampToString,
    FromCastFormatTimestampToStringInternal.
  rewrite Hf. cbn [negb].
  destruct (IsWellFormedUTF8 rest); cbn [negb]; [|discriminate].
  destruct (GetDateTimeFormatElements rest) as [es|] eqn:H; cbn [bind];
    [|discriminate].
  rewrite (tokenize_cons (quoted text ++ rest) (quoted_element text) es
             (GetNextDateTimeFormatElement_quoted text rest));
    [|now rewrite length_quoted, substr_from_app].
  cbn [bind].
  destruct (IsValidTime timestamp); cbn [negb]; [|discriminate].
  intros R. cbn [append_resolved].
  unfold ResolveFormatString at 1,
    FromDateTimeFormatElementToFormatString.
  cbn [quoted_element type category literal_value bind category_eqb
       FormatElementCategory_beq].
  rewrite append_resolved_acc, R. reflexivity.
Qed.

(** X17.  Formatting a valid timestamp with a well-formed format string
    that tokenizes succeeds when every element has a case in
    [FromDateTimeFormatElementToFormatString], and otherwise fails on the
    first element that has none, with "Unsupported format element" and
    the debug name of that element. *)
Theorem formatting_succeeds_exactly (format_string : string)
  (es : list DateTimeFormatElement) (timestamp : Time) (timezone : TimeZone) :
  IsWellFormedUTF8 format_string = true ->
  IsValidTime timestamp = true ->
  GetDateTimeFormatElements format_string = Value es ->
  (forallb (fun e => has_format_branch (type e)) es = true ->
   exists s, CastToString format_string timestamp timezone = Value s)
  /\ (forall pre e post,
        es = (pre ++ e :: post)%list ->
        forallb (fun e => has_format_branch (type e)) pre = true ->
        has_format_branch (type e) = false ->
        CastToString format_string timestamp timezone
        = Failure (MakeEvalError
                     ("Unsupported format element " ++ ToString e))).
Proof.
  intros Hf Ht H.
  unfold CastFormatTimestampToString,
    FromCastFormatTimestampToStringInternal.
  rewrite Hf, H, Ht. cbn [negb bind].
  assert (W : Forall element_wf es).
  { eapply tokenized_Forall; [|exact H].
    intros g e. apply GetNextDateTimeFormatElement_wf. }
  assert (S : forall l acc,
             Forall element_wf l ->
             forallb (fun e => has_format_branch (type e)) l = true ->
             exists s,
               append_all l timestamp
                 (GetNormalizedTimeZone timestamp timezone) acc = Value s).
  { induction l as [|e l IH]; intros acc Wl Hl; cbn [append_resolved].
    - eexists; reflexivity.
    - inversion Wl as [|? ? We Wl']; subst.
      cbn [forallb] in Hl. apply andb_true_iff in Hl as [He Hl].
      destruct (Resolve_supported e timestamp
                  (GetNormalizedTimeZone timestamp timezone) He) as [s ->].
      + intros Hc. destruct We as (_ & _ & _ & Hcase).
        destruct (category_eqb (category e) kLiteral) eqn:C.
        * apply category_eqb_eq in C. contradiction.
        * intros E. rewrite E in Hcase. simpl in Hcase. intuition congruence.
      + cbn [bind]. now apply IH. }
  split.
  - intros Hall. now apply S.
  - intros pre e post -> Hpre He.
    rewrite append_resolved_app.
    apply Forall_app in W as [Wpre _].
    destruct (S pre EmptyString Wpre Hpre) as [s ->]. cbn [bind].
    cbn [append_resolved].
    now rewrite Resolve_unsupported.
Qed.

End FormatterChain.

(** ** Years: what is rendered is read back *)

Lemma years_render_and_parse_back :
  forallb (fun y =>
             renders_and_parses_back 4 5 10000 y
             && renders_and_parses_back 3 3 999 y
             && renders_and_parses_back 2 2 99 y
             && renders_and_parses_back 1 1 9 y)
    (map Z.of_nat (seq 0 (Z.to_nat 10000))) = true.
Proof. vm_compute. reflexivity. Qed.

Lemma renders_and_parses_back_spec (n max_width : nat) (max y : Z) :
  renders_and_parses_back n max_width max y = true ->
  let s := StrFormat_0d n
             (if (n =? 4)%nat then y
              else Z.rem (to_int32 y) (power_of_ten n)) in
  length s = n
  /\ ParseInt s 1 max_width 0 max = Some (n, Z.rem y (power_of_ten n)).
Proof.
  unfold renders_and_parses_back. intros H. cbv zeta.
  set (s := StrFormat_0d n _) in *.
  apply andb_true_iff in H as [H1 H2]. apply Nat.eqb_eq in H1.
  split; [exact H1|].
  destruct (ParseInt s 1 max_width 0 max) as [[w v]|]; [|discriminate H2].
  apply andb_true_iff in H2 as [H2 H3].
  apply Nat.eqb_eq in H2. apply Z.eqb_eq in H3. now rewrite H2, H3.
Qed.

Lemma year_in_range_checked (y : Z) :
  (0 <= y <= 9999)%Z ->
  renders_and_parses_back 4 5 10000 y = true
  /\ renders_and_parses_back 3 3 999 y = true
  /\ renders_and_parses_back 2 2 99 y = true
  /\ renders_and_parses_back 1 1 9 y = true.
Proof.
  intros Hy. pose proof years_render_and_parse_back as H.
  rewrite forallb_forall in H. specialize (H y).
  assert (I : In y (map Z.of_nat (seq 0 (Z.to_nat 10000)))).
  { apply in_map_iff. exists (Z.to_nat y). split; [lia|].
    apply in_seq. lia. }
  specialize (H I).
  apply andb_true_iff in H as [H H1]. apply andb_true_iff in H as [H H2].
  apply andb_true_iff in H as [H4 H3]. auto.
Qed.

Section YearRoundTrip.

Variable GetWeekday : CivilSecond -> Weekday.
Variable GetSignHourAndMinuteTimeZoneOffset : CivilInfo -> bool * Z * Z.

Local Abbreviation Render :=
  (FromDateTimeFormatElementToFormatString GetWeekday
     GetSignHourAndMinuteTimeZoneOffset).

(** X18.  What is rendered for a year is read back.  For a year from 0
    to 9999 an element YYYY, YYY, YY, Y or RRRR, of the length of its name,
    is rendered as exactly that many digits, and the parser's branch for
    the same element reads all of them: YYYY and RRRR give the year back,
    and YYY, YY and Y put its last digits in place of those of the year so
    far. *)
Theorem year_rendering_is_read_back (format_element : DateTimeFormatElement)
  (info : CivilInfo) (st : ParseState) :
  is_digit_year (type format_element) = true ->
  len_in_format_str format_element
  = length (FormatElementTypeString (type format_element)) ->
  (0 <= cs_year (cs info) <= 9999)%Z ->
  exists s,
    Render format_element info = Value s
    /\ length s = len_in_format_str format_element
    /\ parse_element format_element s st
       = Value (Some (len_in_format_str format_element),
                set_year (year_read_back (type format_element) (year st)
                            (cs_year (cs info))) st).
Proof.
  intros Ht Hl Hy.
  destruct (year_in_range_checked _ Hy) as (C4 & C3 & C2 & C1).
  apply renders_and_parses_back_spec in C4, C3, C2, C1.
  cbv zeta in C4, C3, C2, C1.
  unfold FromDateTimeFormatElementToFormatString, parse_element,
    year_read_back.
  destruct (type format_element); try discriminate Ht;
    cbn [FormatElementTypeString length] in Hl |- *; rewrite Hl;
    eexists; (split; [reflexivity|]).
  - destruct C4 as [L P]. split; [exact L|].
    cbn [Nat.eqb] in P |- *. rewrite P.
    rewrite Z.rem_small by (change (power_of_ten 4) with 10000%Z; lia).
    reflexivity.
  - destruct C3 as [L P]. split; [exact L|].
    cbn [Nat.eqb] in P |- *.
    change (3 <? List.length powers_of_ten)%nat with true. cbn [negb].
    change (power_of_ten 3 - 1)%Z with 999%Z. rewrite P. reflexivity.
  - destruct C2 as [L P]. split; [exact L|].
    cbn [Nat.eqb] in P |- *.
    change (2 <? List.length powers_of_ten)%nat with true. cbn [negb].
    change (power_of_ten 2 - 1)%Z with 99%Z. rewrite P. reflexivity.
  - destruct C1 as [L P]. split; [exact L|].
    cbn [Nat.eqb] in P |- *.
    change (1 <? List.length powers_of_ten)%nat with true. cbn [negb].
    change (power_of_ten 1 - 1)%Z with 9%Z. rewrite P. reflexivity.
  - destruct C4 as [L P]. split; [exact L|].
    cbn [Nat.eqb] in P |- *. rewrite P.
    rewrite Z.rem_small by (change (power_of_ten 4) with 10000%Z; lia).
    reflexivity.
Qed.

End YearRoundTrip.

Lemma year_rendering_is_read_back_witness :
  exists s,
    FromDateTimeFormatElementToFormatString RefTime.GetWeekday
      RefTime.GetSignHourAndMinuteTimeZoneOffset (element_of "YY")
      (RefTime.At RefTime.UTC (RefTime.midnight 2021 3 4)) = Value s
    /\ length s = 2
    /\ parse_element (element_of "YY") s (state_in_year 1987)
       = Value (Some 2, set_year 1921 (state_in_year 1987)).
Proof.
  apply (year_rendering_is_read_back RefTime.GetWeekday
           RefTime.GetSignHourAndMinuteTimeZoneOffset (element_of "YY")
           (RefTime.At RefTime.UTC (RefTime.midnight 2021 3 4))
           (state_in_year 1987));
    [reflexivity | reflexivity | vm_compute; split; discriminate].
Defined.

(** ** The year strings of [CheckSupportedFormatYearElement] *)

Lemma all_bytes_equal_spec (c : ascii) (s : string) :
  all_bytes_equal c s = true ->
  forall i a, get i s = Some a -> a = c.
Proof.
  induction s as [|b s IH]; intros H i a G; [discriminate G|].
  cbn [all_bytes_equal] in H.
  destruct (Ascii.eqb b c) eqn:E; cbn [negb] in H; [|discriminate H].
  apply Ascii.eqb_eq in E. subst b.
  destruct i as [|i]; simpl in G; [now inversion G | eapply IH; eauto].
Qed.

(** X19.  [CheckSupportedFormatYearElement] holds of exactly eight
    strings: one to four letters Y, and one to four letters R. *)
Theorem supported_year_strings (upper_format_string : string) :
  CheckSupportedFormatYearElement upper_format_string = true
  <-> In upper_format_string
        ["Y"; "YY"; "YYY"; "YYYY"; "R"; "RR"; "RRR"; "RRRR"].
Proof.
  split.
  - unfold CheckSupportedFormatYearElement. intros H.
    destruct upper_format_string as [|c1 s]; [discriminate H|].
    cbn [String.eqb orb char_at get] in H.
    destruct (4 <? length (String c1 s))%nat eqn:L; [discriminate H|].
    apply Nat.ltb_ge in L.
    assert (Hc : c1 = "Y"%char \/ c1 = "R"%char).
    { destruct (Ascii.eqb c1 "Y") eqn:E1;
        [apply Ascii.eqb_eq in E1; auto|].
      destruct (Ascii.eqb c1 "R") eqn:E2;
        [apply Ascii.eqb_eq in E2; auto|].
      discriminate H. }
    assert (A : all_bytes_equal c1 (String c1 s) = true).
    { destruct (negb (Ascii.eqb c1 "Y") && negb (Ascii.eqb c1 "R"));
        [discriminate H | exact H]. }
    clear H. pose proof (all_bytes_equal_spec _ _ A) as G.
    destruct s as [|c2 [|c3 [|c4 [|c5 s]]]]; simpl in L; try lia;
      try (rewrite (G 1 c2 eq_refl)); try (rewrite (G 2 c3 eq_refl));
      try (rewrite (G 3 c4 eq_refl));
      destruct Hc as [-> | ->]; simpl; auto 10.
  - intros H. simpl in H.
    repeat (destruct H as [<- | H]; [vm_compute; reflexivity|]).
    contradiction.
Qed.

(** ** Validation for formatting and the casts to string *)

Section FormattingValidation.

Variable Time : Type.
Variable TimeZone : Type.
Variable At : TimeZone -> Time -> CivilInfo.
Variable At_pre : TimeZone -> CivilSecond -> Time.
Variable IsValidTime : Time -> bool.
Variable FormatTime : string -> Time -> TimeZone -> string.
Variable GetWeekday : CivilSecond -> Weekday.
Variable ToUnixMicros : Time -> Z.
Variable UTCTimeZone : TimeZone.
Variable AddNanoseconds : Time -> Z -> Time.
Variable GetNormalizedTimeZone : Time -> TimeZone -> TimeZone.
Variable GetSignHourAndMinuteTimeZoneOffset : CivilInfo -> bool * Z * Z.
Variable MakeTime : Z -> TimestampScale -> Time.
Variable IsValidDate : Z -> bool.
Variable DatetimeValue : Type.
Variable Datetime_IsValid : DatetimeValue -> bool.
Variable Datetime_DebugString : DatetimeValue -> string.
Variable Datetime_ConvertToCivilSecond : DatetimeValue -> CivilSecond.
Variable Datetime_Nanoseconds : DatetimeValue -> Z.
Variable TimeValue : Type.
Variable Time_IsValid : TimeValue -> bool.
Variable Time_DebugString : TimeValue -> string.
Variable Time_Hour : TimeValue -> Z.
Variable Time_Minute : TimeValue -> Z.
Variable Time_Second : TimeValue -> Z.
Variable Time_Nanoseconds : TimeValue -> Z.

Local Abbreviation CastDate :=
  (CastFormatDateToString Time TimeZone At IsValidTime FormatTime GetWeekday
     ToUnixMicros UTCTimeZone GetNormalizedTimeZone
     GetSignHourAndMinuteTimeZoneOffset MakeTime IsValidDate).
Local Abbreviation CastDatetime :=
  (CastFormatDatetimeToString Time TimeZone At At_pre IsValidTime FormatTime
     GetWeekday ToUnixMicros UTCTimeZone AddNanoseconds GetNormalizedTimeZone
     GetSignHourAndMinuteTimeZoneOffset DatetimeValue Datetime_IsValid
     Datetime_DebugString Datetime_ConvertToCivilSecond
     Datetime_Nanoseconds).
Local Abbreviation CastTime :=
  (CastFormatTimeToString Time TimeZone At At_pre IsValidTime FormatTime
     GetWeekday ToUnixMicros UTCTimeZone AddNanoseconds GetNormalizedTimeZone
     GetSignHourAndMinuteTimeZoneOffset TimeValue Time_IsValid
     Time_DebugString Time_Hour Time_Minute Time_Second Time_Nanoseconds).
Local Abbreviation CastTimestamp :=
  (CastFormatTimestampToString Time TimeZone At IsValidTime FormatTime
     GetWeekday ToUnixMicros GetNormalizedTimeZone
     GetSignHourAndMinuteTimeZoneOffset).

(** X20.  What [ValidateFormatStringForFormatting] rejects, the casts
    to string reject with the same error: a format string rejected for
    DATE, DATETIME, TIME or TIMESTAMP makes the cast of every valid value
    of that type fail with the error of the validation. *)
Theorem formatting_validation_agrees_with_casts (format_string : string)
  (e : ErrorStatus) :
  (ValidateFormatStringForFormatting format_string TYPE_DATE = Failure e ->
   forall date, IsValidDate date = true ->
                CastDate format_string date = Failure e)
  /\ (ValidateFormatStringForFormatting format_string TYPE_DATETIME
      = Failure e ->
      forall datetime, Datetime_IsValid datetime = true ->
                       CastDatetime format_string datetime = Failure e)
  /\ (ValidateFormatStringForFormatting format_string TYPE_TIME = Failure e ->
      forall time, Time_IsValid time = true ->
                   CastTime format_string time = Failure e)
  /\ (ValidateFormatStringForFormatting format_string TYPE_TIMESTAMP
      = Failure e ->
      forall timestamp timezone,
        CastTimestamp format_string timestamp timezone = Failure e).
Proof.
  unfold ValidateFormatStringForFormatting, CastFormatDateToString,
    CastFormatDatetimeToString, CastFormatTimeToString,
    CastFormatTimestampToString.
  destruct (IsWellFormedUTF8 format_string); cbn [negb].
  - destruct (GetDateTimeFormatElements format_string) as [es|];
      cbn [bind].
    + repeat split.
      * intros H date ->. cbn [negb]. now rewrite H.
      * intros H datetime ->. cbn [negb]. now rewrite H.
      * intros H time ->. cbn [negb]. now rewrite H.
      * discriminate.
    + repeat split; intros H; injection H as ->; intros;
        try match goal with V : _ = true |- _ => rewrite V end;
        reflexivity.
  - repeat split; intros H; injection H as ->; intros; reflexivity.
Qed.

End FormattingValidation.

(** ** The year of Y,YYY *)

Lemma prefix_get (c : ascii) (n : nat) (s : string) :
  prefix (String c EmptyString) (substr_from n s) = true ->
  get n s = Some c.
Proof.
  revert n. induction s as [|a s IH]; intros [|n]; simpl;
    try discriminate.
  - destruct (ascii_dec c a) as [->|]; [reflexivity | discriminate].
  - apply IH.
Qed.

(** X21.  What Y,YYY reads: one or two digits worth at most 10, a comma
    and exactly three digits, five or six bytes in all, giving a year from
    0 to 10999. *)
Theorem y_comma_yyy_shape (timestamp_string : string) (n : nat) (y : Z) :
  ParseWithFormatElementOfTypeYCommaYYY timestamp_string = Some (n, y) ->
  5 <= n <= 6 /\ n <= length timestamp_string
  /\ get (n - 4) timestamp_string = Some ","%char
  /\ (0 <= y <= 10999)%Z.
Proof.
  intros H. pose proof (ParseWithFormatElementOfTypeYCommaYYY_le _ _ _ H) as L.
  revert H. unfold ParseWithFormatElementOfTypeYCommaYYY.
  destruct (ParseInt timestamp_string 1 2 0 10) as [[n1 y1]|] eqn:E1;
    [|discriminate].
  unfold ParseStringByExactMatch, StartsWith.
  change (String.eqb "," EmptyString) with false. cbv iota.
  destruct (prefix "," (substr_from n1 timestamp_string)) eqn:P;
    [|discriminate].
  change (length ",") with 1.
  destruct (ParseInt (substr_from 1 (substr_from n1 timestamp_string))
              3 3 0 999) as [[n3 y3]|] eqn:E3; [|discriminate].
  intros H; injection H as <- <-.
  apply ParseInt_bounds in E1. apply ParseInt_bounds in E3.
  apply prefix_get in P.
  replace (n1 + 1 + n3 - 4) with n1 by lia.
  repeat split; try lia; exact P.
Qed.

Lemma y_comma_yyy_shape_witness :
  ParseWithFormatElementOfTypeYCommaYYY "10,999 AD" = Some (6, 10999%Z)
  /\ 5 <= 6 <= 6 /\ 6 <= length "10,999 AD"
  /\ get (6 - 4) "10,999 AD" = Some ","%char
  /\ (0 <= 10999 <= 10999)%Z.
Proof.
  split; [vm_compute; reflexivity|].
  apply (y_comma_yyy_shape "10,999 AD" 6 10999). vm_compute. reflexivity.
Defined.

(** ** Formatting, on concrete inputs *)

Lemma unquoted_literals_are_copied_witness :
  RefFormat.CastFormatTimestampToString "--/  .:" (RefTime.midnight 2020 2 29)
    RefTime.UTC
  = Value "--/  .:".
Proof.
  apply (unquoted_literals_are_copied RefTime.Time RefTime.TimeZone
           RefTime.At RefFormat.FormatTime RefTime.GetWeekday
           RefTime.GetSignHourAndMinuteTimeZoneOffset RefTime.IsValidTime
           RefFormat.ToUnixMicros RefFormat.GetNormalizedTimeZone
           "--/  .:" (elements_of "--/  .:") (RefTime.midnight 2020 2 29)
           RefTime.UTC); vm_compute; reflexivity.
Defined.

Lemma quoted_literal_is_formatted_verbatim_witness :
  RefFormat.CastFormatTimestampToString (quoted "%Y is " ++ "YYYY")
    (RefTime.midnight 2020 2 29) RefTime.UTC
  = Value ("%Y is " ++ "2020").
Proof.
  apply (quoted_literal_is_formatted_verbatim RefTime.Time RefTime.TimeZone
           RefTime.At RefFormat.FormatTime RefTime.GetWeekday
           RefTime.GetSignHourAndMinuteTimeZoneOffset RefTime.IsValidTime
           RefFormat.ToUnixMicros RefFormat.GetNormalizedTimeZone
           "%Y is " "YYYY" "2020" (RefTime.midnight 2020 2 29) RefTime.UTC);
    vm_compute; reflexivity.
Defined.

Lemma formatting_succeeds_exactly_witness :
  (exists s,
      RefFormat.CastFormatTimestampToString "YYYY-MM-DD"
        (RefTime.midnight 2020 2 29) RefTime.UTC = Value s)
  /\ RefFormat.CastFormatTimestampToString "YYYY-Q"
       (RefTime.midnight 2020 2 29) RefTime.UTC
     = Failure (MakeEvalError "Unsupported format element 'Q'").
Proof.
  split.
  - apply (proj1 (formatting_succeeds_exactly RefTime.Time RefTime.TimeZone
             RefTime.At RefFormat.FormatTime RefTime.GetWeekday
             RefTime.GetSignHourAndMinuteTimeZoneOffset RefTime.IsValidTime
             RefFormat.ToUnixMicros RefFormat.GetNormalizedTimeZone
             "YYYY-MM-DD" (elements_of "YYYY-MM-DD")
             (RefTime.midnight 2020 2 29) RefTime.UTC
             ltac:(vm_compute; reflexivity) ltac:(vm_compute; reflexivity)
             ltac:(vm_compute; reflexivity)));
      vm_compute; reflexivity.
  - apply (proj2 (formatting_succeeds_exactly RefTime.Time RefTime.TimeZone
             RefTime.At RefFormat.FormatTime RefTime.GetWeekday
             RefTime.GetSignHourAndMinuteTimeZoneOffset RefTime.IsValidTime
             RefFormat.ToUnixMicros RefFormat.GetNormalizedTimeZone
             "YYYY-Q" (elements_of "YYYY-Q")
             (RefTime.midnight 2020 2 29) RefTime.UTC
             ltac:(vm_compute; reflexivity) ltac:(vm_compute; reflexivity)
             ltac:(vm_compute; reflexivity))
           (elements_of "YYYY-") (element_of "Q") []);
      vm_compute; reflexivity.
Defined.

Lemma formatting_validation_agrees_with_casts_witness :
  ValidateFormatStringForFormatting "YYYY HH24" TYPE_DATE
  = Failure (MakeEvalError "DATE does not support 'HH24'")
  /\ RefFormat.IsValidDate 18321 = true
  /\ RefFormat.CastFormatDateToString "YYYY HH24" 18321
     = Failure (MakeEvalError "DATE does not support 'HH24'").
Proof.
  split; [vm_compute; reflexivity|]. split; [vm_compute; reflexivity|].
  apply (proj1 (formatting_validation_agrees_with_casts RefTime.Time
           RefTime.TimeZone RefTime.At RefTime.At_pre RefTime.IsValidTime
           RefFormat.FormatTime RefTime.GetWeekday RefFormat.ToUnixMicros
           RefTime.UTC RefFormat.AddNanoseconds
           RefFormat.GetNormalizedTimeZone
           RefTime.GetSignHourAndMinuteTimeZoneOffset RefFormat.MakeTime
           RefFormat.IsValidDate RefFormat.DatetimeValue
           RefFormat.Datetime_IsValid RefFormat.Datetime_DebugString
           RefFormat.Datetime_ConvertToCivilSecond
           RefFormat.Datetime_Nanoseconds RefFormat.TimeValue
           RefFormat.Time_IsValid RefFormat.Time_DebugString
           RefFormat.Time_Hour RefFormat.Time_Minute RefFormat.Time_Second
           RefFormat.Time_Nanoseconds "YYYY HH24"
           (MakeEvalError "DATE does not support 'HH24'")));
    vm_compute; reflexivity.
Defined.

(** ** Leading spaces of the input *)

Lemma trim_loop_offset (fuel : nat) :
  forall s offset, trim_loop fuel s offset = offset + trim_loop fuel s 0.
Proof.
  induction fuel as [|fuel IH]; intros s off; cbn [trim_loop]; [lia|].
  destruct s as [|c r] eqn:Es; [lia|]. rewrite <- Es. clear Es.
  destruct (U8_NEXT s) as [[ch n]|]; [|lia].
  destruct (u_isUWhiteSpace ch); [|lia].
  rewrite (IH _ (off + n)), (IH _ (0 + n)). lia.
Qed.

Lemma TrimLeadingUnicodeWhiteSpaces_spaces (n : nat) (s : string) :
  TrimLeadingUnicodeWhiteSpaces (spaces n ++ s)
  = n + TrimLeadingUnicodeWhiteSpaces s.
Proof.
  induction n as [|n IH]; [reflexivity|].
  unfold TrimLeadingUnicodeWhiteSpaces in *.
  cbn [spaces append length trim_loop].
  change (U8_NEXT (String space (spaces n ++ s))) with (Some (32%Z, 1)).
  cbv beta iota. change (u_isUWhiteSpace 32) with true. cbv iota.
  change (substr_from 1 (String space (spaces n ++ s))) with (spaces n ++ s).
  rewrite trim_loop_offset, IH. lia.
Qed.

Lemma substr_from_spaces (n k : nat) (s : string) :
  substr_from (n + k) (spaces n ++ s) = substr_from k s.
Proof. induction n as [|n IH]; [reflexivity | exact IH]. Qed.

Lemma length_spaces_app (n : nat) (s : string) :
  length (spaces n ++ s) = n + length s.
Proof. now rewrite length_append, length_spaces. Qed.

Lemma IsWellFormedUTF8_spaces (n : nat) (s : string) :
  IsWellFormedUTF8 (spaces n ++ s) = IsWellFormedUTF8 s.
Proof.
  induction n as [|n IH]; [reflexivity|].
  rewrite <- IH. unfold IsWellFormedUTF8.
  cbn [spaces append length well_formed_from].
  reflexivity.
Qed.

Lemma parse_element_shift (n : nat) (format_element : DateTimeFormatElement)
  (input : string) (st : ParseState) :
  parse_element format_element input (shift_cursor n st)
  = match parse_element format_element input st with
    | Value (parsed, st') => Value (parsed, shift_cursor n st')
    | Failure e => Failure e
    end.
Proof.
  unfold parse_element.
  destruct (type format_element); try reflexivity.
  - destruct (_ =? 0)%nat; reflexivity.
  - destruct (ParseInt input 1 5 0 10000) as [[p v]|]; reflexivity.
  - destruct (negb _); [reflexivity|].
    destruct (ParseInt input 1 _ 0 _) as [[p v]|]; reflexivity.
  - destruct (negb _); [reflexivity|].
    destruct (ParseInt input 1 _ 0 _) as [[p v]|]; reflexivity.
  - destruct (negb _); [reflexivity|].
    destruct (ParseInt input 1 _ 0 _) as [[p v]|]; reflexivity.
  - destruct (ParseInt input 1 5 0 10000) as [[p v]|]; reflexivity.
  - change (year (shift_cursor n st)) with (year st).
    destruct (ParseWithFormatElementOfTypeRR input (year st)) as [[p v]|];
      reflexivity.
  - destruct (ParseWithFormatElementOfTypeYCommaYYY input) as [[p v]|];
      reflexivity.
Qed.

Lemma shift_cursor_advance (n p : nat) (st : ParseState) :
  advance p (shift_cursor n st) = shift_cursor n (advance p st).
Proof.
  unfold advance, shift_cursor, set_timestamp_str_parsed_length.
  cbn [processed_format_element_count timestamp_str_parsed_length year
       month mday hour min sec error_in_parsing].
  f_equal. lia.
Qed.

Lemma parse_iteration_shift (n : nat)
  (format_elements : list DateTimeFormatElement) (timestamp_string : string)
  (st : ParseState) :
  parse_iteration format_elements (spaces n ++ timestamp_string)
    (shift_cursor n st)
  = match parse_iteration format_elements timestamp_string st with
    | Value st' => Value (shift_cursor n st')
    | Failure e => Failure e
    end.
Proof.
  unfold parse_iteration.
  change (timestamp_str_parsed_length (shift_cursor n st))
    with (n + timestamp_str_parsed_length st).
  change (processed_format_element_count (shift_cursor n st))
    with (processed_format_element_count st).
  rewrite substr_from_spaces, parse_element_shift.
  destruct (parse_element _ _ st) as [[[p|] st']|]; cbn [bind fst snd];
    try reflexivity.
  change (error_in_parsing (shift_cursor n st')) with (error_in_parsing st').
  destruct (error_in_parsing st'); cbn [negb]; [reflexivity|].
  now rewrite shift_cursor_advance.
Qed.

Lemma parse_loop_shift (n : nat) (fuel : nat)
  (format_elements : list DateTimeFormatElement) (timestamp_string : string) :
  forall st,
    parse_loop fuel format_elements (spaces n ++ timestamp_string)
      (shift_cursor n st)
    = match parse_loop fuel format_elements timestamp_string st with
      | Value st' => Value (shift_cursor n st')
      | Failure e => Failure e
      end.
Proof.
  induction fuel as [|fuel IH]; intros st; cbn [parse_loop];
    (replace (parse_loop_condition format_elements
                (spaces n ++ timestamp_string) (shift_cursor n st))
       with (parse_loop_condition format_elements timestamp_string st);
     [|unfold parse_loop_condition;
       change (error_in_parsing (shift_cursor n st))
         with (error_in_parsing st);
       change (timestamp_str_parsed_length (shift_cursor n st))
         with (n + timestamp_str_parsed_length st);
       change (processed_format_element_count (shift_cursor n st))
         with (processed_format_element_count st);
       rewrite length_spaces_app; f_equal; f_equal;
       destruct (Nat.ltb_spec (timestamp_str_parsed_length st)
                   (length timestamp_string));
       symmetry; [apply Nat.ltb_lt | apply Nat.ltb_ge]; lia]).
  - destruct (parse_loop_condition _ _ st); reflexivity.
  - destruct (parse_loop_condition _ _ st); [|reflexivity].
    rewrite parse_iteration_shift.
    destruct (parse_iteration format_elements timestamp_string st)
      as [st'|]; cbn [bind]; [apply IH | reflexivity].
Qed.

Section LeadingSpaces.

Variable Time : Type.
Variable TimeZone : Type.
Variable MakeCivilSecond : Z -> Z -> Z -> Z -> Z -> Z -> CivilSecond.
Variable At : TimeZone -> Time -> CivilInfo.
Variable At_pre : TimeZone -> CivilSecond -> Time.
Variable IsValidTime : Time -> bool.

Local Abbreviation Parse :=
  (ParseTimeWithFormatElements Time TimeZone MakeCivilSecond At At_pre
     IsValidTime).
Local Abbreviation CastToTime :=
  (CastStringToTimestamp_time Time TimeZone MakeCivilSecond At At_pre
     IsValidTime).

Lemma parse_elements_shift (n : nat)
  (format_elements : list DateTimeFormatElement) (timestamp_string : string)
  (tz : TimeZone) (now : Time) :
  parse_elements Time TimeZone At format_elements
    (spaces n ++ timestamp_string) tz now
  = match parse_elements Time TimeZone At format_elements timestamp_string
            tz now with
    | Value st => Value (shift_cursor n st)
    | Failure e => Failure e
    end.
Proof.
  unfold parse_elements.
  rewrite TrimLeadingUnicodeWhiteSpaces_spaces, <- parse_loop_shift.
  f_equal.
Qed.

Lemma finish_parse_shift (n : nat)
  (format_elements : list DateTimeFormatElement) (timestamp_string : string)
  (tz : TimeZone) (st : ParseState) (t : Time) :
  finish_parse Time TimeZone MakeCivilSecond At_pre IsValidTime
    format_elements (spaces n ++ timestamp_string) tz (shift_cursor n st)
  = Value t
  <-> finish_parse Time TimeZone MakeCivilSecond At_pre IsValidTime
        format_elements timestamp_string tz st = Value t.
Proof.
  unfold finish_parse.
  change (error_in_parsing (shift_cursor n st)) with (error_in_parsing st).
  change (timestamp_str_parsed_length (shift_cursor n st))
    with (n + timestamp_str_parsed_length st).
  change (processed_format_element_count (shift_cursor n st))
    with (processed_format_element_count st).
  change (year (shift_cursor n st)) with (year st).
  change (month (shift_cursor n st)) with (month st).
  change (mday (shift_cursor n st)) with (mday st).
  change (hour (shift_cursor n st)) with (hour st).
  change (min (shift_cursor n st)) with (min st).
  change (sec (shift_cursor n st)) with (sec st).
  destruct (error_in_parsing st); [split; discriminate|].
  rewrite substr_from_spaces, length_spaces_app.
  set (k := timestamp_str_parsed_length st
            + TrimLeadingUnicodeWhiteSpaces _).
  replace (n + timestamp_str_parsed_length st
           + TrimLeadingUnicodeWhiteSpaces
               (substr_from (timestamp_str_parsed_length st)
                  timestamp_string))
    with (n + k) by (unfold k; lia).
  replace (n + k <? n + length timestamp_string)%nat
    with (k <? length timestamp_string)%nat.
  - destruct (k <? length timestamp_string)%nat; [split; discriminate|].
    reflexivity.
  - destruct (Nat.ltb_spec k (length timestamp_string));
      symmetry; [apply Nat.ltb_lt | apply Nat.ltb_ge]; lia.
Qed.

Lemma Parse_leading_spaces (n : nat)
  (format_elements : list DateTimeFormatElement) (timestamp_string : string)
  (tz : TimeZone) (now : Time) (scale : TimestampScale) (t : Time) :
  Parse format_elements (spaces n ++ timestamp_string) tz now scale = Value t
  <-> Parse format_elements timestamp_string tz now scale = Value t.
Proof.
  unfold ParseTimeWithFormatElements. rewrite parse_elements_shift.
  destruct (parse_elements Time TimeZone At format_elements timestamp_string
              tz now) as [st|]; cbn [bind]; [|split; discriminate].
  apply finish_parse_shift.
Qed.

(** X22.  Leading spaces of the input are ignored: a parse, and a cast
    to an instant, of an input preceded by any number of spaces succeeds
    exactly when it does on the input itself, with the same result. *)
Theorem leading_spaces_are_ignored (n : nat) (timestamp_string : string)
  (tz : TimeZone) (now : Time) (t : Time) :
  (forall format_elements scale,
      Parse format_elements (spaces n ++ timestamp_string) tz now scale
      = Value t
      <-> Parse format_elements timestamp_string tz now scale = Value t)
  /\ (forall format_string,
        CastToTime format_string (spaces n ++ timestamp_string) tz now
        = Value t
        <-> CastToTime format_string timestamp_string tz now = Value t).
Proof.
  split.
  - intros es scale. apply Parse_leading_spaces.
  - intros f. unfold CastStringToTimestamp_time.
    destruct (_ || _); [split; discriminate|].
    destruct (GetDateTimeFormatElements f) as [es|]; cbn [bind];
      [|split; discriminate].
    destruct (ValidateDateTimeFormatElements es [] "TIMESTAMP");
      cbn [bind]; [|split; discriminate].
    apply Parse_leading_spaces.
Qed.

End LeadingSpaces.
